(** * Server B (NFS storage server): path handling, upload, download,
      archive and content classification.

    A shallow embedding of [main.go] (the storage server with
    [storeFiles], [getFileContent], [downloadFile], [downloadZip],
    [createZipArchive] and [isTextFile]) and of the two earlier variants
    of the server ([UploadHandler], [DownloadFileHandler],
    [DownloadZipHandler]).

    Go strings are byte strings: they are modelled by [string] (a list of
    8-bit [ascii]); byte slices are [list byte]; Go [int]/[int64] values
    are [Z] (every count below is bounded by a list length, far from the
    64-bit range). *)

From Stdlib Require Import String Ascii List ZArith Lia Bool Arith.
From Stdlib.Strings Require Import Byte.
From Stdlib Require Import DecimalString SpecFloat.
Import ListNotations.

Local Open Scope list_scope.
Local Open Scope string_scope.
Local Open Scope Z_scope.

(** ** Package [strings] *)

Module Strings.

(** [strings.HasPrefix(s, prefix)]. *)
Fixpoint HasPrefix (s prefix : string) {struct prefix} : bool :=
  match prefix with
  | EmptyString => true
  | String p prefix' =>
      match s with
      | EmptyString => false
      | String c s' => Ascii.eqb c p && HasPrefix s' prefix'
      end
  end.

(** [strings.Contains(s, substr)]. *)
Fixpoint Contains (s substr : string) : bool :=
  HasPrefix s substr ||
  match s with
  | EmptyString => false
  | String _ s' => Contains s' substr
  end.

(** [strings.ReplaceAll(s, old, new)] for one-byte [old] and [new]. *)
Fixpoint ReplaceAll (s : string) (old new : ascii) : string :=
  match s with
  | EmptyString => EmptyString
  | String c s' =>
      String (if Ascii.eqb c old then new else c) (ReplaceAll s' old new)
  end.

(** [strings.Join(elems, sep)]. *)
Definition Join (elems : list string) (sep : string) : string :=
  String.concat sep elems.

(** [strings.EqualFold] on ASCII letters. *)
Definition lower (c : ascii) : ascii :=
  let n := nat_of_ascii c in
  if (65 <=? n)%nat && (n <=? 90)%nat then ascii_of_nat (n + 32) else c.

Fixpoint EqualFold (s t : string) : bool :=
  match s, t with
  | EmptyString, EmptyString => true
  | String a s', String b t' => Ascii.eqb (lower a) (lower b) && EqualFold s' t'
  | _, _ => false
  end.

End Strings.

(** ** Package [path/filepath] (Unix: the separator is the slash, there
       are no volume names)

    The functions of the library work on the bytes of the path; they
    are given here on its elements, the pieces between separators. *)

Module Filepath.

Definition Separator : ascii := "/"%char.

Definition IsPathSeparator (c : ascii) : bool := Ascii.eqb c Separator.

(** The elements of a path: the maximal separator-free pieces.  A path
    with [k] separators has [k+1] elements, some of them possibly
    empty. *)
Fixpoint elements (path : string) : list string :=
  match path with
  | EmptyString => [EmptyString]
  | String c rest =>
      if IsPathSeparator c then EmptyString :: elements rest
      else match elements rest with
           | [] => [String c EmptyString]
           | e :: es => String c e :: es
           end
  end.

(** One round of the loop of [Clean] on the element just read.  [out]
    is the output so far, last element first.  An empty element and [.]
    are dropped; [..] removes the last element when it can backtrack
    (the output is not empty and does not end in a [..] that could not
    be resolved), is dropped at the root of a rooted path, and is kept
    otherwise; any other element is copied. *)
Definition clean_step (rooted : bool) (out : list string) (e : string)
  : list string :=
  if String.eqb e "" then out
  else if String.eqb e "." then out
  else if String.eqb e ".." then
    match out with
    | [] => if rooted then out else [".."]
    | top :: out' =>
        if String.eqb top ".." then ".." :: out else out'
    end
  else e :: out.

Definition clean_elements (rooted : bool) (es : list string) : list string :=
  rev (fold_left (clean_step rooted) es []).

Definition rooted (path : string) : bool :=
  match path with
  | String c _ => IsPathSeparator c
  | EmptyString => false
  end.

(** The text of a cleaned path. *)
Definition render (rooted : bool) (es : list string) : string :=
  if rooted then "/" ++ Strings.Join es "/"
  else match es with
       | [] => "."
       | _ => Strings.Join es "/"
       end.

(** [filepath.Clean]. *)
Definition Clean (path : string) : string :=
  if String.eqb path "" then "."
  else render (rooted path) (clean_elements (rooted path) (elements path)).

(** [filepath.Join] of two elements: the non-empty elements are joined
    by the separator, starting at the first non-empty one, and the
    result is cleaned. *)
Definition Join (a b : string) : string :=
  if negb (String.eqb a "") then Clean (a ++ "/" ++ b)
  else if negb (String.eqb b "") then Clean b
  else "".

Fixpoint strip_trailing_empty (es : list string) : list string :=
  match es with
  | [] => []
  | e :: es' =>
      match strip_trailing_empty es' with
      | [] => if String.eqb e "" then [] else [e]
      | l => e :: l
      end
  end.

(** [filepath.Base]: the last element of the path, trailing separators
    removed first; [.] for the empty path and the separator for a path
    of separators only. *)
Definition Base (path : string) : string :=
  if String.eqb path "" then "."
  else match strip_trailing_empty (elements path) with
       | [] => "/"
       | e :: es => last es e
       end.

(** The part of the path up to and including the last separator. *)
Definition dir_part (path : string) : string :=
  fold_right (fun e text => e ++ String "/" text) ""
             (removelast (elements path)).

(** [filepath.Dir]: everything but the last element, cleaned. *)
Definition Dir (path : string) : string := Clean (dir_part path).

End Filepath.

(** ** Package [github.com/google/uuid] *)

Module Uuid.

(** [xtob] succeeds exactly on two hexadecimal digits. *)
Definition is_hex (c : ascii) : bool :=
  let n := nat_of_ascii c in
  (((48 <=? n) && (n <=? 57)) || ((65 <=? n) && (n <=? 70))
   || ((97 <=? n) && (n <=? 102)))%nat.

(** The check of the form [xxxxxxxx-xxxx-xxxx-xxxx-xxxxxxxxxxxx] on
    the first 36 bytes of [s]: a dash at the offsets 8, 13, 18 and 23
    and hexadecimal digits elsewhere.  Bytes after the 36th are not
    looked at. *)
Fixpoint shape (pattern s : string) {struct pattern} : bool :=
  match pattern with
  | EmptyString => true
  | String p pattern' =>
      match s with
      | EmptyString => false
      | String c s' =>
          (if Ascii.eqb p "x" then is_hex c else Ascii.eqb c p)
          && shape pattern' s'
      end
  end.

Definition canonical (s : string) : bool :=
  shape "xxxxxxxx-xxxx-xxxx-xxxx-xxxxxxxxxxxx" s.

Fixpoint all_hex (s : string) : bool :=
  match s with
  | EmptyString => true
  | String c s' => is_hex c && all_hex s'
  end.

(** The slices [s[n:]] and [s[:n]]. *)
Fixpoint drop (n : nat) (s : string) : string :=
  match n, s with
  | S n', String _ s' => drop n' s'
  | _, _ => s
  end.

Fixpoint take (n : nat) (s : string) : string :=
  match n, s with
  | S n', String c s' => String c (take n' s')
  | _, _ => EmptyString
  end.

(** [uuid.Parse(s)] returns no error.  The switch is on [len(s)]: the
    plain form (36 bytes), the URN form (45), the braced form (38,
    where the library drops the first byte and checks the following 36
    without looking at the braces themselves) and the raw form (32
    hexadecimal digits). *)
Definition Parse_ok (s : string) : bool :=
  let n := String.length s in
  if (n =? 36)%nat then canonical s
  else if (n =? 36 + 9)%nat then
    Strings.EqualFold (take 9 s) "urn:uuid:" && canonical (drop 9 s)
  else if (n =? 36 + 2)%nat then canonical (drop 1 s)
  else if (n =? 32)%nat then all_hex s
  else false.

End Uuid.

(** ** Package [unicode/utf8] *)

Module Utf8.

Definition byte_val (b : byte) : Z := Z.of_N (Byte.to_N b).

(** The table [first] with [acceptRanges]: for a leading byte of a
    multi-byte sequence, the length of the sequence and the range
    allowed for its second byte; [None] for an illegal leading byte. *)
Definition first (b : Z) : option (nat * Z * Z) :=
  if b <? 0xC2 then None
  else if b <=? 0xDF then Some (2%nat, 0x80, 0xBF)
  else if b =? 0xE0 then Some (3%nat, 0xA0, 0xBF)
  else if b <=? 0xEC then Some (3%nat, 0x80, 0xBF)
  else if b =? 0xED then Some (3%nat, 0x80, 0x9F)
  else if b <=? 0xEF then Some (3%nat, 0x80, 0xBF)
  else if b =? 0xF0 then Some (4%nat, 0x90, 0xBF)
  else if b <=? 0xF3 then Some (4%nat, 0x80, 0xBF)
  else if b =? 0xF4 then Some (4%nat, 0x80, 0x8F)
  else None.

Definition within (c : byte) (lo hi : Z) : bool :=
  (lo <=? byte_val c) && (byte_val c <=? hi).

(** [utf8.Valid]. *)
Fixpoint Valid (p : list byte) : bool :=
  match p with
  | [] => true
  | b :: rest =>
      if byte_val b <? 0x80 then Valid rest
      else
        match first (byte_val b) with
        | None => false
        | Some (size, lo, hi) =>
            match rest with
            | [] => false
            | c1 :: rest1 =>
                within c1 lo hi &&
                if (size =? 2)%nat then Valid rest1
                else
                  match rest1 with
                  | [] => false
                  | c2 :: rest2 =>
                      within c2 0x80 0xBF &&
                      if (size =? 3)%nat then Valid rest2
                      else
                        match rest2 with
                        | [] => false
                        | c3 :: rest3 => within c3 0x80 0xBF && Valid rest3
                        end
                  end
            end
        end
  end.

End Utf8.

(** ** [isTextFile] *)

(** The two counters of the loop of [isTextFile]. *)
Record Counters := { nullBytes : Z; controlChars : Z }.

(** One round of the loop on the byte [b]. *)
Definition count_byte (b : byte) (k : Counters) : Counters :=
  let v := Utf8.byte_val b in
  {| nullBytes := if v =? 0 then nullBytes k + 1 else nullBytes k;
     controlChars :=
       if (v <? 32) && negb (v =? 9) && negb (v =? 10) && negb (v =? 13)
       then controlChars k + 1 else controlChars k |}.

(** [for i, b := range content { if i > 8192 { break }; ... }]. *)
Fixpoint scan (i : Z) (content : list byte) (k : Counters) : Counters :=
  match content with
  | [] => k
  | b :: rest => if i >? 8192 then k else scan (i + 1) rest (count_byte b k)
  end.

(** [float64(count)/float64(contentLen) > c] for the constants [0.01]
    ([num/den = 1/100]) and [0.05] ([5/100]), in exact arithmetic.  The
    counts of the loop are at most 8193, so a quotient above a constant
    needs [contentLen] below a million; there the exact quotient and
    the constant are apart by at least [1/(100*contentLen)], far more
    than a rounding error of a 64-bit float, and the rounded quotient
    falls on the same side.  [Float64] below has the IEEE 754
    computation, and [ratio_above_agrees_with_binary64] compares the
    two around every threshold. *)
Definition ratio_above (count contentLen num den : Z) : bool :=
  num * contentLen <? count * den.

Definition isTextFile (content : list byte) : bool :=
  if (Z.of_nat (length content) =? 0) then true
  else if negb (Utf8.Valid content) then false
  else
    let k := scan 0 content {| nullBytes := 0; controlChars := 0 |} in
    let contentLen := Z.of_nat (length content) in
    if contentLen >? 100 then
      if ratio_above (nullBytes k) contentLen 1 100 then false
      else if ratio_above (controlChars k) contentLen 5 100 then false
      else true
    else true.

(** The classifier as the specification words it: the counts are taken
    over a window of at most the first 8192 bytes and the two ratios are
    taken over that window. *)
Definition window (content : list byte) : list byte :=
  firstn (Z.to_nat 8192) content.

Definition count_window (content : list byte) : Counters :=
  fold_left (fun k b => count_byte b k) (window content)
            {| nullBytes := 0; controlChars := 0 |}.

Definition classifier_spec (content : list byte) : bool :=
  match content with
  | [] => true
  | _ =>
      if negb (Utf8.Valid content) then false
      else
        let k := count_window content in
        let inspected := Z.of_nat (length (window content)) in
        if Z.of_nat (length content) >? 100 then
          if ratio_above (nullBytes k) inspected 1 100 then false
          else if ratio_above (controlChars k) inspected 5 100 then false
          else true
        else true
  end.

(** The same rules with the two ratios taken over the whole buffer, as
    [isTextFile] divides by [len(content)]. *)
Definition classifier_total (content : list byte) : bool :=
  match content with
  | [] => true
  | _ =>
      if negb (Utf8.Valid content) then false
      else
        let k := count_window content in
        let total := Z.of_nat (length content) in
        if total >? 100 then
          if ratio_above (nullBytes k) total 1 100 then false
          else if ratio_above (controlChars k) total 5 100 then false
          else true
        else true
  end.

(** ** The file system

    A tree of directories and regular files (no symbolic links, no
    permissions).  The entries of a directory are kept in the order of
    their names, the order in which [os.ReadDir] reports them. *)

#[warnings="-register-all"]
Inductive node :=
| File (data : list byte)
| Dir (entries : list (string * node)).

Module Fs.

Fixpoint get (c : string) (es : list (string * node)) : option node :=
  match es with
  | [] => None
  | (c', n) :: es' => if String.eqb c c' then Some n else get c es'
  end.

Fixpoint set (c : string) (n : node) (es : list (string * node))
  : list (string * node) :=
  match es with
  | [] => [(c, n)]
  | (c', n') :: es' =>
      match String.compare c c' with
      | Eq => (c, n) :: es'
      | Lt => (c, n) :: es
      | Gt => (c', n') :: set c n es'
      end
  end.

Fixpoint del (c : string) (es : list (string * node))
  : list (string * node) :=
  match es with
  | [] => []
  | (c', n) :: es' => if String.eqb c c' then del c es' else (c', n) :: del c es'
  end.

(** The node at the end of a path of names, from the node [t]. *)
Fixpoint lookup (t : node) (p : list string) : option node :=
  match p with
  | [] => Some t
  | c :: p' =>
      match t with
      | File _ => None
      | Dir es =>
          match get c es with
          | Some n => lookup n p'
          | None => None
          end
      end
  end.

Inductive stat_result :=
| IsFile (size : Z)
| IsDir
| NotExist   (* ENOENT *)
| NotDir.    (* ENOTDIR: a name on the way is a regular file *)

Fixpoint stat (t : node) (p : list string) : stat_result :=
  match p with
  | [] =>
      match t with
      | File d => IsFile (Z.of_nat (length d))
      | Dir _ => IsDir
      end
  | c :: p' =>
      match t with
      | File _ => NotDir
      | Dir es =>
          match get c es with
          | Some n => stat n p'
          | None => NotExist
          end
      end
  end.

(** [os.MkdirAll]: creates the directory and the missing parents;
    fails, creating nothing, when a name on the way is a regular
    file. *)
Fixpoint mkdir_all (t : node) (p : list string) : option node :=
  match t with
  | File _ => None
  | Dir es =>
      match p with
      | [] => Some t
      | c :: p' =>
          let child := match get c es with Some n => n | None => Dir [] end in
          match mkdir_all child p' with
          | Some n' => Some (Dir (set c n' es))
          | None => None
          end
      end
  end.

(** Replaces the data of the regular file at [p], creating the file
    when its parent directory exists; fails when the parent is missing
    or not a directory, or when [p] is a directory. *)
Fixpoint put_file (t : node) (p : list string) (d : list byte)
  : option node :=
  match p with
  | [] =>
      match t with
      | File _ => Some (File d)
      | Dir _ => None
      end
  | c :: p' =>
      match t with
      | File _ => None
      | Dir es =>
          match get c es with
          | Some n =>
              match put_file n p' d with
              | Some n' => Some (Dir (set c n' es))
              | None => None
              end
          | None =>
              match p' with
              | [] => Some (Dir (set c (File d) es))
              | _ :: _ => None
              end
          end
      end
  end.

(** [os.RemoveAll]: removes the node at [p] and everything below it;
    nothing happens when there is no such node.  The root of the tree
    itself stays. *)
Fixpoint remove_all (t : node) (p : list string) : node :=
  match p with
  | [] => t
  | c :: p' =>
      match t with
      | File _ => t
      | Dir es =>
          match p' with
          | [] => Dir (del c es)
          | _ :: _ =>
              match get c es with
              | Some n => Dir (set c (remove_all n p') es)
              | None => t
              end
          end
      end
  end.

(** [os.Remove]: removes a regular file or an empty directory. *)
Definition remove (t : node) (p : list string) : option node :=
  match lookup t p with
  | Some (File _) | Some (Dir []) => Some (remove_all t p)
  | _ => None
  end.

(** [filepath.WalkDir] / [filepath.Walk]: the nodes below (and
    including) [t], a directory before its entries, the entries in the
    order of their names; each with its path relative to the start. *)
Fixpoint walk (rel : list string) (t : node) : list (list string * node) :=
  match t with
  | File _ => [(rel, t)]
  | Dir es =>
      (rel, t) ::
      (fix walk_entries (es : list (string * node)) :=
         match es with
         | [] => []
         | (c, n) :: es' => walk (rel ++ [c])%list n ++ walk_entries es'
         end)%list es
  end.

End Fs.

(** ** The operating system seen by one request

    The process has a working directory (a list of names from the root),
    a disk, and a record of the file-system calls made so far, the
    latest first. *)

Inductive FsCall :=
| CallMkdirAll (path : string)
| CallCreate (path : string)
| CallWrite (path : string) (bytes : nat)
| CallRemove (path : string)
| CallRemoveAll (path : string)
| CallStat (path : string)
| CallOpenRead (path : string)
| CallWalk (path : string).

Record OS := { cwd : list string; disk : node; calls : list FsCall }.

Module Os.

(** The names from the root that a path denotes: a relative path
    starts at the working directory; [.] and empty elements are
    skipped, [..] goes one directory up and stays at the root. *)
Definition resolve (wd : list string) (path : string) : list string :=
  rev (fold_left (Filepath.clean_step true) (Filepath.elements path)
                 (if Filepath.rooted path then [] else rev wd)).

Definition record (o : OS) (c : FsCall) (d : node) : OS :=
  {| cwd := cwd o; disk := d; calls := c :: calls o |}.

Definition at_ (o : OS) (path : string) : list string := resolve (cwd o) path.

(** [os.MkdirAll(path, perm)]; [true] when [err == nil]. *)
Definition MkdirAll (o : OS) (path : string) : bool * OS :=
  match Fs.mkdir_all (disk o) (at_ o path) with
  | Some d => (true, record o (CallMkdirAll path) d)
  | None => (false, record o (CallMkdirAll path) (disk o))
  end.

(** [os.Create(path)]: creates or truncates the file. *)
Definition Create (o : OS) (path : string) : bool * OS :=
  match Fs.put_file (disk o) (at_ o path) [] with
  | Some d => (true, record o (CallCreate path) d)
  | None => (false, record o (CallCreate path) (disk o))
  end.

(** The bytes written through the handle of a created file. *)
Definition Write (o : OS) (path : string) (data : list byte) : OS :=
  match Fs.put_file (disk o) (at_ o path) data with
  | Some d => record o (CallWrite path (length data)) d
  | None => record o (CallWrite path (length data)) (disk o)
  end.

(** [os.Remove(path)]; its error is never looked at. *)
Definition Remove (o : OS) (path : string) : OS :=
  match Fs.remove (disk o) (at_ o path) with
  | Some d => record o (CallRemove path) d
  | None => record o (CallRemove path) (disk o)
  end.

(** [os.RemoveAll(path)]; its error is never looked at. *)
Definition RemoveAll (o : OS) (path : string) : OS :=
  record o (CallRemoveAll path) (Fs.remove_all (disk o) (at_ o path)).

(** [os.Stat(path)]. *)
Definition Stat (o : OS) (path : string) : Fs.stat_result * OS :=
  (Fs.stat (disk o) (at_ o path), record o (CallStat path) (disk o)).

(** [os.Open(path)] followed by reading the file to its end, and
    [os.ReadFile(path)]: the bytes of a regular file. *)
Definition ReadAll (o : OS) (path : string) : option (list byte) * OS :=
  (match Fs.lookup (disk o) (at_ o path) with
   | Some (File d) => Some d
   | _ => None
   end, record o (CallOpenRead path) (disk o)).

(** [filepath.WalkDir(root, fn)] with [filepath.Rel(root, path)]: the
    nodes visited with their paths relative to [root]; none when
    [root] cannot be read. *)
Definition Walk (o : OS) (root : string) : list (list string * node) * OS :=
  (match Fs.lookup (disk o) (at_ o root) with
   | Some n => Fs.walk [] n
   | None => []
   end, record o (CallWalk root) (disk o)).

End Os.

(** ** Requests and responses *)

(** One part of [r.MultipartForm.File]: its file name and bytes.  Two
    fields stand for what the environment decides: whether
    [fileHeader.Open()] fails, and whether [io.Copy] fails, after how
    many bytes. *)
Record FileHeader := {
  Filename : string;
  Data : list byte;
  open_fails : bool;
  copy_fails : option nat
}.

(** A parsed multipart request: whether [r.ParseMultipartForm] fails,
    the form values and the file parts by field name (in the order in
    which a [range] over the map visits the fields). *)
Record Request := {
  parse_fails : bool;
  Value : list (string * string);
  MultipartFile : list (string * list FileHeader)
}.

Fixpoint assoc {A : Type} (key : string) (l : list (string * A)) : option A :=
  match l with
  | [] => None
  | (k, v) :: l' => if String.eqb key k then Some v else assoc key l'
  end.

(** [r.FormValue(key)]. *)
Definition FormValue (r : Request) (key : string) : string :=
  match assoc key (Value r) with
  | Some v => v
  | None => ""
  end.

(** [r.MultipartForm.File[field]]. *)
Definition FormFiles (r : Request) (field : string) : list FileHeader :=
  match assoc field (MultipartFile r) with
  | Some fs => fs
  | None => []
  end.

(** What a handler sends back. *)
Inductive Response :=
| Error (code : Z) (message : string)
    (* respondWithError / http.Error *)
| Success (message : string)
    (* StoreResponse{Success: true, Message}, or the text of a 200 *)
| Content (file_path : string) (size : Z) (is_text : bool)
          (content : string) (download_url : option string)
| Attachment (filename : string) (content_length : Z) (body : list byte)
| Archive (filename : string) (entries : list (string * list byte))
| Crash.
    (* the handler panics on a nil [fileInfo]; net/http drops the
       connection *)

(** The lines written by [log.Printf] in the loop of [storeFiles]. *)
Inductive LogLine :=
| ErrorOpeningFile (filename : string)
| InvalidFilename (filename : string)
| InvalidPath (relativePath : string)
| ErrorCreatingDirectory (fullPath : string)
| ErrorCreatingFile (fullPath : string)
| ErrorWritingFile (fullPath : string)
| StoredFile (relativePath : string) (written : Z).

(** [%d]. *)
Definition show (n : Z) : string := NilZero.string_of_int (Z.to_int n).

(** ** [main.go] *)

Record StorageServer := { baseStorageDir : string }.

(** The variables of the loop of [storeFiles]. *)
Record StoreState := {
  os : OS;
  storedFiles : list string;
  totalSize : Z;
  logged : list LogLine   (* latest first *)
}.

Definition skip (st : StoreState) (o : OS) (l : LogLine) : StoreState :=
  {| os := o; storedFiles := storedFiles st; totalSize := totalSize st;
     logged := l :: logged st |}.

(** [io.Copy(dst, file)] into the file just created at [path]: the
    number of bytes written and whether it succeeded. *)
Definition io_Copy (o : OS) (path : string) (fh : FileHeader) : Z * bool * OS :=
  match copy_fails fh with
  | None => (Z.of_nat (length (Data fh)), true, Os.Write o path (Data fh))
  | Some k =>
      let part := firstn k (Data fh) in
      (Z.of_nat (length part), false, Os.Write o path part)
  end.

(** The body of [for _, fileHeader := range files]. *)
Definition store_file (r : Request) (storageDir : string)
                      (st : StoreState) (fileHeader : FileHeader) : StoreState :=
  if open_fails fileHeader then
    skip st (os st) (ErrorOpeningFile (Filename fileHeader))
  else
    let fileName := Filepath.Base (Filename fileHeader) in
    if String.eqb fileName "" || String.eqb fileName "." || String.eqb fileName ".."
    then skip st (os st) (InvalidFilename (Filename fileHeader))
    else
      let relativePath := FormValue r ("path_" ++ Filename fileHeader) in
      let relativePath :=
        if String.eqb relativePath "" then fileName else relativePath in
      let relativePath := Filepath.Clean relativePath in
      if Strings.HasPrefix relativePath ".." then
        skip st (os st) (InvalidPath relativePath)
      else
        let fullPath := Filepath.Join storageDir relativePath in
        let '(ok, o1) := Os.MkdirAll (os st) (Filepath.Dir fullPath) in
        if negb ok then skip st o1 (ErrorCreatingDirectory fullPath)
        else
          let '(ok, o2) := Os.Create o1 fullPath in
          if negb ok then skip st o2 (ErrorCreatingFile fullPath)
          else
            let '(written, ok, o3) := io_Copy o2 fullPath fileHeader in
            if negb ok then
              skip st (Os.Remove o3 fullPath) (ErrorWritingFile fullPath)
            else
              {| os := o3;
                 storedFiles := (storedFiles st ++ [relativePath])%list;
                 totalSize := totalSize st + written;
                 logged := StoredFile relativePath written :: logged st |}.

Definition store_start (o : OS) : StoreState :=
  {| os := o; storedFiles := []; totalSize := 0; logged := [] |}.

(** [storeFiles]: the response and the final state. *)
Definition storeFiles (s : StorageServer) (o : OS) (r : Request)
  : Response * StoreState :=
  if parse_fails r then
    (Error 400 "File too large or invalid form data", store_start o)
  else
    let codebaseID := FormValue r "codebase_id" in
    if String.eqb codebaseID "" then
      (Error 400 "Codebase ID is required", store_start o)
    else if negb (Uuid.Parse_ok codebaseID) then
      (Error 400 "Invalid codebase ID", store_start o)
    else
      let files := FormFiles r "files" in
      if (length files =? 0)%nat then
        (Error 400 "No files provided", store_start o)
      else
        let storageDir := Filepath.Join (baseStorageDir s) codebaseID in
        let '(ok, o1) := Os.MkdirAll o storageDir in
        if negb ok then
          (Error 500 "Failed to create storage directory", store_start o1)
        else
          let st := fold_left (store_file r storageDir) files (store_start o1) in
          if (length (storedFiles st) =? 0)%nat then
            (Error 400 "No valid files were stored",
             {| os := Os.RemoveAll (os st) storageDir;
                storedFiles := storedFiles st; totalSize := totalSize st;
                logged := logged st |})
          else
            (Success ("Successfully stored "
                      ++ show (Z.of_nat (length (storedFiles st)))
                      ++ " files (" ++ show (totalSize st) ++ " bytes total)"),
             st).

(** The steps shared by [getFileContent] and [downloadFile] up to the
    stat of the file: the identifier, the path, the two checks of the
    path.  [inl] is the response of an early return, [inr] the cleaned
    path and the full path. *)
Definition locate (s : StorageServer) (codebaseID filePath : string)
  : Response + (string * string) :=
  if negb (Uuid.Parse_ok codebaseID) then inl (Error 400 "Invalid codebase ID")
  else if String.eqb filePath "" then inl (Error 400 "File path is required")
  else
    let cleanPath := Filepath.Clean filePath in
    if Strings.HasPrefix cleanPath ".." || Strings.Contains cleanPath ".." then
      inl (Error 400 "Invalid file path")
    else
      let baseDir := Filepath.Join (baseStorageDir s) codebaseID in
      let fullPath := Filepath.Join baseDir cleanPath in
      if negb (Strings.HasPrefix fullPath baseDir) then
        inl (Error 400 "Invalid file path")
      else inr (cleanPath, fullPath).

(** [getFileContent].  The modification time of the response is left
    out. *)
Definition getFileContent (s : StorageServer) (o : OS)
                          (codebaseID filePath : string) : Response * OS :=
  match locate s codebaseID filePath with
  | inl resp => (resp, o)
  | inr (cleanPath, fullPath) =>
      let '(info, o1) := Os.Stat o fullPath in
      match info with
      | Fs.NotExist => (Error 404 "File not found", o1)
      | Fs.NotDir => (Crash, o1)
      | Fs.IsDir => (Error 400 "Cannot read directory as file", o1)
      | Fs.IsFile size =>
          let '(read, o2) := Os.ReadAll o1 fullPath in
          match read with
          | None => (Error 500 "Failed to read file", o2)
          | Some content =>
              if isTextFile content then
                (Content cleanPath size true (string_of_list_byte content) None,
                 o2)
              else
                (Content cleanPath size false
                   "Binary file - use download endpoint to get the file"
                   (Some ("/download/" ++ codebaseID ++ "?file=" ++ filePath)),
                 o2)
          end
      end
  end.

(** [downloadFile]. *)
Definition downloadFile (s : StorageServer) (o : OS)
                        (codebaseID filePath : string) : Response * OS :=
  match locate s codebaseID filePath with
  | inl resp => (resp, o)
  | inr (cleanPath, fullPath) =>
      let '(info, o1) := Os.Stat o fullPath in
      match info with
      | Fs.NotExist => (Error 404 "File not found", o1)
      | Fs.NotDir => (Crash, o1)
      | Fs.IsDir => (Error 400 "Cannot download directory", o1)
      | Fs.IsFile size =>
          let '(read, o2) := Os.ReadAll o1 fullPath in
          match read with
          | None => (Error 500 "Failed to open file", o2)
          | Some content =>
              (Attachment (Filepath.Base cleanPath) size content, o2)
          end
      end
  end.

(** The name of an archive entry for a node of the walk:
    [filepath.Rel(sourceDir, path)], then
    [strings.ReplaceAll(relativePath, "\\", "/")]. *)
Definition Rel (rel : list string) : string :=
  match rel with
  | [] => "."
  | _ => Strings.Join rel "/"
  end.

Definition entry_name (rel : list string) : string :=
  Strings.ReplaceAll (Rel rel) "\"%char "/"%char.

(** The callback of the walk of [createZipArchive]: the entries it adds
    to the archive for one node. *)
Definition zip_visit (visited : list string * node) : list (string * list byte) :=
  let '(rel, n) := visited in
  if String.eqb (Rel rel) "." then []
  else
    match n with
    | Dir _ => [(entry_name rel ++ "/", [])]
    | File d => [(entry_name rel, d)]
    end.

(** [createZipArchive(w, sourceDir)]: the entries written to [w]. *)
Definition createZipArchive (o : OS) (sourceDir : string)
  : list (string * list byte) * OS :=
  let '(visited, o1) := Os.Walk o sourceDir in
  (flat_map zip_visit visited, o1).

(** [downloadZip]. *)
Definition downloadZip (s : StorageServer) (o : OS) (codebaseID : string)
  : Response * OS :=
  if negb (Uuid.Parse_ok codebaseID) then (Error 400 "Invalid codebase ID", o)
  else
    let storageDir := Filepath.Join (baseStorageDir s) codebaseID in
    let '(info, o1) := Os.Stat o storageDir in
    match info with
    | Fs.NotExist => (Error 404 "Codebase not found", o1)
    | _ =>
        let '(entries, o2) := createZipArchive o1 storageDir in
        (Archive ("codebase-" ++ codebaseID ++ ".zip") entries, o2)
    end.

(** ** The earlier variants of the server

    Both take the identifier from the URL ([mux.Vars(r)["uuid"]]) and
    store below the constant [StorageRoot]. *)

Definition StorageRoot : string := "./mock-zfs-storage".

(** The file parts of all fields, in the order of the two nested
    [range] loops. *)
Definition all_headers (r : Request) : list FileHeader :=
  flat_map snd (MultipartFile r).

(** The first variant. *)
Module V1.

(** The two nested loops of [UploadHandler]; [inl] when the handler
    returned from inside the loop. *)
Fixpoint upload_loop (basePath : string) (o : OS) (headers : list FileHeader)
  : Response * OS + OS :=
  match headers with
  | [] => inr o
  | header :: rest =>
      if open_fails header then
        inl (Error 500 "Could not open uploaded file", o)
      else
        let targetPath := Filepath.Join basePath (Filename header) in
        let '(_, o1) := Os.MkdirAll o (Filepath.Dir targetPath) in
        let '(ok, o2) := Os.Create o1 targetPath in
        if negb ok then inl (Error 500 "Could not save file", o2)
        else
          let '(_, _, o3) := io_Copy o2 targetPath header in
          upload_loop basePath o3 rest
  end.

Definition UploadHandler (o : OS) (uuid : string) (r : Request)
  : Response * OS :=
  let basePath := Filepath.Join StorageRoot uuid in
  let '(_, o1) := Os.MkdirAll o basePath in
  if parse_fails r then (Error 400 "Could not parse form", o1)
  else
    match upload_loop basePath o1 (all_headers r) with
    | inl returned => returned
    | inr o2 => (Success "Upload successful", o2)
    end.

End V1.

(** The second variant. *)
Module V2.

(** The variables of the loops of [UploadHandler]. *)
Record UploadState := { disk_state : OS; filesProcessed : Z }.

Definition next (st : UploadState) (o : OS) : UploadState :=
  {| disk_state := o; filesProcessed := filesProcessed st |}.

(** The body of [for _, header := range headers]. *)
Definition upload_file (basePath : string) (st : UploadState)
                       (header : FileHeader) : UploadState :=
  if open_fails header then st
  else
    let targetPath := Filepath.Join basePath (Filename header) in
    let targetDir := Filepath.Dir targetPath in
    let '(ok, o1) := Os.MkdirAll (disk_state st) targetDir in
    if negb ok then next st o1
    else
      let '(ok, o2) := Os.Create o1 targetPath in
      if negb ok then next st o2
      else
        let '(written, ok, o3) := io_Copy o2 targetPath header in
        if negb ok then next st (Os.Remove o3 targetPath)
        else {| disk_state := o3; filesProcessed := filesProcessed st + 1 |}.

(** [UploadHandler].  After [ParseMultipartForm] succeeded the form
    and its file map are not nil. *)
Definition UploadHandler (o : OS) (uuid : string) (r : Request)
  : Response * OS :=
  let basePath := Filepath.Join StorageRoot uuid in
  let '(ok, o1) := Os.MkdirAll o basePath in
  if negb ok then (Error 500 "Could not create storage directory", o1)
  else if parse_fails r then (Error 400 "Could not parse form", o1)
  else
    let st := fold_left (upload_file basePath) (all_headers r)
                        {| disk_state := o1; filesProcessed := 0 |} in
    if filesProcessed st =? 0 then
      (Error 500 "No files were successfully processed", disk_state st)
    else
      (Success ("Upload successful: " ++ show (filesProcessed st)
                ++ " files processed"),
       disk_state st).

(** The callback of the walk of [DownloadZipHandler]: directories are
    skipped. *)
Definition zip_visit (visited : list string * node)
  : list (string * list byte) :=
  let '(rel, n) := visited in
  match n with
  | Dir _ => []
  | File d => [(entry_name rel, d)]
  end.

Definition DownloadZipHandler (o : OS) (uuid : string) : Response * OS :=
  let basePath := Filepath.Join StorageRoot uuid in
  let '(info, o1) := Os.Stat o basePath in
  match info with
  | Fs.NotExist => (Error 404 "Codebase not found", o1)
  | _ =>
      let '(visited, o2) := Os.Walk o1 basePath in
      (Archive (uuid ++ ".zip") (flat_map zip_visit visited), o2)
  end.

End V2.

(** ** Predicates used in the statements *)

(** The text has no separator. *)
Fixpoint no_separator (s : string) : bool :=
  match s with
  | EmptyString => true
  | String c s' => negb (Filepath.IsPathSeparator c) && no_separator s'
  end.

(** A name that [Clean] copies: not empty, not [.], not [..], without a
    separator. *)
Definition is_name (e : string) : bool :=
  negb (String.eqb e "") && negb (String.eqb e ".") && negb (String.eqb e "..")
  && no_separator e.

(** The path has a parent-directory element. *)
Definition has_dotdot_element (path : string) : bool :=
  existsb (String.eqb "..") (Filepath.elements path).

(** [p] is [q] or lies below it. *)
Fixpoint below (q p : list string) : bool :=
  match q, p with
  | [], _ => true
  | a :: q', b :: p' => String.eqb a b && below q' p'
  | _ :: _, [] => false
  end.

(** The directory of a codebase and the names it denotes. *)
Definition codebase_dir (s : StorageServer) (codebaseID : string) : string :=
  Filepath.Join (baseStorageDir s) codebaseID.

Definition codebase_at (s : StorageServer) (o : OS) (codebaseID : string)
  : list string :=
  Os.at_ o (codebase_dir s codebaseID).

(** The output of [Clean], last element first, is well formed: names,
    on top of nothing but [..] elements, and no [..] at all in a rooted
    path. *)
Fixpoint stack_ok (r : bool) (out : list string) : bool :=
  match out with
  | [] => true
  | top :: out' =>
      if String.eqb top ".." then negb r && forallb (String.eqb "..") out'
      else is_name top && stack_ok r out'
  end.

(** An element that is not empty and has no separator. *)
Definition solid (e : string) : bool :=
  negb (String.eqb e "") && no_separator e.

(** The elements of the cleaned path. *)
Definition cleaned (path : string) : list string :=
  Filepath.clean_elements (Filepath.rooted path) (Filepath.elements path).

(** The cleaned path begins with a parent-directory element: it leads
    out of the directory it is read from. *)
Definition leads_out (path : string) : bool :=
  match cleaned path with
  | e :: _ => String.eqb e ".."
  | [] => false
  end.

(** The relative path asked for a file part: the form value
    [path_<filename>] or, when it is empty, the base name. *)
Definition requested_path (r : Request) (fileHeader : FileHeader) : string :=
  let relativePath := FormValue r ("path_" ++ Filename fileHeader) in
  if String.eqb relativePath "" then Filepath.Base (Filename fileHeader)
  else relativePath.

(** The base name of the file part passes the check of its name. *)
Definition name_accepted (fileHeader : FileHeader) : bool :=
  let fileName := Filepath.Base (Filename fileHeader) in
  negb (String.eqb fileName "" || String.eqb fileName "."
        || String.eqb fileName "..").

(** The paths of the calls that create, write, read or remove files (as
    opposed to making directories, [Stat] and the walk). *)
Definition file_call_path (c : FsCall) : option string :=
  match c with
  | CallCreate p | CallWrite p _ | CallRemove p | CallOpenRead p
  | CallRemoveAll p => Some p
  | _ => None
  end.

(** The call does not touch a file outside the directory of the
    codebase. *)
Definition inside (s : StorageServer) (o : OS) (codebaseID : string)
                  (c : FsCall) : bool :=
  match file_call_path c with
  | None => true
  | Some p => below (codebase_at s o codebaseID) (Os.at_ o p)
  end.

(** The calls made from [o] to [o'] stay inside the codebase. *)
Definition calls_inside (s : StorageServer) (codebaseID : string)
                        (o o' : OS) : Prop :=
  cwd o' = cwd o /\
  exists new, calls o' = (new ++ calls o)%list
              /\ forallb (inside s o codebaseID) new = true.

(** What follows the text of a directory in the text of a path below
    it. *)
Definition tail_text (es : list string) : string :=
  match es with
  | [] => ""
  | _ => "/" ++ Strings.Join es "/"
  end.

(** The text of which [Join a b] is the cleaning, for [b] not empty. *)
Definition joined (a b : string) : string :=
  if String.eqb a "" then b else a ++ String "/" b.

(** ** Sample data for the examples *)

Definition server0 : StorageServer := {| baseStorageDir := "./storage" |}.

Definition id0 : string := "123e4567-e89b-12d3-a456-426614174000".

(** A disk with the storage root, empty, and the process running in
    [/srv]. *)
Definition os0 : OS :=
  {| cwd := ["srv"];
     disk := Dir [("srv", Dir [("storage", Dir [])])];
     calls := [] |}.

Definition part (filename : string) (data : string) : FileHeader :=
  {| Filename := filename; Data := list_byte_of_string data;
     open_fails := false; copy_fails := None |}.

(** An upload to the codebase [id0] of file parts with their
    [path_<filename>] values. *)
Definition upload (paths : list (string * string)) (parts : list FileHeader)
  : Request :=
  {| parse_fails := false;
     Value := ("codebase_id", id0) :: paths;
     MultipartFile := [("files", parts)] |}.

Definition os_with (d : node) : OS := {| cwd := ["srv"]; disk := d; calls := [] |}.

(** The disk on which the codebase [id0] has the given entries. *)
Definition codebase0 (entries : list (string * node)) : node :=
  Dir [("srv", Dir [("storage", Dir [(id0, Dir entries)])])].

Definition abc : list byte := list_byte_of_string "abc".

(** The request gets as far as the loop over its file parts: the form
    is parsed, the identifier is there and valid, there is at least one
    file part, and the codebase directory could be made. *)
Definition processed (s : StorageServer) (o : OS) (r : Request) : bool :=
  negb (parse_fails r)
  && negb (String.eqb (FormValue r "codebase_id") "")
  && Uuid.Parse_ok (FormValue r "codebase_id")
  && negb (length (FormFiles r "files") =? 0)%nat
  && fst (Os.MkdirAll o (codebase_dir s (FormValue r "codebase_id"))).

(** The state at the end of the loop of [storeFiles]. *)
Definition store_loop (s : StorageServer) (o : OS) (r : Request) : StoreState :=
  let storageDir := codebase_dir s (FormValue r "codebase_id") in
  fold_left (store_file r storageDir) (FormFiles r "files")
            (store_start (snd (Os.MkdirAll o storageDir))).

Definition is_stored (l : LogLine) : bool :=
  match l with
  | StoredFile _ _ => true
  | _ => false
  end.

(** The number of file parts that were skipped, by the log. *)
Definition skipped (log : list LogLine) : nat :=
  length (filter (fun l => negb (is_stored l)) log).

(** The file part processed last was stored (the latest line of the log
    is [Stored file: ...]). *)
Definition last_part_stored (st : StoreState) : bool :=
  match logged st with
  | l :: _ => is_stored l
  | [] => false
  end.

(** A buffer of 100 null bytes followed by 9900 letters. *)
Definition nulls_then_text : list byte :=
  (repeat x00 100 ++ repeat x61 (Z.to_nat 9900))%list.

(** The byte is counted by the loop of [isTextFile]: a null byte or a
    control byte other than tab, newline and carriage return. *)
Definition counted (b : byte) : bool :=
  let v := Utf8.byte_val b in
  (v =? 0) || ((v <? 32) && negb (v =? 9) && negb (v =? 10) && negb (v =? 13)).

(** The byte at index 8192, when there is one, is not counted. *)
Definition boundary_plain (content : list byte) : bool :=
  match nth_error content (Z.to_nat 8192) with
  | Some b => negb (counted b)
  | None => true
  end.

(** The codebase with the files [x.txt] and [sub/y.bin]. *)
Definition two_files (x y : list byte) : node :=
  Dir [("sub", Dir [("y.bin", File y)]); ("x.txt", File x)].

(** An upload to the second variant of the server. *)
Definition upload_v2 (parts : list FileHeader) : Request :=
  {| parse_fails := false; Value := []; MultipartFile := [("files", parts)] |}.

(** ** Buffers with one null byte per ten bytes *)

Definition is_null (b : byte) : bool := Utf8.byte_val b =? 0.

(** A byte of ordinary text: printable ASCII, tab, newline or carriage
    return. *)
Definition ordinary (b : byte) : bool :=
  let v := Utf8.byte_val b in
  ((32 <=? v) && (v <? 127)) || (v =? 9) || (v =? 10) || (v =? 13).

Definition null_or_text (b : byte) : bool := is_null b || ordinary b.

Definition nulls (l : list byte) : Z := Z.of_nat (length (filter is_null l)).

(** A block of ten bytes: one null byte and nine bytes of ordinary
    text. *)
Definition block_ok (b : list byte) : bool :=
  (length b =? 10)%nat && (nulls b =? 1) && forallb null_or_text b.

(** What is left after the last whole block: fewer than ten bytes. *)
Definition rest_ok (t : list byte) : bool :=
  (length t <? 10)%nat && forallb null_or_text t.

(** A block with the null byte first. *)
Definition null_block : list byte :=
  [x00; x61; x62; x63; x64; x65; x66; x67; x68; x69].

(** ** The comparisons of [isTextFile] in binary64 arithmetic

    [float64(count)/float64(contentLen) > c] as the IEEE 754 operations
    compute it, to compare with [ratio_above]. *)

Module Float64.

Definition prec : Z := 53.
Definition emax : Z := 1024.

(** [float64(n)]. *)
Definition of_int (n : Z) : spec_float := binary_normalize prec emax n 0 false.

Definition div (x y : spec_float) : spec_float := SFdiv prec emax x y.

(** The constants [0.01] and [0.05]: the floats nearest to 1/100 and to
    5/100, which are the correctly rounded quotients. *)
Definition c001 : spec_float := div (of_int 1) (of_int 100).
Definition c005 : spec_float := div (of_int 5) (of_int 100).

Definition above (count contentLen : Z) (c : spec_float) : bool :=
  SFltb c (div (of_int count) (of_int contentLen)).

(** The two comparisons agree with [ratio_above] for this count at the
    lengths around the two thresholds. *)
Definition agree_at (count : Z) : bool :=
  forallb (fun len => Bool.eqb (above count len c001) (ratio_above count len 1 100)
                      && Bool.eqb (above count len c005) (ratio_above count len 5 100))
          [100 * count - 1; 100 * count; 100 * count + 1;
           20 * count - 1; 20 * count; 20 * count + 1].

Fixpoint agree_upto (n : nat) : bool :=
  match n with
  | O => true
  | S n' => agree_at (Z.of_nat n) && agree_upto n'
  end.

End Float64.

(** ** Further notions for the properties of the handlers *)

(** The place where [storeFiles] writes a file part, seen from the
    working directory [wd]. *)
Definition destination (r : Request) (storageDir : string) (wd : list string)
                       (fileHeader : FileHeader) : list string :=
  Os.resolve wd
    (Filepath.Join storageDir (Filepath.Clean (requested_path r fileHeader))).

(** The part gets past the three checks made before the file system is
    touched: it opens, its name is accepted and its cleaned path does
    not begin with two dots. *)
Definition reaches_disk (r : Request) (fileHeader : FileHeader) : bool :=
  negb (open_fails fileHeader) && name_accepted fileHeader
  && negb (Strings.HasPrefix (Filepath.Clean (requested_path r fileHeader)) "..").


(** The body of the response of [getFileContent] for a file with the
    bytes [d], asked for as [filePath]. *)
Definition content_response (codebaseID filePath : string) (d : list byte)
  : Response :=
  if isTextFile d then
    Content (Filepath.Clean filePath) (Z.of_nat (length d)) true
            (string_of_list_byte d) None
  else
    Content (Filepath.Clean filePath) (Z.of_nat (length d)) false
            "Binary file - use download endpoint to get the file"
            (Some ("/download/" ++ codebaseID ++ "?file=" ++ filePath)).

(** What the two download handlers answer, by what [os.Stat] finds at
    the place of the file. *)
Definition download_answer (codebaseID filePath : string)
                           (found : Fs.stat_result) (at_place : option node)
  : Response * Response :=
  match found, at_place with
  | Fs.IsFile _, Some (File d) =>
      (Attachment (Filepath.Base (Filepath.Clean filePath)) (Z.of_nat (length d)) d,
       content_response codebaseID filePath d)
  | Fs.IsFile _, _ =>
      (Error 500 "Failed to open file", Error 500 "Failed to read file")
  | Fs.IsDir, _ =>
      (Error 400 "Cannot download directory", Error 400 "Cannot read directory as file")
  | Fs.NotExist, _ => (Error 404 "File not found", Error 404 "File not found")
  | Fs.NotDir, _ => (Crash, Crash)
  end.


(** The bytes of all the parts together. *)
Definition total_bytes (files : list FileHeader) : Z :=
  fold_right (fun fileHeader sum => Z.of_nat (length (Data fileHeader)) + sum) 0 files.


(** ** The start of the server and the download of the second variant *)


(** [filepath.Join] of any number of elements: from the first element
    that is not empty on, the elements are joined by the separator, and
    the result is cleaned. *)
Fixpoint JoinElems (elem : list string) : string :=
  match elem with
  | [] => ""
  | e :: rest =>
      if String.eqb e "" then JoinElems rest
      else Filepath.Clean (Strings.Join elem "/")
  end.

(** [DownloadFileHandler] of the second variant. *)
Definition V2_DownloadFileHandler (o : OS) (uuid filePath : string)
  : Response * OS :=
  if Strings.Contains filePath ".." then (Error 400 "Invalid file path", o)
  else
    let fullPath := JoinElems [StorageRoot; uuid; filePath] in
    let '(info, o1) := Os.Stat o fullPath in
    match info with
    | Fs.NotExist => (Error 404 "File not found", o1)
    | Fs.NotDir => (Error 500 "Error accessing file", o1)
    | Fs.IsDir => (Error 400 "Path is a directory, not a file", o1)
    | Fs.IsFile size =>
        let '(read, o2) := Os.ReadAll o1 fullPath in
        match read with
        | None => (Error 500 "Could not open file", o2)
        | Some content =>
            (Attachment (Filepath.Base filePath) size content, o2)
        end
    end.

(** The names that a path without parent-directory elements adds to the
    directory it is read from. *)
Definition names_of (path : string) : list string :=
  filter is_name (Filepath.elements path).

(** What [DownloadFileHandler] of the second variant answers, by what
    [os.Stat] finds at the place of the file. *)
Definition V2_download_answer (filePath : string)
                              (found : Fs.stat_result) (at_place : option node)
  : Response :=
  match found, at_place with
  | Fs.IsFile _, Some (File d) =>
      Attachment (Filepath.Base filePath) (Z.of_nat (length d)) d
  | Fs.IsFile _, _ => Error 500 "Could not open file"
  | Fs.IsDir, _ => Error 400 "Path is a directory, not a file"
  | Fs.NotExist, _ => Error 404 "File not found"
  | Fs.NotDir, _ => Error 500 "Error accessing file"
  end.

(** The loops of [UploadHandler] of the second variant over the given
    parts, after the directory of the codebase was made. *)
Definition V2_upload_loop (o : OS) (uuid : string) (headers : list FileHeader)
  : V2.UploadState :=
  fold_left (V2.upload_file (Filepath.Join StorageRoot uuid)) headers
            {| V2.disk_state := snd (Os.MkdirAll o (Filepath.Join StorageRoot uuid));
               V2.filesProcessed := 0 |}.

(** The call reads at [path]. *)
Definition reads_at (c : FsCall) (path : string) : bool :=
  match c with
  | CallStat p | CallOpenRead p => String.eqb p path
  | _ => false
  end.


(** The disk on which the codebase [uuid] of the second variant has the
    given entries. *)
Definition codebase_v2 (uuid : string) (entries : list (string * node)) : node :=
  Dir [("srv", Dir [("mock-zfs-storage", Dir [(uuid, Dir entries)])])].


Example clean_ex1 : Filepath.Clean "a/../../b" = "../b". Proof. reflexivity. Qed.
Example clean_ex2 : Filepath.Clean "/../a//b/./c/.." = "/a/b". Proof. reflexivity. Qed.
Example clean_ex3 : Filepath.Clean "a/.." = ".". Proof. reflexivity. Qed.
Example clean_ex4 : Filepath.Clean "../../etc/passwd" = "../../etc/passwd". Proof. reflexivity. Qed.
Example join_ex1 : Filepath.Join "./storage" "abc" = "storage/abc". Proof. reflexivity. Qed.
Example join_ex2 : Filepath.Join "storage/abc" "/etc/passwd" = "storage/abc/etc/passwd". Proof. reflexivity. Qed.
Example base_ex1 : Filepath.Base "a/b/" = "b". Proof. reflexivity. Qed.
Example base_ex2 : Filepath.Base "///" = "/". Proof. reflexivity. Qed.
Example dir_ex1 : Filepath.Dir "storage/abc/a/b.txt" = "storage/abc/a". Proof. reflexivity. Qed.
Example dir_ex2 : Filepath.Dir "x" = ".". Proof. reflexivity. Qed.
Example dir_ex3 : Filepath.Dir "/x" = "/". Proof. reflexivity. Qed.
Example uuid_ex1 : Uuid.Parse_ok id0 = true. Proof. reflexivity. Qed.
Example uuid_ex2 : Uuid.Parse_ok "urn:UUID:123e4567-e89b-12d3-a456-426614174000" = true.
Proof. reflexivity. Qed.
Example uuid_ex3 : Uuid.Parse_ok "123e4567e89b12d3a456426614174000" = true.
Proof. reflexivity. Qed.
Example uuid_ex4 : Uuid.Parse_ok "123e4567-e89b-12d3-a456-42661417400g" = false.
Proof. reflexivity. Qed.
Example uuid_ex5 : Uuid.Parse_ok "../../etc" = false. Proof. reflexivity. Qed.
Example utf8_ex1 : Utf8.Valid [xc3; xa9] = true. Proof. reflexivity. Qed.
Example utf8_ex2 : Utf8.Valid [xc0; x80] = false. Proof. reflexivity. Qed.
Example utf8_ex3 : Utf8.Valid [xed; xa0; x80] = false. Proof. reflexivity. Qed.
Example utf8_ex4 : Utf8.Valid [xf0; x9f; x98; x80] = true. Proof. reflexivity. Qed.
Example utf8_ex5 : Utf8.Valid [xf4; x90; x80; x80] = false. Proof. reflexivity. Qed.
Example utf8_ex6 : Utf8.Valid [xe2; x82] = false. Proof. reflexivity. Qed.
Example text_ex1 : isTextFile (list_byte_of_string "package main") = true.
Proof. reflexivity. Qed.
Example text_ex2 : isTextFile [xff; xfe; x00; x01] = false. Proof. reflexivity. Qed.
Example text_ex3 : isTextFile [] = true. Proof. reflexivity. Qed.

(** * Properties *)

Arguments String.eqb : simpl never.
Arguments Ascii.eqb : simpl never.

(** ** Elements of a path *)

Section Elements.

Import Filepath.

Lemma elements_not_nil (s : string) : elements s <> [].
Proof.
  destruct s as [|c s]; simpl; [discriminate|].
  destruct (IsPathSeparator c); [discriminate|].
  destruct (elements s); discriminate.
Qed.

Lemma elements_String (c : ascii) (s : string) :
  elements (String c s) =
  if IsPathSeparator c then "" :: elements s
  else match elements s with
       | [] => [String c ""]
       | e :: es => String c e :: es
       end.
Proof. reflexivity. Qed.

Lemma elements_cons_char (c : ascii) (s : string) :
  IsPathSeparator c = false ->
  exists e es, elements s = e :: es /\ elements (String c s) = String c e :: es.
Proof.
  intros Hc. simpl. rewrite Hc.
  destruct (elements s) as [|e es] eqn:E.
  - exfalso. exact (elements_not_nil s E).
  - exists e, es. split; reflexivity.
Qed.

(** Splitting at an explicit separator. *)
Lemma elements_app_sep (a b : string) :
  elements (a ++ String "/" b) = (elements a ++ elements b)%list.
Proof.
  induction a as [|c a IH]; simpl.
  - reflexivity.
  - rewrite IH. destruct (IsPathSeparator c); [reflexivity|].
    destruct (elements a) as [|e es] eqn:E.
    + exfalso. exact (elements_not_nil a E).
    + reflexivity.
Qed.

Lemma elements_no_separator (e : string) :
  no_separator e = true -> elements e = [e].
Proof.
  induction e as [|c e IH]; simpl; intros H; [reflexivity|].
  apply andb_true_iff in H. destruct H as [Hc He].
  apply negb_true_iff in Hc. rewrite Hc, (IH He). reflexivity.
Qed.

Lemma elements_name_app_sep (e b : string) :
  no_separator e = true ->
  elements (e ++ String "/" b) = e :: elements b.
Proof.
  intros H. rewrite elements_app_sep, (elements_no_separator e H). reflexivity.
Qed.

(** The elements of a path have no separator. *)
Lemma elements_no_sep (s : string) :
  forallb no_separator (elements s) = true.
Proof.
  induction s as [|c s IH]; simpl; [reflexivity|].
  destruct (IsPathSeparator c) eqn:Hc; simpl; [exact IH|].
  destruct (elements s) as [|e es]; simpl in *.
  - rewrite Hc. reflexivity.
  - rewrite Hc. simpl. exact IH.
Qed.

(** Joining separator-free elements and splitting again. *)
Lemma elements_concat (e : string) (es : list string) :
  forallb no_separator (e :: es) = true ->
  elements (Strings.Join (e :: es) "/") = e :: es.
Proof.
  revert e. induction es as [|e' es IH]; intros e H; simpl in *.
  - apply andb_true_iff in H. apply elements_no_separator, H.
  - apply andb_true_iff in H. destruct H as [He H].
    change (elements (e ++ String "/" (Strings.Join (e' :: es) "/")) = e :: e' :: es).
    rewrite (elements_name_app_sep _ _ He). f_equal. apply IH. exact H.
Qed.

End Elements.

(** ** The loop of [Clean] *)

Section CleanLoop.

Import Filepath.

Lemma is_name_step (r : bool) (out : list string) (e : string) :
  is_name e = true -> clean_step r out e = e :: out.
Proof.
  unfold is_name, clean_step. intros H.
  repeat (apply andb_true_iff in H; destruct H as [H ?]).
  apply negb_true_iff in H. rewrite H.
  repeat match goal with
         | H : negb _ = true |- _ => apply negb_true_iff in H; rewrite H
         end.
  reflexivity.
Qed.

Lemma names_fold (r : bool) (es out : list string) :
  forallb is_name es = true ->
  fold_left (clean_step r) es out = (rev es ++ out)%list.
Proof.
  revert out. induction es as [|e es IH]; intros out H; simpl in *.
  - reflexivity.
  - apply andb_true_iff in H. destruct H as [He H].
    rewrite (is_name_step _ _ _ He), (IH _ H), <- app_assoc. reflexivity.
Qed.

Lemma step_ok (r : bool) (out : list string) (e : string) :
  no_separator e = true -> stack_ok r out = true ->
  stack_ok r (clean_step r out e) = true.
Proof.
  intros He Hout. unfold clean_step.
  destruct (String.eqb_spec e ""); [exact Hout|].
  destruct (String.eqb_spec e "."); [exact Hout|].
  destruct (String.eqb_spec e "..") as [->|Hdd].
  - destruct out as [|top out']; simpl in *.
    + destruct r; reflexivity.
    + destruct (String.eqb_spec top "..") as [->|Htop]; simpl.
      * exact Hout.
      * apply andb_true_iff in Hout. apply Hout.
  - simpl. apply String.eqb_neq in Hdd. rewrite Hdd.
    rewrite Hout, andb_true_r. unfold is_name.
    apply String.eqb_neq in n, n0. rewrite n, n0, Hdd, He. reflexivity.
Qed.

Lemma fold_ok (r : bool) (es out : list string) :
  forallb no_separator es = true -> stack_ok r out = true ->
  stack_ok r (fold_left (clean_step r) es out) = true.
Proof.
  revert out. induction es as [|e es IH]; intros out Hes Hout; simpl in *.
  - exact Hout.
  - apply andb_true_iff in Hes. destruct Hes as [He Hes].
    apply IH; [exact Hes|]. apply step_ok; assumption.
Qed.

Lemma dots_ok (out : list string) :
  forallb (String.eqb "..") out = true -> stack_ok false out = true.
Proof.
  destruct out as [|x out]; simpl; intros H; [reflexivity|].
  apply andb_true_iff in H. destruct H as [Hx H].
  apply String.eqb_eq in Hx. subst x.
  rewrite String.eqb_refl, H. reflexivity.
Qed.

Lemma stack_ok_tail (r : bool) (top : string) (out : list string) :
  stack_ok r (top :: out) = true -> stack_ok r out = true.
Proof.
  simpl. destruct (String.eqb_spec top "..") as [->|_]; intros H;
    apply andb_true_iff in H; destruct H as [H1 H2]; [|exact H2].
  apply negb_true_iff in H1. subst r. apply dots_ok, H2.
Qed.

(** Cleaning a cleaned list of elements changes nothing. *)
Lemma fold_idempotent (r : bool) (out : list string) :
  stack_ok r out = true -> fold_left (clean_step r) (rev out) [] = out.
Proof.
  induction out as [|top out IH]; intros H; [reflexivity|].
  simpl rev. rewrite fold_left_app, (IH (stack_ok_tail _ _ _ H)).
  simpl in *. destruct (String.eqb_spec top "..") as [->|Htop].
  - apply andb_true_iff in H. destruct H as [Hr Hd].
    apply negb_true_iff in Hr. subst r.
    unfold clean_step.
    change ((".." =? "")%string) with false.
    change ((".." =? ".")%string) with false.
    rewrite String.eqb_refl.
    destruct out as [|x out]; [reflexivity|].
    simpl in Hd. apply andb_true_iff in Hd. destruct Hd as [Hx _].
    apply String.eqb_eq in Hx. subst x. rewrite String.eqb_refl. reflexivity.
  - apply andb_true_iff in H. apply is_name_step, H.
Qed.

(** Resolving from a directory the cleaned elements of a relative
    path, or the elements themselves, leads to the same place. *)
Lemma step_dotdot (r : bool) (out : list string) :
  clean_step r out ".." =
  match out with
  | [] => if r then out else [".."]
  | top :: out' => if String.eqb top ".." then ".." :: out else out'
  end.
Proof. reflexivity. Qed.

Lemma not_special_name (e : string) :
  e <> "" -> e <> "." -> e <> ".." -> no_separator e = true ->
  is_name e = true.
Proof.
  intros H1 H2 H3 He. unfold is_name.
  apply String.eqb_neq in H1, H2, H3. rewrite H1, H2, H3, He. reflexivity.
Qed.

Lemma resolve_step (out st : list string) (e : string) :
  stack_ok false out = true -> no_separator e = true ->
  fold_left (clean_step true) (rev (clean_step false out e)) st
  = clean_step true (fold_left (clean_step true) (rev out) st) e.
Proof.
  intros Hout He.
  destruct (String.eqb_spec e "") as [->|H1]; [reflexivity|].
  destruct (String.eqb_spec e ".") as [->|H2]; [reflexivity|].
  destruct (String.eqb_spec e "..") as [->|H3].
  - rewrite (step_dotdot false). destruct out as [|top out'].
    + reflexivity.
    + destruct (String.eqb_spec top "..") as [->|Htop].
      * change (rev (".." :: ".." :: out')) with (rev (".." :: out') ++ [".."])%list.
        rewrite fold_left_app. reflexivity.
      * simpl rev. rewrite fold_left_app. simpl fold_left.
        simpl in Hout. apply String.eqb_neq in Htop. rewrite Htop in Hout.
        apply andb_true_iff in Hout. destruct Hout as [Hn _].
        rewrite (is_name_step _ _ _ Hn), step_dotdot, Htop. reflexivity.
  - pose proof (not_special_name e H1 H2 H3 He) as Hn.
    rewrite !(is_name_step _ _ _ Hn). simpl rev.
    rewrite fold_left_app. simpl. rewrite (is_name_step _ _ _ Hn). reflexivity.
Qed.

Lemma resolve_cleaned (es st : list string) :
  forallb no_separator es = true ->
  fold_left (clean_step true) (rev (fold_left (clean_step false) es [])) st
  = fold_left (clean_step true) es st.
Proof.
  induction es as [|e es IH] using rev_ind; intros H; [reflexivity|].
  rewrite forallb_app in H. apply andb_true_iff in H. destruct H as [Hes He].
  simpl in He. rewrite andb_true_r in He.
  rewrite !fold_left_app. simpl.
  rewrite resolve_step; [| apply fold_ok; [exact Hes|reflexivity] | exact He].
  rewrite (IH Hes). reflexivity.
Qed.

End CleanLoop.

(** ** The text of a cleaned path *)

Section Render.

Import Filepath.

Lemma is_name_solid (e : string) : is_name e = true -> solid e = true.
Proof.
  unfold is_name, solid. intros H.
  repeat (apply andb_true_iff in H; destruct H as [H ?]).
  rewrite H. assumption.
Qed.

Lemma stack_ok_solid (r : bool) (out : list string) :
  stack_ok r out = true -> forallb solid out = true.
Proof.
  induction out as [|top out IH]; intros H; [reflexivity|].
  pose proof (stack_ok_tail _ _ _ H) as Ht. simpl in *.
  rewrite (IH Ht), andb_true_r.
  destruct (String.eqb_spec top "..") as [->|_]; [reflexivity|].
  apply andb_true_iff in H. apply is_name_solid, H.
Qed.

Lemma solid_no_sep (es : list string) :
  forallb solid es = true -> forallb no_separator es = true.
Proof.
  induction es as [|e es IH]; simpl; intros H; [reflexivity|].
  apply andb_true_iff in H. destruct H as [He H].
  unfold solid in He. apply andb_true_iff in He.
  rewrite (proj2 He), (IH H). reflexivity.
Qed.

Lemma forallb_rev {A : Type} (f : A -> bool) (l : list A) :
  forallb f (rev l) = forallb f l.
Proof.
  induction l as [|x l IH]; simpl; [reflexivity|].
  rewrite forallb_app, IH. simpl. rewrite andb_true_r. apply andb_comm.
Qed.

Lemma rooted_solid_app (e rest : string) :
  solid e = true -> rooted (e ++ rest) = false.
Proof.
  unfold solid. destruct e as [|c e]; simpl; intros H.
  - discriminate.
  - apply andb_true_iff in H. apply negb_true_iff, H.
Qed.

Lemma rooted_render (r : bool) (es : list string) :
  forallb solid es = true -> rooted (render r es) = r.
Proof.
  destruct r; [reflexivity|]. destruct es as [|e es]; [reflexivity|].
  simpl. intros H. apply andb_true_iff in H. destruct H as [He _].
  destruct es as [|e' es].
  - rewrite <- (rooted_solid_app e "" He). f_equal.
    clear. induction e; simpl; congruence.
  - apply rooted_solid_app, He.
Qed.

(** Reading the text of a cleaned path back gives its elements, up to
    elements that every reader skips. *)
Lemma fold_elements_render (r r' : bool) (es st : list string) :
  forallb no_separator es = true ->
  fold_left (clean_step r') (elements (render r es)) st
  = fold_left (clean_step r') es st.
Proof.
  intros H. destruct r.
  - unfold render. change ("/" ++ Strings.Join es "/") with (String "/" (Strings.Join es "/")).
    destruct es as [|e es]; [reflexivity|].
    change (elements (String "/" (Strings.Join (e :: es) "/")))
      with ("" :: elements (Strings.Join (e :: es) "/")).
    rewrite (elements_concat _ _ H). reflexivity.
  - destruct es as [|e es]; [reflexivity|].
    unfold render. rewrite (elements_concat _ _ H). reflexivity.
Qed.

Lemma Clean_unfold (p : string) :
  p <> "" ->
  Clean p = render (rooted p) (rev (fold_left (clean_step (rooted p)) (elements p) [])).
Proof.
  intros H. unfold Clean, clean_elements.
  apply String.eqb_neq in H. rewrite H. reflexivity.
Qed.

Lemma cleaned_ok (p : string) :
  stack_ok (rooted p) (fold_left (clean_step (rooted p)) (elements p) []) = true.
Proof. apply fold_ok; [apply elements_no_sep | reflexivity]. Qed.

(** [Clean] does not change what a path denotes. *)
Lemma resolve_Clean (wd : list string) (p : string) :
  Os.resolve wd (Clean p) = Os.resolve wd p.
Proof.
  destruct (String.eqb_spec p "") as [->|Hp]; [reflexivity|].
  rewrite (Clean_unfold p Hp). unfold Os.resolve.
  pose proof (cleaned_ok p) as Hok.
  set (S := fold_left (clean_step (rooted p)) (elements p) []) in *.
  pose proof (stack_ok_solid _ _ Hok) as Hs.
  rewrite <- (forallb_rev solid) in Hs.
  rewrite (rooted_render _ _ Hs), fold_elements_render by (apply solid_no_sep, Hs).
  f_equal. destruct (rooted p) eqn:R.
  - apply fold_idempotent, Hok.
  - apply resolve_cleaned, elements_no_sep.
Qed.

Lemma rooted_app (a b : string) : a <> "" -> rooted (a ++ b) = rooted a.
Proof. destruct a; [congruence|reflexivity]. Qed.

(** What [Join a b] denotes: [b] read from what [a] denotes. *)
Lemma resolve_Join (wd : list string) (a b : string) :
  a <> "" ->
  Os.resolve wd (Join a b)
  = rev (fold_left (clean_step true) (elements b) (rev (Os.resolve wd a))).
Proof.
  intros Ha. unfold Join. apply String.eqb_neq in Ha. rewrite Ha. simpl negb.
  cbv iota. rewrite resolve_Clean. unfold Os.resolve.
  apply String.eqb_neq in Ha.
  rewrite (rooted_app a _ Ha).
  change (a ++ "/" ++ b) with (a ++ String "/" b).
  rewrite elements_app_sep, fold_left_app, rev_involutive. reflexivity.
Qed.

End Render.

(** ** The two checks of a cleaned path *)

Section Checks.

Import Filepath.

Lemma Clean_render (p : string) : Clean p = render (rooted p) (cleaned p).
Proof.
  unfold Clean, cleaned. destruct (String.eqb_spec p "") as [->|_]; reflexivity.
Qed.

Lemma cleaned_stack (p : string) : stack_ok (rooted p) (rev (cleaned p)) = true.
Proof.
  unfold cleaned, clean_elements. rewrite rev_involutive. apply cleaned_ok.
Qed.

Lemma cleaned_solid (p : string) : forallb solid (cleaned p) = true.
Proof.
  rewrite <- forallb_rev. apply (stack_ok_solid (rooted p)), cleaned_stack.
Qed.

Lemma HasPrefix_app (x y : string) : Strings.HasPrefix (x ++ y) x = true.
Proof.
  induction x as [|c x IH]; simpl; [reflexivity|].
  rewrite Ascii.eqb_refl, IH. reflexivity.
Qed.

Lemma HasPrefix_refl (x : string) : Strings.HasPrefix x x = true.
Proof.
  induction x as [|c x IH]; simpl; [reflexivity|].
  rewrite Ascii.eqb_refl, IH. reflexivity.
Qed.

Lemma HasPrefix_Contains (s x : string) :
  Strings.HasPrefix s x = true -> Strings.Contains s x = true.
Proof. destruct s; simpl; intros ->; reflexivity. Qed.

(** A cleaned path that leads out starts with two dots. *)
Lemma leads_out_prefix (p : string) :
  leads_out p = true -> Strings.HasPrefix (Clean p) ".." = true.
Proof.
  unfold leads_out. rewrite Clean_render.
  pose proof (cleaned_stack p) as Hok.
  destruct (cleaned p) as [|e es] eqn:E; [discriminate|].
  intros He. apply String.eqb_eq in He. subst e.
  destruct (rooted p).
  - exfalso. simpl rev in Hok.
    assert (H : forallb is_name (rev (rev es ++ [".."])) = true).
    { rewrite forallb_rev. clear E.
      induction (rev es) as [|x l IH]; simpl in *.
      - discriminate.
      - destruct (String.eqb_spec x "..") as [->|_]; [discriminate|].
        apply andb_true_iff in Hok. destruct Hok as [Hx Hl].
        rewrite Hx. simpl. apply IH, Hl. }
    rewrite rev_app_distr in H. discriminate.
  - destruct es; reflexivity.
Qed.

Lemma all_dots_last (l : list string) (d : string) :
  l <> [] -> forallb (String.eqb "..") l = true -> last l d = "..".
Proof.
  induction l as [|x l IH]; intros Hl H; [congruence|].
  simpl in H. apply andb_true_iff in H. destruct H as [Hx H].
  apply String.eqb_eq in Hx. subst x.
  destruct l as [|y l]; [reflexivity|].
  change (last (".." :: y :: l) d) with (last (y :: l) d).
  apply IH; [discriminate|exact H].
Qed.

Lemma ok_names (r : bool) (out : list string) :
  stack_ok r out = true -> last out "" <> ".." -> forallb is_name out = true.
Proof.
  induction out as [|top out IH]; intros Hok Hl; [reflexivity|].
  simpl in Hok. destruct (String.eqb_spec top "..") as [->|Htop].
  - exfalso. apply Hl. apply andb_true_iff in Hok.
    apply all_dots_last; [discriminate|].
    change (forallb (String.eqb "..") (".." :: out))
      with (String.eqb ".." ".." && forallb (String.eqb "..") out).
    rewrite String.eqb_refl. apply Hok.
  - apply andb_true_iff in Hok. destruct Hok as [Hn Hok]. simpl.
    rewrite Hn. simpl. destruct out as [|x out]; [reflexivity|].
    apply IH; [exact Hok|exact Hl].
Qed.

Lemma last_rev_cons {A : Type} (x : A) (l : list A) (d : A) :
  last (rev (x :: l)) d = x.
Proof. simpl. apply last_last. Qed.

(** A cleaned path that does not lead out consists of names only. *)
Lemma stays_in_names (p : string) :
  leads_out p = false -> forallb is_name (cleaned p) = true.
Proof.
  unfold leads_out. pose proof (cleaned_stack p) as Hok.
  destruct (cleaned p) as [|e es] eqn:E; [reflexivity|].
  intros He. rewrite <- forallb_rev.
  apply (ok_names _ _ Hok). rewrite last_rev_cons.
  apply String.eqb_neq, He.
Qed.

(** The check of [storeFiles] lets a path through only if it does not
    lead out. *)
Lemma prefix_check_stays_in (p : string) :
  Strings.HasPrefix (Clean p) ".." = false -> leads_out p = false.
Proof.
  intros H. destruct (leads_out p) eqn:L; [|reflexivity].
  rewrite (leads_out_prefix p L) in H. discriminate.
Qed.

(** What the full path of an accepted path denotes. *)
Lemma resolve_Join_Clean (wd : list string) (dir p : string) :
  dir <> "" -> leads_out p = false ->
  Os.resolve wd (Join dir (Clean p)) = (Os.resolve wd dir ++ cleaned p)%list.
Proof.
  intros Hd Hp. rewrite (resolve_Join wd dir _ Hd), Clean_render.
  rewrite fold_elements_render by (apply solid_no_sep, cleaned_solid).
  rewrite (names_fold _ _ _ (stays_in_names p Hp)).
  rewrite rev_app_distr, !rev_involutive. reflexivity.
Qed.

Lemma below_app (q p : list string) : below q (q ++ p) = true.
Proof.
  induction q as [|a q IH]; simpl; [reflexivity|].
  rewrite String.eqb_refl, IH. reflexivity.
Qed.

(** A relative path that, read from a directory, denotes a place that
    is not below the directory leads out. *)
Lemma outside_leads_out (wd : list string) (dir p : string) :
  dir <> "" -> rooted p = false ->
  below (Os.resolve wd dir) (Os.resolve wd (dir ++ String "/" p)) = false ->
  leads_out p = true.
Proof.
  intros Hd Hr H. destruct (leads_out p) eqn:L; [reflexivity|].
  exfalso. revert H. unfold Os.resolve at 2.
  rewrite (rooted_app dir _ Hd), elements_app_sep, fold_left_app.
  rewrite <- (resolve_cleaned (elements p)) by apply elements_no_sep.
  assert (E : rev (fold_left (clean_step false) (elements p) []) = cleaned p).
  { unfold cleaned, clean_elements. rewrite Hr. reflexivity. }
  rewrite E, (names_fold _ _ _ (stays_in_names p L)).
  rewrite rev_app_distr, rev_involutive.
  fold (Os.resolve wd dir). rewrite below_app. discriminate.
Qed.

End Checks.

(** ** A valid identifier is one name *)

Section Identifier.

Import Filepath.

Lemma hex_plain (c : ascii) :
  Uuid.is_hex c = true -> IsPathSeparator c = false.
Proof.
  destruct c as [[] [] [] [] [] [] [] []]; vm_compute; congruence.
Qed.

Lemma fold_plain (a b : ascii) :
  IsPathSeparator b = false ->
  Ascii.eqb (Strings.lower a) (Strings.lower b) = true ->
  IsPathSeparator a = false.
Proof.
  intros Hb H. destruct (IsPathSeparator a) eqn:Ha; [|reflexivity].
  apply Ascii.eqb_eq in Ha, H. subst a. exfalso. revert Hb H.
  destruct b as [[] [] [] [] [] [] [] []]; vm_compute; congruence.
Qed.

Lemma no_separator_app (a b : string) :
  no_separator (a ++ b) = no_separator a && no_separator b.
Proof.
  induction a as [|c a IH]; simpl; [reflexivity|].
  rewrite IH, andb_assoc. reflexivity.
Qed.

Lemma string_length_app (a b : string) :
  String.length (a ++ b) = (String.length a + String.length b)%nat.
Proof. induction a as [|c a IH]; simpl; [reflexivity|]. rewrite IH. reflexivity. Qed.

Lemma take_drop (n : nat) (s : string) : Uuid.take n s ++ Uuid.drop n s = s.
Proof.
  revert s. induction n as [|n IH]; intros [|c s]; simpl; try reflexivity.
  rewrite IH. reflexivity.
Qed.

Lemma length_take (n : nat) (s : string) :
  (n <= String.length s)%nat -> String.length (Uuid.take n s) = n.
Proof.
  revert s. induction n as [|n IH]; intros [|c s]; simpl; intros H;
    try reflexivity; try lia.
  rewrite IH by lia. reflexivity.
Qed.

Lemma shape_split (pattern t : string) :
  no_separator pattern = true -> Uuid.shape pattern t = true ->
  exists mid rest, t = mid ++ rest
                   /\ String.length mid = String.length pattern
                   /\ no_separator mid = true.
Proof.
  revert t. induction pattern as [|p pattern IH]; intros t Hp H.
  - exists "", t. repeat split.
  - destruct t as [|c t]; simpl in H; [discriminate|].
    simpl in Hp. apply andb_true_iff in Hp. destruct Hp as [Hp Hpat].
    apply andb_true_iff in H. destruct H as [Hc H].
    destruct (IH t Hpat H) as (mid & rest & -> & Hlen & Hmid).
    exists (String c mid), rest. simpl. rewrite Hlen, Hmid, andb_true_r.
    repeat split.
    destruct (Ascii.eqb p "x").
    + rewrite (hex_plain c Hc). reflexivity.
    + apply Ascii.eqb_eq in Hc. subst c. exact Hp.
Qed.

Lemma canonical_split (t : string) :
  Uuid.canonical t = true ->
  exists mid rest, t = mid ++ rest /\ String.length mid = 36%nat
                   /\ no_separator mid = true.
Proof. apply shape_split. reflexivity. Qed.

Lemma all_hex_plain (s : string) : Uuid.all_hex s = true -> no_separator s = true.
Proof.
  induction s as [|c s IH]; simpl; intros H; [reflexivity|].
  apply andb_true_iff in H. destruct H as [Hc H].
  rewrite (hex_plain c Hc), (IH H). reflexivity.
Qed.

Lemma EqualFold_plain (s t : string) :
  no_separator t = true -> Strings.EqualFold s t = true -> no_separator s = true.
Proof.
  revert t. induction s as [|a s IH]; intros [|b t] Ht H; simpl in *;
    try reflexivity; try discriminate.
  apply andb_true_iff in Ht, H. destruct Ht as [Hb Ht], H as [Hab H].
  apply negb_true_iff in Hb. rewrite (fold_plain a b Hb Hab), (IH t Ht H).
  reflexivity.
Qed.

Lemma long_name (e : string) :
  no_separator e = true -> (3 <= String.length e)%nat -> is_name e = true.
Proof.
  intros He Hl.
  apply not_special_name; try exact He; intros ->; simpl in Hl; lia.
Qed.

Lemma length_zero (s : string) : String.length s = 0%nat -> s = "".
Proof. destruct s; [reflexivity|discriminate]. Qed.

Lemma append_empty (s : string) : s ++ "" = s.
Proof. induction s as [|c s IH]; simpl; [reflexivity|]. rewrite IH. reflexivity. Qed.

(** Reading a valid identifier as a path adds exactly one name. *)
Lemma valid_id_name (id : string) :
  Uuid.Parse_ok id = true ->
  exists name, is_name name = true /\
    forall r st, fold_left (clean_step r) (elements id) st = name :: st.
Proof.
  unfold Uuid.Parse_ok.
  assert (whole : no_separator id = true -> (3 <= String.length id)%nat ->
                  exists name, is_name name = true /\
                    forall r st, fold_left (clean_step r) (elements id) st = name :: st).
  { intros Hn Hl. exists id. split; [apply long_name; assumption|].
    intros r st. rewrite (elements_no_separator id Hn). simpl.
    apply is_name_step, long_name; assumption. }
  destruct (Nat.eqb_spec (String.length id) 36) as [L|_].
  { intros H. destruct (canonical_split id H) as (mid & rest & E & Hm & Hs).
    apply whole; [|lia].
    assert (rest = "").
    { apply length_zero. rewrite E, string_length_app in L. lia. }
    subst rest. rewrite E, append_empty. exact Hs. }
  destruct (Nat.eqb_spec (String.length id) (36 + 9)) as [L|_].
  { intros H. apply andb_true_iff in H. destruct H as [Hu H].
    destruct (canonical_split _ H) as (mid & rest & E & Hm & Hs).
    apply whole; [|lia].
    pose proof (take_drop 9 id) as T.
    assert (rest = "").
    { apply length_zero.
      assert (String.length (Uuid.take 9 id) = 9%nat) by (apply length_take; lia).
      rewrite <- T, E, !string_length_app in L. lia. }
    subst rest. rewrite append_empty in E.
    rewrite <- T, no_separator_app, E, Hs, andb_true_r.
    apply (EqualFold_plain _ "urn:uuid:"); [reflexivity|exact Hu]. }
  destruct (Nat.eqb_spec (String.length id) (36 + 2)) as [L|_].
  { intros H. destruct id as [|c0 t]; [discriminate|].
    simpl in H. destruct (canonical_split _ H) as (mid & rest & E & Hm & Hs).
    subst t. simpl in L. rewrite string_length_app in L.
    destruct rest as [|c1 [|c2 rest]]; simpl in L; try lia.
    assert (Hmid : is_name mid = true) by (apply long_name; [exact Hs|lia]).
    destruct (IsPathSeparator c1) eqn:S1.
    - apply Ascii.eqb_eq in S1. unfold Separator in S1. subst c1.
      assert (Et : elements (mid ++ String "/" "") = [mid; ""]).
      { rewrite elements_name_app_sep by exact Hs. reflexivity. }
      destruct (IsPathSeparator c0) eqn:S0.
      + exists mid. split; [exact Hmid|]. intros r st.
        rewrite elements_String, S0, Et. simpl.
        rewrite (is_name_step _ _ _ Hmid). reflexivity.
      + assert (Hn : is_name (String c0 mid) = true).
        { apply long_name; [simpl; rewrite S0, Hs; reflexivity | simpl; lia]. }
        exists (String c0 mid). split; [exact Hn|]. intros r st.
        rewrite elements_String, S0, Et. simpl.
        rewrite (is_name_step _ _ _ Hn). reflexivity.
    - assert (Hs1 : no_separator (mid ++ String c1 "") = true).
      { rewrite no_separator_app, Hs. simpl. rewrite S1. reflexivity. }
      assert (Hn1 : is_name (mid ++ String c1 "") = true).
      { apply long_name; [exact Hs1 | rewrite string_length_app; lia]. }
      destruct (IsPathSeparator c0) eqn:S0.
      + exists (mid ++ String c1 ""). split; [exact Hn1|]. intros r st.
        rewrite elements_String, S0, (elements_no_separator _ Hs1). simpl.
        rewrite (is_name_step _ _ _ Hn1). reflexivity.
      + apply whole; [simpl; rewrite S0, Hs1; reflexivity|].
        simpl. rewrite string_length_app. simpl. lia. }
  destruct (Nat.eqb_spec (String.length id) 32) as [L|_]; [|discriminate].
  intros H. apply whole; [apply all_hex_plain, H | lia].
Qed.

End Identifier.

(** ** The directory of a codebase and the paths below it *)

Section CodebaseDir.

Import Filepath.

Lemma append_assoc (a b c : string) : (a ++ b) ++ c = a ++ (b ++ c).
Proof. induction a as [|x a IH]; simpl; [reflexivity|]. rewrite IH. reflexivity. Qed.

Lemma render_not_empty (r : bool) (es : list string) :
  forallb solid es = true -> render r es <> "".
Proof.
  destruct r; [discriminate|]. destruct es as [|e es]; [discriminate|].
  simpl. intros H. apply andb_true_iff in H. destruct H as [He _].
  unfold solid in He. apply andb_true_iff in He. destruct He as [He _].
  destruct e as [|c e]; [discriminate|]. destruct es; discriminate.
Qed.

Lemma Clean_not_empty (p : string) : Clean p <> "".
Proof. rewrite Clean_render. apply render_not_empty, cleaned_solid. Qed.

Lemma Join_not_empty (a b : string) : b <> "" -> Join a b <> "".
Proof.
  intros Hb. unfold Join. destruct (String.eqb_spec a ""); simpl.
  - apply String.eqb_neq in Hb. rewrite Hb. apply Clean_not_empty.
  - apply Clean_not_empty.
Qed.

Lemma Parse_ok_not_empty (id : string) : Uuid.Parse_ok id = true -> id <> "".
Proof. intros H ->. discriminate. Qed.

Lemma Join_joined (a b : string) : b <> "" -> Join a b = Clean (joined a b).
Proof.
  intros Hb. unfold Join, joined. destruct (String.eqb_spec a ""); simpl.
  - apply String.eqb_neq in Hb. rewrite Hb. reflexivity.
  - reflexivity.
Qed.

(** The elements of the directory of a codebase end with the name of
    the identifier. *)
Lemma cleaned_joined_id (base id : string) :
  Uuid.Parse_ok id = true ->
  exists front name, is_name name = true
                     /\ cleaned (joined base id) = (front ++ [name])%list.
Proof.
  intros H. destruct (valid_id_name id H) as (name & Hn & Hf).
  unfold cleaned, clean_elements, joined.
  destruct (String.eqb_spec base "").
  - exists [], name. rewrite Hf. split; [exact Hn|reflexivity].
  - rewrite elements_app_sep, fold_left_app, Hf. simpl.
    eexists _, name. split; [exact Hn|reflexivity].
Qed.

Lemma codebase_dir_render (s : StorageServer) (id : string) :
  Uuid.Parse_ok id = true ->
  codebase_dir s id
  = render (rooted (joined (baseStorageDir s) id))
           (cleaned (joined (baseStorageDir s) id)).
Proof.
  intros H. unfold codebase_dir.
  rewrite (Join_joined _ _ (Parse_ok_not_empty id H)). apply Clean_render.
Qed.

Lemma codebase_at_not_root (s : StorageServer) (o : OS) (id : string) :
  Uuid.Parse_ok id = true ->
  exists front name, codebase_at s o id = (front ++ [name])%list.
Proof.
  intros H. destruct (valid_id_name id H) as (name & Hn & Hf).
  unfold codebase_at, codebase_dir, Os.at_.
  rewrite (Join_joined _ _ (Parse_ok_not_empty id H)), resolve_Clean.
  unfold Os.resolve, joined. destruct (String.eqb_spec (baseStorageDir s) "").
  - rewrite Hf. simpl. eexists _, name. reflexivity.
  - rewrite elements_app_sep, fold_left_app, Hf. simpl.
    eexists _, name. reflexivity.
Qed.

Lemma Join_app (B E : list string) :
  B <> [] ->
  Strings.Join (B ++ E) "/" = Strings.Join B "/" ++ tail_text E.
Proof.
  induction B as [|b B IH]; intros HB; [congruence|].
  destruct B as [|b' B].
  - destruct E as [|e E]; simpl.
    + symmetry. apply append_empty.
    + reflexivity.
  - change (Strings.Join ((b :: b' :: B) ++ E) "/")
      with (b ++ "/" ++ Strings.Join ((b' :: B) ++ E) "/").
    rewrite IH by discriminate.
    change (Strings.Join (b :: b' :: B) "/")
      with (b ++ "/" ++ Strings.Join (b' :: B) "/").
    rewrite !append_assoc. reflexivity.
Qed.

Lemma render_app (r : bool) (B E : list string) :
  B <> [] -> render r (B ++ E) = render r B ++ tail_text E.
Proof.
  intros HB. unfold render. rewrite (Join_app B E HB).
  destruct r.
  - rewrite append_assoc. reflexivity.
  - destruct B as [|b B]; [congruence|]. reflexivity.
Qed.

(** The text of the full path of an accepted path. *)
Lemma Join_Clean_text (X p : string) :
  leads_out p = false ->
  Join (Clean X) (Clean p) = render (rooted X) (cleaned X ++ cleaned p).
Proof.
  intros Hp. rewrite (Join_joined _ _ (Clean_not_empty p)).
  unfold joined. pose proof (Clean_not_empty X) as HX.
  apply String.eqb_neq in HX. rewrite HX. apply String.eqb_neq in HX.
  rewrite Clean_render.
  rewrite (rooted_app _ _ HX).
  rewrite (Clean_render X) at 1.
  rewrite (rooted_render _ _ (cleaned_solid X)). f_equal.
  unfold cleaned at 1, clean_elements.
  rewrite (rooted_app _ _ HX).
  rewrite (Clean_render X) at 1.
  rewrite (rooted_render _ _ (cleaned_solid X)).
  rewrite elements_app_sep, fold_left_app.
  rewrite (Clean_render X), (Clean_render p).
  rewrite !fold_elements_render by (apply solid_no_sep, cleaned_solid).
  rewrite (names_fold _ _ _ (stays_in_names p Hp)).
  rewrite <- (rev_involutive (cleaned X)) at 1.
  rewrite (fold_idempotent _ _ (cleaned_stack X)).
  rewrite rev_app_distr, !rev_involutive. reflexivity.
Qed.

End CodebaseDir.

(** ** Locating a file for download *)

Section Locate.

Import Filepath.

Lemma codebase_dir_not_empty (s : StorageServer) (id : string) :
  Uuid.Parse_ok id = true -> codebase_dir s id <> "".
Proof. intros H. apply Join_not_empty, Parse_ok_not_empty, H. Qed.

Lemma full_path_text (s : StorageServer) (id p : string) :
  Uuid.Parse_ok id = true -> leads_out p = false ->
  Join (codebase_dir s id) (Clean p)
  = codebase_dir s id ++ tail_text (cleaned p).
Proof.
  intros Hid Hp. unfold codebase_dir at 1.
  rewrite (Join_joined _ _ (Parse_ok_not_empty id Hid)).
  rewrite (Join_Clean_text _ _ Hp).
  destruct (cleaned_joined_id (baseStorageDir s) id Hid) as (front & name & _ & E).
  rewrite render_app by (rewrite E; destruct front; discriminate).
  rewrite <- Clean_render, <- (Join_joined _ _ (Parse_ok_not_empty id Hid)).
  reflexivity.
Qed.

Lemma full_path_at (s : StorageServer) (o : OS) (id p : string) :
  Uuid.Parse_ok id = true -> leads_out p = false ->
  Os.at_ o (Join (codebase_dir s id) (Clean p))
  = (codebase_at s o id ++ cleaned p)%list.
Proof.
  intros Hid Hp. unfold Os.at_, codebase_at.
  apply resolve_Join_Clean; [apply codebase_dir_not_empty, Hid | exact Hp].
Qed.

Lemma Contains_check_stays_in (p : string) :
  Strings.Contains (Clean p) ".." = false -> leads_out p = false.
Proof.
  intros H. apply prefix_check_stays_in.
  destruct (Strings.HasPrefix (Clean p) "..") eqn:E; [|reflexivity].
  rewrite (HasPrefix_Contains _ _ E) in H. discriminate.
Qed.

Lemma locate_accepts (s : StorageServer) (id p : string) :
  Uuid.Parse_ok id = true -> p <> "" ->
  Strings.Contains (Clean p) ".." = false ->
  locate s id p = inr (Clean p, Join (codebase_dir s id) (Clean p)).
Proof.
  intros Hid Hp Hc. unfold locate. rewrite Hid. simpl negb. cbv iota.
  apply String.eqb_neq in Hp. rewrite Hp, Hc.
  pose proof (Contains_check_stays_in p Hc) as Hl.
  destruct (Strings.HasPrefix (Clean p) "..") eqn:E.
  { rewrite (HasPrefix_Contains _ _ E) in Hc. discriminate. }
  simpl orb. cbv iota. fold (codebase_dir s id).
  rewrite (full_path_text s id p Hid Hl) at 1.
  rewrite HasPrefix_app. reflexivity.
Qed.

Lemma locate_rejects (s : StorageServer) (id p : string) :
  Uuid.Parse_ok id = true -> p <> "" -> leads_out p = true ->
  locate s id p = inl (Error 400 "Invalid file path").
Proof.
  intros Hid Hp Hl. unfold locate. rewrite Hid. simpl negb. cbv iota.
  apply String.eqb_neq in Hp. rewrite Hp, (leads_out_prefix p Hl). reflexivity.
Qed.

(** Whatever [locate] lets through passed both checks. *)
Lemma locate_inr (s : StorageServer) (id p cleanPath fullPath : string) :
  locate s id p = inr (cleanPath, fullPath) ->
  Uuid.Parse_ok id = true /\ p <> ""
  /\ Strings.Contains (Clean p) ".." = false
  /\ cleanPath = Clean p /\ fullPath = Join (codebase_dir s id) (Clean p)
  /\ Strings.HasPrefix fullPath (codebase_dir s id) = true.
Proof.
  unfold locate. destruct (Uuid.Parse_ok id); simpl negb; cbv iota; [|discriminate].
  destruct (String.eqb_spec p ""); [discriminate|].
  destruct (Strings.HasPrefix (Clean p) ".."); simpl orb; cbv iota; [discriminate|].
  destruct (Strings.Contains (Clean p) ".."); [discriminate|].
  fold (codebase_dir s id).
  destruct (Strings.HasPrefix (Join (codebase_dir s id) (Clean p)) (codebase_dir s id)) eqn:E;
    simpl negb; cbv iota; [|discriminate].
  intros H. injection H as <- <-. repeat split; auto.
Qed.

End Locate.

(** ** The calls of a request stay inside the codebase *)

Section CallsInside.

Import Filepath.

Variable s : StorageServer.
Variable id : string.
Hypothesis Hid : Uuid.Parse_ok id = true.

Lemma inside_cwd (o o' : OS) (c : FsCall) :
  cwd o' = cwd o -> inside s o' id c = inside s o id c.
Proof.
  intros H. unfold inside, codebase_at, Os.at_. rewrite H. reflexivity.
Qed.

Lemma forallb_same {A : Type} (f g : A -> bool) (l : list A) :
  (forall x, f x = g x) -> forallb f l = forallb g l.
Proof.
  intros H. induction l as [|x l IH]; simpl; [reflexivity|].
  rewrite H, IH. reflexivity.
Qed.

Lemma calls_inside_refl (o : OS) : calls_inside s id o o.
Proof. split; [reflexivity|]. exists []. split; reflexivity. Qed.

Lemma calls_inside_trans (o1 o2 o3 : OS) :
  calls_inside s id o1 o2 -> calls_inside s id o2 o3 -> calls_inside s id o1 o3.
Proof.
  intros [C1 (n1 & E1 & I1)] [C2 (n2 & E2 & I2)]. split; [congruence|].
  exists (n2 ++ n1)%list. split.
  - rewrite E2, E1, app_assoc. reflexivity.
  - rewrite forallb_app, I1, andb_true_r.
    rewrite <- I2. apply forallb_same. intros c. symmetry. apply inside_cwd, C1.
Qed.

Lemma calls_inside_record (o : OS) (c : FsCall) (d : node) :
  inside s o id c = true -> calls_inside s id o (Os.record o c d).
Proof.
  intros H. split; [reflexivity|]. exists [c]. split; [reflexivity|].
  simpl. rewrite H. reflexivity.
Qed.

Lemma inside_full_path (o : OS) (p : string) (c : FsCall) :
  leads_out p = false ->
  file_call_path c = Some (Join (codebase_dir s id) (Clean p)) ->
  inside s o id c = true.
Proof.
  intros Hp Hc. unfold inside. rewrite Hc, (full_path_at s o id p Hid Hp).
  apply below_app.
Qed.

Lemma inside_codebase_dir (o : OS) (c : FsCall) :
  file_call_path c = Some (codebase_dir s id) -> inside s o id c = true.
Proof.
  intros Hc. unfold inside. rewrite Hc. unfold codebase_at.
  rewrite <- (app_nil_r (Os.at_ o (codebase_dir s id))) at 2. apply below_app.
Qed.

Ltac step_inside Hp :=
  eapply calls_inside_trans;
  [| apply calls_inside_record;
     first [ reflexivity | eapply (inside_full_path _ _ _ Hp); reflexivity ] ].

Lemma store_file_inside (r : Request) (st : StoreState) (fh : FileHeader) :
  calls_inside s id (os st) (os (store_file r (codebase_dir s id) st fh)).
Proof.
  unfold store_file.
  destruct (open_fails fh); [apply calls_inside_refl|].
  match goal with |- context [if ?b then _ else _] => destruct b end;
    [apply calls_inside_refl|].
  fold (requested_path r fh).
  destruct (Strings.HasPrefix (Clean (requested_path r fh)) "..") eqn:E;
    [apply calls_inside_refl|].
  pose proof (prefix_check_stays_in _ E) as Hp.
  unfold Os.MkdirAll, Os.Create, io_Copy, Os.Write, Os.Remove.
  repeat match goal with
         | |- context [match ?x with _ => _ end] =>
             match x with
             | Fs.mkdir_all _ _ => destruct x
             | Fs.put_file _ _ _ => destruct x
             | Fs.remove _ _ => destruct x
             | copy_fails _ => destruct x
             end; simpl
         end;
    repeat step_inside Hp; apply calls_inside_refl.
Qed.

Lemma store_loop_inside (r : Request) (files : list FileHeader) (st : StoreState) :
  calls_inside s id (os st)
    (os (fold_left (store_file r (codebase_dir s id)) files st)).
Proof.
  revert st. induction files as [|fh files IH]; intros st; simpl.
  - apply calls_inside_refl.
  - eapply calls_inside_trans; [apply store_file_inside | apply IH].
Qed.

Lemma located_inside (o : OS) (p cleanPath fullPath : string) (c : FsCall) :
  locate s id p = inr (cleanPath, fullPath) ->
  file_call_path c = Some fullPath -> inside s o id c = true.
Proof.
  intros H Hc. destruct (locate_inr _ _ _ _ _ H) as (_ & _ & Hd & _ & -> & _).
  apply (inside_full_path o p c (Contains_check_stays_in p Hd) Hc).
Qed.

End CallsInside.

(** ** Traversal *)

(** C1, as stated, fails: the path [a/../b] has a parent-directory
    element, and both the upload and the download accept it (it is
    cleaned to [b], inside the codebase). *)
Lemma inner_dotdot_accepted :
  has_dotdot_element "a/../b" = true
  /\ fst (storeFiles server0 os0 (upload [("path_f", "a/../b")] [part "f" "abc"]))
     = Success "Successfully stored 1 files (3 bytes total)"
  /\ fst (downloadFile server0 (os_with (codebase0 [("b", File abc)])) id0 "a/../b")
     = Attachment "b" 3 abc
  /\ fst (getFileContent server0 (os_with (codebase0 [("b", File abc)])) id0 "a/../b")
     = Content "b" 3 true "abc" None.
Proof. repeat split; vm_compute; reflexivity. Qed.

(** C1 (amended): for a valid identifier, every path whose cleaned form
    begins with a parent-directory element (every path form that
    normalizes to a location outside the codebase directory, such as
    [../../etc/passwd] and [a/../../b]) is refused: [getFileContent] and
    [downloadFile] answer 400 [Invalid file path] without touching the
    file system, and [storeFiles] skips the file part, logging the
    invalid path and leaving the file system and its counters as they
    were; a relative path that, read from the codebase directory,
    denotes a place that is not below it is such a path; and every call
    by which the three operations create, write, read or remove files
    is on a path inside the codebase directory. *)
Theorem traversal_refused_and_contained
  (s : StorageServer) (o : OS) (codebaseID path : string)
  (r : Request) (st : StoreState) (fileHeader : FileHeader) :
  Uuid.Parse_ok codebaseID = true ->
  (path <> "" -> leads_out path = true ->
     getFileContent s o codebaseID path = (Error 400 "Invalid file path", o)
     /\ downloadFile s o codebaseID path = (Error 400 "Invalid file path", o)
     /\ (open_fails fileHeader = false -> name_accepted fileHeader = true ->
         requested_path r fileHeader = path ->
         store_file r (codebase_dir s codebaseID) st fileHeader
         = skip st (os st) (InvalidPath (Filepath.Clean path))))
  /\ (Filepath.rooted path = false ->
      below (codebase_at s o codebaseID)
            (Os.at_ o (codebase_dir s codebaseID ++ "/" ++ path)) = false ->
      leads_out path = true)
  /\ calls_inside s codebaseID o (snd (getFileContent s o codebaseID path))
  /\ calls_inside s codebaseID o (snd (downloadFile s o codebaseID path))
  /\ (FormValue r "codebase_id" = codebaseID ->
      calls_inside s codebaseID o (os (snd (storeFiles s o r)))).
Proof.
  intros Hid. split; [|split; [|split; [|split]]].
  2:{ intros Hr H.
      apply (outside_leads_out (cwd o) (codebase_dir s codebaseID) path);
        [apply codebase_dir_not_empty, Hid | exact Hr | exact H]. }
  - intros Hp Hl. split; [|split].
    + unfold getFileContent. rewrite (locate_rejects s _ _ Hid Hp Hl). reflexivity.
    + unfold downloadFile. rewrite (locate_rejects s _ _ Hid Hp Hl). reflexivity.
    + intros Ho Hn Hr. unfold store_file. rewrite Ho.
      unfold name_accepted in Hn. apply negb_true_iff in Hn. rewrite Hn.
      fold (requested_path r fileHeader). rewrite Hr.
      rewrite (leads_out_prefix path Hl). reflexivity.
  - unfold getFileContent.
    destruct (locate s codebaseID path) as [resp|[cleanPath fullPath]] eqn:L;
      [apply calls_inside_refl|].
    unfold Os.Stat, Os.ReadAll.
    destruct (Fs.stat _ _); simpl;
      try (apply calls_inside_record; reflexivity).
    match goal with |- context [match ?x with _ => _ end] => destruct x as [[]|] end;
      try destruct (isTextFile _); simpl;
      (eapply calls_inside_trans;
       [|apply calls_inside_record; eapply (located_inside s _ Hid); [exact L|reflexivity]];
       apply calls_inside_record; reflexivity).
  - unfold downloadFile.
    destruct (locate s codebaseID path) as [resp|[cleanPath fullPath]] eqn:L;
      [apply calls_inside_refl|].
    unfold Os.Stat, Os.ReadAll.
    destruct (Fs.stat _ _); simpl;
      try (apply calls_inside_record; reflexivity).
    match goal with |- context [match ?x with _ => _ end] => destruct x as [[]|] end;
      simpl;
      (eapply calls_inside_trans;
       [|apply calls_inside_record; eapply (located_inside s _ Hid); [exact L|reflexivity]];
       apply calls_inside_record; reflexivity).
  - intros Hr. unfold storeFiles. rewrite Hr.
    destruct (parse_fails r); [apply calls_inside_refl|].
    destruct (String.eqb codebaseID ""); [apply calls_inside_refl|].
    rewrite Hid. simpl negb. cbv iota.
    destruct (length (FormFiles r "files") =? 0)%nat; [apply calls_inside_refl|].
    fold (codebase_dir s codebaseID).
    unfold Os.MkdirAll at 1.
    destruct (Fs.mkdir_all _ _); simpl negb; cbv iota;
      [|apply calls_inside_record; reflexivity].
    match goal with
      |- context [fold_left ?f ?l ?a] =>
        pose proof (store_loop_inside s codebaseID Hid r l a) as Hloop;
        destruct (fold_left f l a) as [o' sf ts lg] eqn:F
    end.
    simpl in *.
    assert (Hfirst : calls_inside s codebaseID o
              (Os.record o (CallMkdirAll (codebase_dir s codebaseID)) n))
      by (apply calls_inside_record; reflexivity).
    pose proof (calls_inside_trans s codebaseID _ _ _ Hfirst Hloop) as Hall.
    destruct (length sf =? 0)%nat; simpl.
    + eapply calls_inside_trans; [exact Hall|].
      apply calls_inside_record. apply (inside_codebase_dir s); reflexivity.
    + exact Hall.
Qed.

Lemma traversal_refused_and_contained_witness :
  Uuid.Parse_ok id0 = true
  /\ leads_out "a/../../b" = true
  /\ downloadFile server0 os0 id0 "a/../../b" = (Error 400 "Invalid file path", os0)
  /\ calls_inside server0 id0 os0
       (os (snd (storeFiles server0 os0 (upload [("path_f", "x/y")] [part "f" "abc"])))).
Proof.
  pose proof (traversal_refused_and_contained server0 os0 id0 "a/../../b"
                (upload [("path_f", "x/y")] [part "f" "abc"])
                (store_start os0) (part "f" "abc") eq_refl) as (H1 & _ & _ & _ & H4).
  split; [reflexivity|]. split; [reflexivity|]. split.
  - apply H1; [discriminate|reflexivity].
  - apply H4. reflexivity.
Defined.

(** ** The prefix check of the downloads *)

(** The check compares texts: a path in a sibling directory whose name
    begins with the name of the codebase directory would pass it. *)
Example prefix_check_is_textual :
  Strings.HasPrefix "storage/abc-evil/x" "storage/abc" = true.
Proof. reflexivity. Qed.

(** C3, as stated, fails: the path [.] is joined to the codebase
    directory itself, of which the codebase directory is not a strict
    prefix, and the request is not refused as an invalid path: the check
    lets it through and the answer is that of a directory. *)
Lemma prefix_check_not_strict :
  Filepath.Join (codebase_dir server0 id0) (Filepath.Clean ".")
  = codebase_dir server0 id0
  /\ locate server0 id0 "." = inr (".", codebase_dir server0 id0)
  /\ fst (downloadFile server0 (os_with (codebase0 [("b", File abc)])) id0 ".")
     = Error 400 "Cannot download directory"
  /\ fst (getFileContent server0 (os_with (codebase0 [("b", File abc)])) id0 ".")
     = Error 400 "Cannot read directory as file".
Proof. repeat split; vm_compute; reflexivity. Qed.

(** C3 (amended): for every download request ([getFileContent] and
    [downloadFile] share [locate]) with a valid identifier and a path,
    after joining the root, the identifier and the cleaned path the
    handler checks again that the text of the joined path begins with
    the text of the codebase directory (a plain prefix, the codebase
    directory itself included) and answers 400 [Invalid file path]
    otherwise; and whenever the path got through, the joined path is the
    text of the codebase directory followed by nothing or by a separator
    and names, and denotes the codebase directory followed by those
    names: it never denotes a place in a sibling directory. *)
Theorem download_prefix_check
  (s : StorageServer) (codebaseID filePath : string) :
  Uuid.Parse_ok codebaseID = true -> filePath <> "" ->
  let baseDir := codebase_dir s codebaseID in
  let fullPath := Filepath.Join baseDir (Filepath.Clean filePath) in
  (Strings.HasPrefix fullPath baseDir = false ->
   locate s codebaseID filePath = inl (Error 400 "Invalid file path"))
  /\ (forall cleanPath fullPath',
        locate s codebaseID filePath = inr (cleanPath, fullPath') ->
        fullPath' = fullPath
        /\ Strings.HasPrefix fullPath baseDir = true
        /\ fullPath = baseDir ++ tail_text (cleaned filePath)
        /\ forallb is_name (cleaned filePath) = true
        /\ forall o, Os.at_ o fullPath
                     = (codebase_at s o codebaseID ++ cleaned filePath)%list).
Proof.
  intros Hid Hp baseDir fullPath. split.
  - intros H. unfold locate. rewrite Hid. simpl negb. cbv iota.
    apply String.eqb_neq in Hp. rewrite Hp.
    destruct (_ || _); [reflexivity|].
    fold (codebase_dir s codebaseID). fold baseDir. fold fullPath.
    rewrite H. reflexivity.
  - intros cleanPath fullPath' L.
    destruct (locate_inr _ _ _ _ _ L) as (_ & _ & Hd & _ & -> & Hpre).
    pose proof (Contains_check_stays_in _ Hd) as Hl.
    split; [reflexivity|]. split; [exact Hpre|]. split.
    + apply full_path_text; assumption.
    + split; [apply stays_in_names, Hl|].
      intros o. apply full_path_at; assumption.
Qed.

Lemma download_prefix_check_witness :
  Uuid.Parse_ok id0 = true /\ "a/b/c.txt" <> ""
  /\ locate server0 id0 "a/b/c.txt"
     = inr ("a/b/c.txt", "storage/123e4567-e89b-12d3-a456-426614174000/a/b/c.txt")
  /\ Os.at_ os0 (Filepath.Join (codebase_dir server0 id0) (Filepath.Clean "a/b/c.txt"))
     = ["srv"; "storage"; id0; "a"; "b"; "c.txt"].
Proof.
  assert (Hne : "a/b/c.txt" <> "") by discriminate.
  pose proof (download_prefix_check server0 id0 "a/b/c.txt" eq_refl Hne) as [_ H].
  split; [reflexivity|]. split; [exact Hne|]. split; [reflexivity|].
  destruct (H _ _ eq_refl) as (_ & _ & _ & _ & Hat).
  rewrite Hat. reflexivity.
Defined.

(** ** The file system *)

Section FsFacts.

Lemma get_set_same (c : string) (n : node) (es : list (string * node)) :
  Fs.get c (Fs.set c n es) = Some n.
Proof.
  induction es as [|[c' n'] es IH]; simpl.
  - rewrite String.eqb_refl. reflexivity.
  - destruct (String.compare c c') eqn:E; simpl.
    + rewrite String.eqb_refl. reflexivity.
    + rewrite String.eqb_refl. reflexivity.
    + destruct (String.eqb_spec c c') as [->|_]; [|exact IH].
      pose proof (String.compare_antisym c' c') as H. rewrite E in H. discriminate.
Qed.

Lemma get_del_same (c : string) (es : list (string * node)) :
  Fs.get c (Fs.del c es) = None.
Proof.
  induction es as [|[c' n'] es IH]; simpl; [reflexivity|].
  destruct (String.eqb_spec c c') as [->|H]; [exact IH|].
  simpl. apply String.eqb_neq in H. rewrite H. exact IH.
Qed.

(** After [put_file] the file is there, with the bytes put. *)
Lemma put_file_lookup (p : list string) (d : list byte) (t t' : node) :
  Fs.put_file t p d = Some t' -> Fs.lookup t' p = Some (File d).
Proof.
  revert t t'. induction p as [|c p IH]; intros t t'; simpl.
  - destruct t; [|discriminate]. intros H. injection H as <-. reflexivity.
  - destruct t as [|es]; [discriminate|].
    destruct (Fs.get c es) as [n|] eqn:G.
    + destruct (Fs.put_file n p d) as [n'|] eqn:P; [|discriminate].
      intros H. injection H as <-. simpl. rewrite get_set_same.
      apply (IH _ _ P).
    + destruct p; [|discriminate].
      intros H. injection H as <-. simpl. rewrite get_set_same. reflexivity.
Qed.

(** A regular file can be written again. *)
Lemma put_file_again (p : list string) (d d' : list byte) (t : node) :
  Fs.lookup t p = Some (File d) -> exists t', Fs.put_file t p d' = Some t'.
Proof.
  revert t. induction p as [|c p IH]; intros t; simpl.
  - intros H. injection H as ->. eexists. reflexivity.
  - destruct t as [|es]; [discriminate|].
    destruct (Fs.get c es) as [n|]; [|discriminate].
    intros H. destruct (IH _ H) as [n' ->]. eexists. reflexivity.
Qed.

Lemma lookup_file_stat (p : list string) (d : list byte) (t : node) :
  Fs.lookup t p = Some (File d) -> Fs.stat t p = Fs.IsFile (Z.of_nat (length d)).
Proof.
  revert t. induction p as [|c p IH]; intros t; simpl.
  - intros H. injection H as ->. reflexivity.
  - destruct t as [|es]; [discriminate|].
    destruct (Fs.get c es) as [n|]; [|discriminate]. apply IH.
Qed.

(** After [remove_all] nothing is left at the path or below it. *)
Lemma remove_all_lookup (p q : list string) (t : node) :
  p <> [] -> Fs.lookup (Fs.remove_all t p) (p ++ q) = None.
Proof.
  revert t. induction p as [|c p IH]; intros t Hp; [congruence|].
  destruct t as [d|es]; [reflexivity|].
  destruct p as [|c' p].
  - simpl. rewrite get_del_same. reflexivity.
  - change (Fs.remove_all (Dir es) (c :: c' :: p))
      with (match Fs.get c es with
            | Some n => Dir (Fs.set c (Fs.remove_all n (c' :: p)) es)
            | None => Dir es
            end).
    destruct (Fs.get c es) as [n|] eqn:G.
    + change (Fs.lookup (Dir (Fs.set c (Fs.remove_all n (c' :: p)) es))
                        ((c :: c' :: p) ++ q))
        with (match Fs.get c (Fs.set c (Fs.remove_all n (c' :: p)) es) with
              | Some n' => Fs.lookup n' ((c' :: p) ++ q)
              | None => None
              end).
      rewrite get_set_same. apply IH. discriminate.
    + simpl. rewrite G. reflexivity.
Qed.

End FsFacts.

(** ** The loop of [storeFiles] *)

Section StoreLoop.

Import Filepath.

Lemma storeFiles_processed (s : StorageServer) (o : OS) (r : Request) :
  processed s o r = true ->
  storeFiles s o r =
  let st := store_loop s o r in
  if (length (storedFiles st) =? 0)%nat then
    (Error 400 "No valid files were stored",
     {| os := Os.RemoveAll (os st) (codebase_dir s (FormValue r "codebase_id"));
        storedFiles := storedFiles st; totalSize := totalSize st;
        logged := logged st |})
  else
    (Success ("Successfully stored "
              ++ show (Z.of_nat (length (storedFiles st)))
              ++ " files (" ++ show (totalSize st) ++ " bytes total)"),
     st).
Proof.
  unfold processed, storeFiles, store_loop, codebase_dir. intros H.
  repeat (apply andb_true_iff in H; destruct H as [H ?]).
  apply negb_true_iff in H. rewrite H.
  repeat match goal with
         | H : negb _ = true |- _ => apply negb_true_iff in H; rewrite H
         | H : Uuid.Parse_ok _ = true |- _ => rewrite H
         end.
  simpl negb. cbv iota.
  destruct (Os.MkdirAll o _) as [ok o1]. simpl in *. subst ok. reflexivity.
Qed.

Lemma storeFiles_refused (s : StorageServer) (o : OS) (r : Request) :
  processed s o r = false ->
  exists code msg o',
    storeFiles s o r = (Error code msg, store_start o')
    /\ disk o' = disk o
    /\ msg <> "No valid files were stored".
Proof.
  unfold processed, storeFiles, codebase_dir. intros H.
  destruct (parse_fails r).
  { do 3 eexists. split; [reflexivity|]. split; [reflexivity|discriminate]. }
  destruct (String.eqb (FormValue r "codebase_id") "").
  { do 3 eexists. split; [reflexivity|]. split; [reflexivity|discriminate]. }
  destruct (Uuid.Parse_ok (FormValue r "codebase_id")).
  2:{ do 3 eexists. split; [reflexivity|]. split; [reflexivity|discriminate]. }
  destruct (length (FormFiles r "files") =? 0)%nat.
  { do 3 eexists. split; [reflexivity|]. split; [reflexivity|discriminate]. }
  simpl in H. unfold Os.MkdirAll in *.
  destruct (Fs.mkdir_all _ _); [discriminate|]. simpl.
  do 3 eexists. split; [reflexivity|]. split; [reflexivity|discriminate].
Qed.

(** A file part that is logged as stored is on the disk, with its
    bytes, when its turn ends. *)
Lemma store_file_stored (r : Request) (dir : string) (st : StoreState)
      (fh : FileHeader) (rel : string) (w : Z) :
  hd_error (logged (store_file r dir st fh)) = Some (StoredFile rel w) ->
  rel = Clean (requested_path r fh)
  /\ w = Z.of_nat (length (Data fh))
  /\ storedFiles (store_file r dir st fh) = (storedFiles st ++ [rel])%list
  /\ cwd (os (store_file r dir st fh)) = cwd (os st)
  /\ Fs.lookup (disk (os (store_file r dir st fh)))
               (Os.at_ (os st) (Join dir rel))
     = Some (File (Data fh)).
Proof.
  unfold store_file.
  destruct (open_fails fh); [discriminate|].
  match goal with |- context [if ?b then _ else _] => destruct b end;
    [discriminate|].
  fold (requested_path r fh).
  destruct (Strings.HasPrefix _ ".."); [discriminate|].
  unfold Os.MkdirAll.
  destruct (Fs.mkdir_all _ _) as [d1|]; simpl negb; cbv iota; [|discriminate].
  unfold Os.Create.
  destruct (Fs.put_file _ _ []) as [d2|] eqn:C; simpl negb; cbv iota; [|discriminate].
  unfold io_Copy. destruct (copy_fails fh); simpl negb; cbv iota; [discriminate|].
  simpl. intros H. injection H as <- <-.
  unfold Os.Write. simpl. unfold Os.at_ in *. simpl in *.
  destruct (put_file_again _ _ (Data fh) _ (put_file_lookup _ _ _ _ C)) as [d3 W].
  rewrite W. simpl. repeat split. apply (put_file_lookup _ _ _ _ W).
Qed.

Lemma store_file_cwd (r : Request) (dir : string) (st : StoreState) (fh : FileHeader) :
  cwd (os (store_file r dir st fh)) = cwd (os st).
Proof.
  unfold store_file.
  destruct (open_fails fh); [reflexivity|].
  match goal with |- context [if ?b then _ else _] => destruct b end;
    [reflexivity|].
  destruct (Strings.HasPrefix _ ".."); [reflexivity|].
  unfold Os.MkdirAll, Os.Create, io_Copy, Os.Write, Os.Remove.
  repeat match goal with
         | |- context [match ?x with _ => _ end] =>
             match x with
             | Fs.mkdir_all _ _ => destruct x
             | Fs.put_file _ _ _ => destruct x
             | Fs.remove _ _ => destruct x
             | copy_fails _ => destruct x
             end; simpl
         end; reflexivity.
Qed.

Lemma store_fold_cwd (r : Request) (dir : string) (files : list FileHeader)
      (st : StoreState) :
  cwd (os (fold_left (store_file r dir) files st)) = cwd (os st).
Proof.
  revert st. induction files as [|fh files IH]; intros st; simpl; [reflexivity|].
  rewrite IH. apply store_file_cwd.
Qed.

Lemma MkdirAll_cwd (o : OS) (p : string) : cwd (snd (Os.MkdirAll o p)) = cwd o.
Proof. unfold Os.MkdirAll. destruct (Fs.mkdir_all _ _); reflexivity. Qed.

Lemma store_loop_cwd (s : StorageServer) (o : OS) (r : Request) :
  cwd (os (store_loop s o r)) = cwd o.
Proof. unfold store_loop. rewrite store_fold_cwd. apply MkdirAll_cwd. Qed.

End StoreLoop.

(** ** Counting the file parts *)

Section Counting.

(** One turn of the loop writes one line: either the part is stored
    and its relative path is appended, or it is skipped and the
    counters stay. *)
Lemma store_file_turn (r : Request) (dir : string) (st : StoreState)
      (fh : FileHeader) :
  exists l, logged (store_file r dir st fh) = l :: logged st
    /\ ((is_stored l = true
         /\ exists rel, storedFiles (store_file r dir st fh)
                        = (storedFiles st ++ [rel])%list)
        \/ (is_stored l = false
            /\ storedFiles (store_file r dir st fh) = storedFiles st
            /\ totalSize (store_file r dir st fh) = totalSize st)).
Proof.
  unfold store_file.
  destruct (open_fails fh);
    [eexists; split; [reflexivity|right; repeat split]|].
  match goal with |- context [if ?b then _ else _] => destruct b end;
    [eexists; split; [reflexivity|right; repeat split]|].
  destruct (Strings.HasPrefix _ "..");
    [eexists; split; [reflexivity|right; repeat split]|].
  destruct (Os.MkdirAll _ _) as [[] o1]; simpl negb; cbv iota;
    [|eexists; split; [reflexivity|right; repeat split]].
  destruct (Os.Create _ _) as [[] o2]; simpl negb; cbv iota;
    [|eexists; split; [reflexivity|right; repeat split]].
  destruct (io_Copy _ _ _) as [[written []] o3]; simpl negb; cbv iota;
    [|eexists; split; [reflexivity|right; repeat split]].
  eexists; split; [reflexivity|left]. split; [reflexivity|].
  eexists. reflexivity.
Qed.

Lemma store_fold_count (r : Request) (dir : string)
      (files : list FileHeader) (st : StoreState) :
  let st' := fold_left (store_file r dir) files st in
  length (logged st') = (length files + length (logged st))%nat
  /\ (length (storedFiles st') + skipped (logged st')
      = length files + length (storedFiles st) + skipped (logged st))%nat.
Proof.
  revert st. induction files as [|fh files IH]; intros st; simpl.
  - split; reflexivity.
  - destruct (IH (store_file r dir st fh)) as [H1 H2]. simpl in H1, H2.
    destruct (store_file_turn r dir st fh) as (l & Hl & Hcase).
    rewrite H1, H2, Hl. unfold skipped. simpl.
    destruct Hcase as [[Hs [rel Hrel]]|[Hs [Hsf _]]]; rewrite Hs; simpl.
    + rewrite Hrel, List.length_app. simpl. split; lia.
    + rewrite Hsf. split; lia.
Qed.

Lemma store_loop_count (s : StorageServer) (o : OS) (r : Request) :
  length (logged (store_loop s o r)) = length (FormFiles r "files")
  /\ (length (storedFiles (store_loop s o r))
      + skipped (logged (store_loop s o r))
      = length (FormFiles r "files"))%nat.
Proof.
  unfold store_loop.
  match goal with
    |- context [fold_left (store_file r ?d) ?l ?a] =>
      destruct (store_fold_count r d l a) as [H1 H2]
  end.
  cbv zeta in H1, H2. cbn [store_start logged storedFiles length] in H1, H2.
  change (skipped []) with 0%nat in H2. split; lia.
Qed.

Lemma storeFiles_state (s : StorageServer) (o : OS) (r : Request) :
  processed s o r = true ->
  storedFiles (snd (storeFiles s o r)) = storedFiles (store_loop s o r)
  /\ logged (snd (storeFiles s o r)) = logged (store_loop s o r)
  /\ totalSize (snd (storeFiles s o r)) = totalSize (store_loop s o r).
Proof.
  intros P. rewrite (storeFiles_processed s o r P). cbv zeta.
  destruct (length _ =? 0)%nat; repeat split.
Qed.

End Counting.

(** ** Partial failure *)

(** The first variant of [UploadHandler] returns from inside its loop:
    a part whose file cannot be created ends the request, and the parts
    after it are not stored. *)
Example V1_upload_aborts :
  let o := {| cwd := ["srv"];
              disk := Dir [("srv", Dir [("mock-zfs-storage",
                                          Dir [(id0, Dir [("docs", Dir [])])])])];
              calls := [] |} in
  let r := {| parse_fails := false; Value := [];
              MultipartFile := [("files", [part "docs" "abc"; part "good.txt" "abc"])] |} in
  fst (V1.UploadHandler o id0 r) = Error 500 "Could not save file"
  /\ Fs.lookup (disk (snd (V1.UploadHandler o id0 r)))
               ["srv"; "mock-zfs-storage"; id0; "good.txt"] = None.
Proof. split; vm_compute; reflexivity. Qed.

(** C5, as stated, fails for a batch of one: its only part has an
    invalid destination, the other zero parts are stored, and the
    response is not a success with count zero but a failure. *)
Lemma single_failing_part_fails_the_request :
  length (FormFiles (upload [("path_f", "../x")] [part "f" "abc"]) "files") = 1%nat
  /\ skipped (logged (snd (storeFiles server0 os0
                             (upload [("path_f", "../x")] [part "f" "abc"])))) = 1%nat
  /\ fst (storeFiles server0 os0 (upload [("path_f", "../x")] [part "f" "abc"]))
     = Error 400 "No valid files were stored".
Proof. repeat split; vm_compute; reflexivity. Qed.

(** C5 (amended): for every upload batch of [N >= 2] file parts that
    [storeFiles] processes and in which exactly one part is skipped
    (its file cannot be opened, its name or destination is invalid, its
    directory or file cannot be created, or its copy fails partway and
    the partial file is removed), every part gets its turn, the other
    [N-1] parts are stored, and the response reports success with the
    count [N-1]. *)
Theorem one_failure_is_isolated (s : StorageServer) (o : OS) (r : Request) :
  let N := length (FormFiles r "files") in
  let result := storeFiles s o r in
  processed s o r = true ->
  (2 <= N)%nat ->
  skipped (logged (snd result)) = 1%nat ->
  length (logged (snd result)) = N
  /\ length (storedFiles (snd result)) = (N - 1)%nat
  /\ fst result
     = Success ("Successfully stored " ++ show (Z.of_nat (N - 1))
                ++ " files (" ++ show (totalSize (snd result)) ++ " bytes total)").
Proof.
  intros N result P HN Hskip. subst result.
  destruct (storeFiles_state s o r P) as (Hsf & Hlog & Hts).
  destruct (store_loop_count s o r) as [H1 H2].
  rewrite Hlog in Hskip. rewrite Hsf, Hlog, Hts. fold N in H1, H2.
  split; [exact H1|]. split; [lia|].
  rewrite (storeFiles_processed s o r P). cbv zeta.
  assert (E : length (storedFiles (store_loop s o r)) = (N - 1)%nat) by lia.
  rewrite E. destruct (Nat.eqb_spec (N - 1) 0); [lia|]. reflexivity.
Qed.

Lemma one_failure_is_isolated_witness :
  fst (storeFiles server0 os0
         (upload [("path_f", "../x"); ("path_g", "docs/g.txt")]
                 [part "f" "abc"; part "g" "hello"; part "h" "!"]))
  = Success "Successfully stored 2 files (6 bytes total)".
Proof.
  pose proof (one_failure_is_isolated server0 os0
                (upload [("path_f", "../x"); ("path_g", "docs/g.txt")]
                        [part "f" "abc"; part "g" "hello"; part "h" "!"])
                eq_refl) as H.
  cbv zeta in H. destruct H as (_ & _ & H).
  - vm_compute. lia.
  - reflexivity.
  - rewrite H. reflexivity.
Defined.

(** ** Rolling back *)

Section Rollback.

(** When the loop ends with nothing stored, the codebase directory is
    removed with all that is below it. *)
Lemma rollback (s : StorageServer) (o : OS) (r : Request) :
  processed s o r = true ->
  storedFiles (snd (storeFiles s o r)) = [] ->
  let id := FormValue r "codebase_id" in
  fst (storeFiles s o r) = Error 400 "No valid files were stored"
  /\ hd_error (calls (os (snd (storeFiles s o r))))
     = Some (CallRemoveAll (codebase_dir s id))
  /\ forall q, Fs.lookup (disk (os (snd (storeFiles s o r))))
                         (codebase_at s o id ++ q)%list = None.
Proof.
  intros P. assert (Hid : Uuid.Parse_ok (FormValue r "codebase_id") = true).
  { unfold processed in P.
    repeat (apply andb_true_iff in P; destruct P as [P ?]). assumption. }
  pose proof (store_loop_cwd s o r) as Hcwd.
  rewrite (storeFiles_processed s o r P). cbv zeta.
  destruct (length (storedFiles (store_loop s o r)) =? 0)%nat eqn:E; simpl.
  - intros _. split; [reflexivity|]. split; [reflexivity|].
    intros q. unfold Os.at_, codebase_at. rewrite Hcwd.
    apply remove_all_lookup.
    destruct (codebase_at_not_root s o _ Hid) as (front & name & Hn).
    unfold codebase_at in Hn. rewrite Hn. destruct front; discriminate.
  - intros H. rewrite H in E. discriminate.
Qed.

End Rollback.

(** The second variant of [UploadHandler] reports the failure of every
    part but leaves the directory it made. *)
Example V2_upload_leaves_directory :
  let r := {| parse_fails := false; Value := [];
              MultipartFile := [("files", [{| Filename := "f"; Data := abc;
                                              open_fails := true;
                                              copy_fails := None |}])] |} in
  fst (V2.UploadHandler os0 id0 r) = Error 500 "No files were successfully processed"
  /\ Fs.lookup (disk (snd (V2.UploadHandler os0 id0 r)))
               ["srv"; "mock-zfs-storage"; id0] = Some (Dir []).
Proof. split; vm_compute; reflexivity. Qed.

(** C6: for every upload in which zero files are stored, [storeFiles]
    reports failure; when the batch was processed (and every part
    failed) it removes the codebase directory, so that no codebase
    directory is left, and when the request was refused before its
    parts were looked at the disk is as it was: no codebase directory
    made by the request remains. *)
Theorem zero_stored_fails_and_rolls_back
  (s : StorageServer) (o : OS) (r : Request) :
  storedFiles (snd (storeFiles s o r)) = [] ->
  (exists code message, fst (storeFiles s o r) = Error code message)
  /\ (processed s o r = true ->
      fst (storeFiles s o r) = Error 400 "No valid files were stored"
      /\ hd_error (calls (os (snd (storeFiles s o r))))
         = Some (CallRemoveAll (codebase_dir s (FormValue r "codebase_id")))
      /\ Fs.lookup (disk (os (snd (storeFiles s o r))))
                   (codebase_at s o (FormValue r "codebase_id")) = None)
  /\ (processed s o r = false -> disk (os (snd (storeFiles s o r))) = disk o).
Proof.
  intros H0. destruct (processed s o r) eqn:P.
  - destruct (rollback s o r P H0) as (H1 & H2 & H3). split; [|split].
    + rewrite H1. eexists _, _. reflexivity.
    + intros _. split; [exact H1|]. split; [exact H2|].
      rewrite <- (app_nil_r (codebase_at _ _ _)). apply H3.
    + discriminate.
  - destruct (storeFiles_refused s o r P) as (code & msg & o' & E & Hd & _).
    rewrite E. simpl. split; [|split].
    + eexists _, _. reflexivity.
    + discriminate.
    + intros _. exact Hd.
Qed.

Lemma zero_stored_fails_and_rolls_back_witness :
  fst (storeFiles server0 os0
         (upload [("path_f", "../x")] [part "f" "abc"; part ".." "abc"]))
  = Error 400 "No valid files were stored"
  /\ Fs.lookup
       (disk (os (snd (storeFiles server0 os0
                         (upload [("path_f", "../x")] [part "f" "abc"; part ".." "abc"])))))
       ["srv"; "storage"; id0] = None.
Proof.
  destruct (zero_stored_fails_and_rolls_back server0 os0
              (upload [("path_f", "../x")] [part "f" "abc"; part ".." "abc"])
              eq_refl) as (_ & H & _).
  destruct (H eq_refl) as (H1 & _ & H3). split; [exact H1|exact H3].
Defined.

(** C7: when a processed upload batch stores zero files, [storeFiles]
    removes the whole codebase directory: whatever was below it before
    the request, such as the files of earlier successful uploads, is
    gone afterwards. *)
Theorem rollback_removes_earlier_uploads
  (s : StorageServer) (o : OS) (r : Request) (q : list string) (n : node) :
  processed s o r = true ->
  storedFiles (snd (storeFiles s o r)) = [] ->
  Fs.lookup (disk o) (codebase_at s o (FormValue r "codebase_id") ++ q)%list = Some n ->
  Fs.lookup (disk (os (snd (storeFiles s o r))))
            (codebase_at s o (FormValue r "codebase_id") ++ q)%list = None
  /\ hd_error (calls (os (snd (storeFiles s o r))))
     = Some (CallRemoveAll (codebase_dir s (FormValue r "codebase_id"))).
Proof.
  intros P H0 _. destruct (rollback s o r P H0) as (_ & H2 & H3).
  split; [apply H3|exact H2].
Qed.

Lemma rollback_removes_earlier_uploads_witness :
  let earlier := os (snd (storeFiles server0 os0
                            (upload [("path_f", "x.txt")] [part "f" "abc"]))) in
  let failing := upload [("path_g", "../evil")] [part "g" "zzz"] in
  Fs.lookup (disk earlier) ["srv"; "storage"; id0; "x.txt"] = Some (File abc)
  /\ Fs.lookup (disk (os (snd (storeFiles server0 earlier failing))))
               ["srv"; "storage"; id0; "x.txt"] = None.
Proof.
  intros earlier failing. split; [reflexivity|].
  apply (rollback_removes_earlier_uploads server0 earlier failing ["x.txt"] (File abc));
    reflexivity.
Defined.

(** ** The identifier *)

(** In [main.go] an identifier that is not valid is refused by all four
    handlers before any call of the file system. *)
Lemma main_handlers_refuse_invalid_id
  (s : StorageServer) (o : OS) (codebaseID filePath : string) (r : Request) :
  Uuid.Parse_ok codebaseID = false ->
  getFileContent s o codebaseID filePath = (Error 400 "Invalid codebase ID", o)
  /\ downloadFile s o codebaseID filePath = (Error 400 "Invalid codebase ID", o)
  /\ downloadZip s o codebaseID = (Error 400 "Invalid codebase ID", o)
  /\ (FormValue r "codebase_id" = codebaseID ->
      exists message, storeFiles s o r = (Error 400 message, store_start o)).
Proof.
  intros H. unfold getFileContent, downloadFile, locate, downloadZip, storeFiles.
  rewrite H. repeat split. intros ->. rewrite H.
  destruct (parse_fails r); [eexists; reflexivity|].
  destruct (String.eqb _ ""); eexists; reflexivity.
Qed.

(** C4 fails on the second variant of the server: [UploadHandler] does
    not check the identifier; with the identifier [not-a-uuid] it makes
    the directory and stores the file. *)
Theorem V2_upload_takes_any_identifier :
  Uuid.Parse_ok "not-a-uuid" = false
  /\ V2.UploadHandler os0 "not-a-uuid" (upload_v2 [part "notes.txt" "abc"])
     = (Success "Upload successful: 1 files processed",
        {| cwd := ["srv"];
           disk := Dir [("srv",
                         Dir [("mock-zfs-storage",
                               Dir [("not-a-uuid", Dir [("notes.txt", File abc)])]);
                              ("storage", Dir [])])];
           calls := [CallWrite "mock-zfs-storage/not-a-uuid/notes.txt" 3;
                     CallCreate "mock-zfs-storage/not-a-uuid/notes.txt";
                     CallMkdirAll "mock-zfs-storage/not-a-uuid";
                     CallMkdirAll "mock-zfs-storage/not-a-uuid"] |}).
Proof. split; vm_compute; reflexivity. Qed.

(** ** The archive *)

Lemma lookup_dir_stat (p : list string) (es : list (string * node)) (t : node) :
  Fs.lookup t p = Some (Dir es) -> Fs.stat t p = Fs.IsDir.
Proof.
  revert t. induction p as [|c p IH]; intros t; simpl.
  - intros H. injection H as ->. reflexivity.
  - destruct t as [|es']; [discriminate|].
    destruct (Fs.get c es') as [n|]; [|discriminate]. apply IH.
Qed.

(** C10, as stated, fails for [createZipArchive]: next to the two files
    the archive has an entry for the directory [sub/]. *)
Lemma archive_has_directory_entry :
  fst (downloadZip server0 (os_with (codebase0 [("sub", Dir [("y.bin", File abc)]);
                                                ("x.txt", File abc)])) id0)
  = Archive "codebase-123e4567-e89b-12d3-a456-426614174000.zip"
            [("sub/", []); ("sub/y.bin", abc); ("x.txt", abc)].
Proof. vm_compute. reflexivity. Qed.

(** C10 (amended): for a codebase with exactly the stored files [x.txt]
    and [sub/y.bin], the archive of [downloadZip] has exactly three
    entries, named with forward slashes: the directory [sub/], empty,
    and the files [sub/y.bin] and [x.txt], each with the stored bytes;
    the archive of [DownloadZipHandler] has exactly the two file
    entries. *)
Theorem archive_of_two_files
  (s : StorageServer) (o : OS) (codebaseID : string) (x y : list byte) :
  (Uuid.Parse_ok codebaseID = true ->
   Fs.lookup (disk o) (codebase_at s o codebaseID) = Some (two_files x y) ->
   fst (downloadZip s o codebaseID)
   = Archive ("codebase-" ++ codebaseID ++ ".zip")
             [("sub/", []); ("sub/y.bin", y); ("x.txt", x)])
  /\ (Fs.lookup (disk o) (Os.at_ o (Filepath.Join StorageRoot codebaseID))
      = Some (two_files x y) ->
      fst (V2.DownloadZipHandler o codebaseID)
      = Archive (codebaseID ++ ".zip") [("sub/y.bin", y); ("x.txt", x)]).
Proof.
  split.
  - intros Hid H. unfold downloadZip. rewrite Hid. simpl negb. cbv iota.
    fold (codebase_dir s codebaseID).
    unfold Os.Stat, createZipArchive, Os.Walk. unfold codebase_at in H. simpl.
    unfold Os.at_, Os.record in *. cbn [cwd disk].
    rewrite (lookup_dir_stat _ _ _ H), H. reflexivity.
  - intros H. unfold V2.DownloadZipHandler, Os.Stat, Os.Walk. simpl.
    unfold Os.at_, Os.record in *. cbn [cwd disk].
    rewrite (lookup_dir_stat _ _ _ H), H. reflexivity.
Qed.

Lemma archive_of_two_files_witness :
  let stored := os (snd (storeFiles server0 os0
                           (upload [("path_f", "x.txt"); ("path_g", "sub/y.bin")]
                                   [part "f" "abc"; part "g" "hello"]))) in
  let stored2 := snd (V2.UploadHandler os0 id0
                        (upload_v2 [part "x.txt" "abc"; part "sub/y.bin" "hello"])) in
  Fs.lookup (disk stored) (codebase_at server0 stored id0)
  = Some (two_files abc (list_byte_of_string "hello"))
  /\ fst (downloadZip server0 stored id0)
     = Archive "codebase-123e4567-e89b-12d3-a456-426614174000.zip"
               [("sub/", []); ("sub/y.bin", list_byte_of_string "hello"); ("x.txt", abc)]
  /\ fst (V2.DownloadZipHandler stored2 id0)
     = Archive "123e4567-e89b-12d3-a456-426614174000.zip"
               [("sub/y.bin", list_byte_of_string "hello"); ("x.txt", abc)].
Proof.
  intros stored stored2.
  destruct (archive_of_two_files server0 stored id0 abc (list_byte_of_string "hello"))
    as [H _].
  destruct (archive_of_two_files server0 stored2 id0 abc (list_byte_of_string "hello"))
    as [_ H2].
  split; [reflexivity|]. split; [apply H; reflexivity|apply H2; reflexivity].
Defined.

(** ** The classifier *)

Section Classifier.

Let count := fun (k : Counters) (b : byte) => count_byte b k.

Lemma scan_firstn (content : list byte) (i : Z) (k : Counters) :
  0 <= i <= 8193 ->
  scan i content k = fold_left count (firstn (Z.to_nat (8193 - i)) content) k.
Proof.
  revert i k. induction content as [|b rest IH]; intros i k Hi.
  - rewrite firstn_nil. reflexivity.
  - simpl scan. destruct (Z.gtb_spec i 8192) as [Hgt|Hle].
    + replace (8193 - i) with 0 by lia. reflexivity.
    + replace (Z.to_nat (8193 - i)) with (S (Z.to_nat (8193 - (i + 1)))) by lia.
      simpl. apply IH. lia.
Qed.

Lemma firstn_succ {A : Type} (l : list A) (n : nat) :
  firstn (S n) l
  = (firstn n l ++ match nth_error l n with Some x => [x] | None => [] end)%list.
Proof.
  revert n. induction l as [|x l IH]; intros n.
  - destruct n; reflexivity.
  - destruct n as [|n]; [reflexivity|].
    change (firstn (S (S n)) (x :: l)) with (x :: firstn (S n) l).
    rewrite IH. reflexivity.
Qed.

Lemma count_byte_plain (b : byte) (k : Counters) :
  counted b = false -> count_byte b k = k.
Proof.
  unfold counted, count_byte. intros H.
  apply orb_false_iff in H. destruct H as [H0 Hc].
  rewrite H0, Hc. destruct k. reflexivity.
Qed.

(** The loop counts over the first 8192 bytes and the byte after
    them. *)
Lemma scan_window (content : list byte) (k : Counters) :
  boundary_plain content = true ->
  scan 0 content k = fold_left count (window content) k.
Proof.
  intros H. rewrite scan_firstn by lia. unfold window.
  replace (Z.to_nat (8193 - 0)) with (S (Z.to_nat 8192)) by lia.
  rewrite firstn_succ, fold_left_app. unfold boundary_plain in H.
  destruct (nth_error content (Z.to_nat 8192)) as [b|]; [|reflexivity].
  simpl. unfold count at 1. apply count_byte_plain.
  apply negb_true_iff, H.
Qed.

End Classifier.

(** C8, as stated, fails: on 100 null bytes followed by 9900 letters
    the rules of the specification say binary (100 null bytes in a
    window of 8192 are more than 1%) and [isTextFile], which divides by
    the length of the whole buffer, says text. *)
Lemma classifier_differs_from_spec :
  isTextFile nulls_then_text = true /\ classifier_spec nulls_then_text = false.
Proof. split; vm_compute; reflexivity. Qed.

(** C8 (amended): [isTextFile] equals the classifier defined by the
    rules in order: empty buffer, text; a buffer that is not valid
    UTF-8, binary; otherwise, with the null bytes and the control bytes
    (tab, newline and carriage return excluded) counted over the first
    8192 bytes, if the buffer has more than 100 bytes then more null
    bytes than 1% of the length of the whole buffer, binary, and more
    control bytes than 5% of the length of the whole buffer, binary;
    otherwise text.  (For buffers whose byte at index 8192 is not a
    counted byte.) *)
Theorem isTextFile_is_classifier_total (content : list byte) :
  boundary_plain content = true ->
  isTextFile content = classifier_total content.
Proof.
  intros H. unfold isTextFile, classifier_total, count_window.
  destruct content as [|b rest]; [reflexivity|].
  replace (Z.of_nat (length (b :: rest)) =? 0) with false
    by (symmetry; apply Z.eqb_neq; simpl length; lia).
  rewrite (scan_window _ _ H). reflexivity.
Qed.

Lemma isTextFile_is_classifier_total_witness :
  boundary_plain nulls_then_text = true
  /\ isTextFile nulls_then_text = classifier_total nulls_then_text.
Proof.
  split; [vm_compute; reflexivity|].
  apply isTextFile_is_classifier_total. vm_compute. reflexivity.
Defined.

Section OneNullPerTen.

Let count := fun (k : Counters) (b : byte) => count_byte b k.

Lemma ascii_valid (l : list byte) :
  forallb (fun b => Utf8.byte_val b <? 128) l = true -> Utf8.Valid l = true.
Proof.
  induction l as [|b l IH]; intros H; [reflexivity|].
  simpl in H. apply andb_true_iff in H. destruct H as [Hb H].
  simpl. change 0x80 with 128. rewrite Hb. apply IH, H.
Qed.

Lemma null_or_text_ascii (b : byte) :
  null_or_text b = true -> (Utf8.byte_val b <? 128) = true.
Proof.
  unfold null_or_text, is_null, ordinary. intros H. apply Z.ltb_lt.
  repeat match goal with
         | H : _ || _ = true |- _ => apply orb_true_iff in H; destruct H as [H|H]
         | H : _ && _ = true |- _ => apply andb_true_iff in H; destruct H as [H ?]
         | H : (_ =? _) = true |- _ => apply Z.eqb_eq in H
         | H : (_ <=? _) = true |- _ => apply Z.leb_le in H
         | H : (_ <? _) = true |- _ => apply Z.ltb_lt in H
         end; lia.
Qed.

Lemma forallb_weaken {A : Type} (f g : A -> bool) (l : list A) :
  (forall x, f x = true -> g x = true) ->
  forallb f l = true -> forallb g l = true.
Proof.
  intros Hfg. induction l as [|x l IH]; simpl; intros H; [reflexivity|].
  apply andb_true_iff in H. destruct H as [Hx H].
  rewrite (Hfg x Hx), (IH H). reflexivity.
Qed.

Lemma forallb_concat {A : Type} (f : A -> bool) (ls : list (list A)) :
  forallb (forallb f) ls = true -> forallb f (concat ls) = true.
Proof.
  induction ls as [|l ls IH]; simpl; intros H; [reflexivity|].
  apply andb_true_iff in H. destruct H as [Hl H].
  rewrite forallb_app, Hl, (IH H). reflexivity.
Qed.

Lemma nulls_app (a b : list byte) : nulls (a ++ b) = nulls a + nulls b.
Proof. unfold nulls. rewrite filter_app, List.length_app. lia. Qed.

Lemma nulls_nonneg (l : list byte) : 0 <= nulls l.
Proof. unfold nulls. lia. Qed.

Lemma nulls_cons (b : byte) (l : list byte) :
  nulls (b :: l) = (if is_null b then 1 else 0) + nulls l.
Proof.
  unfold nulls. cbn [filter]. destruct (is_null b); cbn [length]; lia.
Qed.

(** The counter of null bytes after the loop over [l]. *)
Lemma fold_count_nulls (l : list byte) (k : Counters) :
  nullBytes (fold_left count l k) = nullBytes k + nulls l.
Proof.
  revert k. induction l as [|b l IH]; intros k.
  - unfold nulls. cbn [filter length fold_left]. lia.
  - cbn [fold_left]. rewrite IH, nulls_cons.
    unfold count, count_byte, is_null. cbn [nullBytes].
    destruct (Utf8.byte_val b =? 0); lia.
Qed.

Lemma blocks_parts (blocks : list (list byte)) :
  forallb block_ok blocks = true ->
  Z.of_nat (length (concat blocks)) = 10 * Z.of_nat (length blocks)
  /\ nulls (concat blocks) = Z.of_nat (length blocks)
  /\ forallb null_or_text (concat blocks) = true.
Proof.
  induction blocks as [|b blocks IH]; intros H.
  - repeat split.
  - simpl in H. apply andb_true_iff in H. destruct H as [Hb H].
    destruct (IH H) as (L & N & T). unfold block_ok in Hb.
    apply andb_true_iff in Hb. destruct Hb as [Hb Hbt].
    apply andb_true_iff in Hb. destruct Hb as [Hbl Hbn].
    apply Nat.eqb_eq in Hbl. apply Z.eqb_eq in Hbn.
    simpl concat. rewrite List.length_app, nulls_app, forallb_app, Hbt, T, Hbn, N.
    simpl length. repeat split; lia.
Qed.

Lemma forallb_firstn {A : Type} (f : A -> bool) (n : nat) (l : list A) :
  forallb f l = true -> forallb f (firstn n l) = true.
Proof.
  revert n. induction l as [|x l IH]; intros [|n] H; try reflexivity.
  simpl in *. apply andb_true_iff in H. destruct H as [Hx H].
  rewrite Hx, (IH n H). reflexivity.
Qed.

(** The null bytes seen by the loop: one for each of the first 819
    blocks at least. *)
Lemma window_nulls (blocks : list (list byte)) (rest : list byte) (n : nat) :
  forallb block_ok blocks = true ->
  let m := Nat.min (length blocks) (Z.to_nat 819) in
  (10 * Z.of_nat m <= Z.of_nat n) ->
  Z.of_nat m <= nulls (firstn n (concat blocks ++ rest)).
Proof.
  intros Hok m Hn.
  rewrite <- (firstn_skipn m blocks) at 1.
  rewrite concat_app, <- app_assoc.
  destruct (blocks_parts (firstn m blocks) (forallb_firstn _ _ _ Hok)) as (L & N & _).
  assert (Hm : length (firstn m blocks) = m).
  { apply firstn_length_le. unfold m. lia. }
  rewrite Hm in L, N.
  rewrite firstn_app, nulls_app.
  rewrite (firstn_all2 (concat (firstn m blocks))) by lia.
  rewrite N. pose proof (nulls_nonneg (firstn (n - length (concat (firstn m blocks)))
                                        (concat (skipn m blocks) ++ rest))).
  lia.
Qed.

End OneNullPerTen.

(** C9, as stated, fails: a buffer of one block (ten bytes, one of them
    null) is classified as text, since the ratios are only looked at for
    more than 100 bytes; and so is a buffer of 10000 such blocks, since
    only the null bytes among the first bytes are counted and compared
    with the length of the whole buffer. *)
Lemma null_per_ten_classified_text :
  block_ok null_block = true
  /\ isTextFile null_block = true
  /\ isTextFile (concat (repeat null_block (Z.to_nat 10000))) = true.
Proof. repeat split; vm_compute; reflexivity. Qed.

(** C9 (amended): every buffer of more than 100 and fewer than 81900
    bytes that is made of blocks of ten bytes, each with one null byte
    and nine bytes of ordinary text (and may end with fewer than ten
    more bytes of text or null bytes), is classified as binary by
    [isTextFile]. *)
Theorem null_per_ten_is_binary (blocks : list (list byte)) (rest : list byte) :
  forallb block_ok blocks = true ->
  rest_ok rest = true ->
  100 < Z.of_nat (length (concat blocks ++ rest)) < 81900 ->
  isTextFile (concat blocks ++ rest) = false.
Proof.
  intros Hb Hr Hlen.
  destruct (blocks_parts blocks Hb) as (L & N & T).
  unfold rest_ok in Hr. apply andb_true_iff in Hr. destruct Hr as [Hrl Hrt].
  apply Nat.ltb_lt in Hrl.
  unfold isTextFile.
  replace (Z.of_nat (length (concat blocks ++ rest)) =? 0) with false
    by (symmetry; apply Z.eqb_neq; lia).
  rewrite ascii_valid.
  2:{ apply (forallb_weaken null_or_text); [apply null_or_text_ascii|].
      rewrite forallb_app, T, Hrt. reflexivity. }
  simpl negb. cbv iota.
  replace (Z.of_nat (length (concat blocks ++ rest)) >? 100) with true
    by (symmetry; apply Z.gtb_lt; lia).
  rewrite scan_firstn by lia. rewrite fold_count_nulls. simpl nullBytes.
  pose proof (window_nulls blocks rest (Z.to_nat (8193 - 0)) Hb) as W.
  cbv zeta in W.
  assert (Hw : 10 * Z.of_nat (Nat.min (length blocks) (Z.to_nat 819))
               <= Z.of_nat (Z.to_nat (8193 - 0))) by lia.
  specialize (W Hw).
  rewrite List.length_app in *.
  unfold ratio_above.
  replace (1 * Z.of_nat (length (concat blocks) + length rest)
           <? (0 + nulls (firstn (Z.to_nat (8193 - 0)) (concat blocks ++ rest))) * 100)
    with true; [reflexivity|].
  symmetry. apply Z.ltb_lt. lia.
Qed.

Lemma null_per_ten_is_binary_witness :
  isTextFile (concat (repeat null_block 11) ++ [x61; x62; x63]) = false.
Proof.
  apply (null_per_ten_is_binary (repeat null_block 11) [x61; x62; x63]).
  - reflexivity.
  - reflexivity.
  - vm_compute. split; reflexivity.
Defined.

(** ** The exact comparison against binary64 arithmetic *)

(** For every count the loop can reach (1 to 8193) and the lengths just
    below, at and just above the two thresholds, the comparison of the
    64-bit floats gives what [ratio_above] gives. *)
Lemma ratio_above_agrees_with_binary64 :
  Float64.agree_upto (Z.to_nat 8193) = true.
Proof. vm_compute. reflexivity. Qed.

(** ** The directory of a full path *)

Section DirOfPath.

Import Filepath.

Let slashed := fold_right (fun e text => e ++ String "/" text) "".

Lemma elements_slashed (es : list string) :
  forallb no_separator es = true -> elements (slashed es) = (es ++ [""])%list.
Proof.
  induction es as [|e es IH]; simpl; intros H; [reflexivity|].
  apply andb_true_iff in H. destruct H as [He H].
  rewrite (elements_name_app_sep _ _ He), (IH H). reflexivity.
Qed.

Lemma rooted_slashed (es : list string) :
  forallb no_separator es = true ->
  rooted (slashed es) = match es with
                        | [] => false
                        | e :: _ => String.eqb e ""
                        end.
Proof.
  destruct es as [|e es]; [reflexivity|]. simpl. intros H.
  apply andb_true_iff in H. destruct H as [He _].
  destruct e as [|c e]; [reflexivity|].
  simpl in *. apply andb_true_iff in He. destruct He as [Hc _].
  apply negb_true_iff in Hc. exact Hc.
Qed.

Lemma rooted_elements (X e : string) (es : list string) :
  elements X = e :: es ->
  rooted X = match es with
             | [] => false
             | _ :: _ => String.eqb e ""
             end.
Proof.
  destruct X as [|c X]; simpl.
  - intros H. injection H as <- <-. reflexivity.
  - destruct (IsPathSeparator c) eqn:Hc.
    + intros H. injection H as <- <-.
      destruct (elements X) eqn:E; [exfalso; exact (elements_not_nil X E)|reflexivity].
    + destruct (elements X) as [|e' es'] eqn:E;
        [exfalso; exact (elements_not_nil X E)|].
      intros H. injection H as <- <-. destruct es'; reflexivity.
Qed.

(** [Dir] of a path that ends with a name denotes the directory above
    what the path denotes. *)
Lemma resolve_Dir (wd : list string) (X name : string) (front : list string) :
  elements X = (front ++ [name])%list -> is_name name = true ->
  (Os.resolve wd (Dir X) ++ [name])%list = Os.resolve wd X.
Proof.
  intros E Hn. unfold Dir. rewrite resolve_Clean. unfold Os.resolve, dir_part.
  pose proof (elements_no_sep X) as Hs. rewrite E in *.
  rewrite forallb_app in Hs. apply andb_true_iff in Hs. destruct Hs as [Hf _].
  rewrite removelast_last. fold (slashed front).
  rewrite (elements_slashed _ Hf), (rooted_slashed _ Hf), !fold_left_app.
  assert (R : rooted X = match front with [] => false | e :: _ => String.eqb e "" end).
  { destruct front as [|f fs].
    - apply (rooted_elements X name []). exact E.
    - rewrite (rooted_elements X f (fs ++ [name])%list E).
      destruct fs; reflexivity. }
  rewrite R. simpl fold_left at 1 3.
  rewrite (is_name_step _ _ _ Hn). reflexivity.
Qed.

Lemma elements_render_names (r : bool) (L : list string) (name : string) :
  forallb solid (L ++ [name]) = true ->
  exists front, elements (render r (L ++ [name])) = (front ++ [name])%list.
Proof.
  intros H. pose proof (solid_no_sep _ H) as Hs.
  destruct (L ++ [name])%list as [|e es] eqn:E; [destruct L; discriminate|].
  destruct r.
  - exists ("" :: L). unfold render.
    change ("/" ++ Strings.Join (e :: es) "/") with (String "/" (Strings.Join (e :: es) "/")).
    rewrite elements_String. change (IsPathSeparator "/") with true. cbv iota.
    rewrite (elements_concat _ _ Hs), <- E. reflexivity.
  - exists L. unfold render. rewrite (elements_concat _ _ Hs), <- E. reflexivity.
Qed.

(** The directory of the full path of an accepted path that ends with a
    name. *)
Lemma full_path_dir (s : StorageServer) (o : OS) (id p name : string)
      (front : list string) :
  Uuid.Parse_ok id = true -> leads_out p = false ->
  cleaned p = (front ++ [name])%list ->
  Os.at_ o (Dir (Join (codebase_dir s id) (Clean p)))
  = (codebase_at s o id ++ front)%list.
Proof.
  intros Hid Hp E.
  pose proof (stays_in_names p Hp) as Hnames. rewrite E in Hnames.
  rewrite forallb_app in Hnames. apply andb_true_iff in Hnames.
  destruct Hnames as [_ Hn]. simpl in Hn. rewrite andb_true_r in Hn.
  pose proof (full_path_at s o id p Hid Hp) as Hat. rewrite E, app_assoc in Hat.
  assert (Hel : exists fr, elements (Join (codebase_dir s id) (Clean p))
                           = (fr ++ [name])%list).
  { unfold codebase_dir. rewrite (Join_joined _ _ (Parse_ok_not_empty id Hid)).
    rewrite (Join_Clean_text _ _ Hp), E, app_assoc.
    apply elements_render_names. rewrite <- app_assoc, <- E, forallb_app.
    rewrite !cleaned_solid. reflexivity. }
  destruct Hel as [fr Hel].
  pose proof (resolve_Dir (cwd o) _ _ _ Hel Hn) as HD.
  unfold Os.at_ in *. rewrite Hat in HD.
  apply app_inj_tail in HD. apply HD.
Qed.

End DirOfPath.

(** ** Storing into a new codebase *)

Section Fresh.

Lemma mkdir_all_from_empty (q : list string) :
  exists t', Fs.mkdir_all (Dir []) q = Some t' /\ Fs.lookup t' q = Some (Dir []).
Proof.
  induction q as [|c q IH]; simpl.
  - eexists. split; reflexivity.
  - destruct IH as (n' & M & L). rewrite M.
    eexists. split; [reflexivity|]. simpl. rewrite String.eqb_refl. exact L.
Qed.

Lemma mkdir_all_below_empty (cb q : list string) (t : node) :
  Fs.lookup t cb = Some (Dir []) ->
  exists t', Fs.mkdir_all t (cb ++ q) = Some t'
             /\ Fs.lookup t' (cb ++ q) = Some (Dir []).
Proof.
  revert t. induction cb as [|c cb IH]; intros t; simpl.
  - intros H. injection H as ->. apply mkdir_all_from_empty.
  - destruct t as [|es]; [discriminate|].
    destruct (Fs.get c es) as [n|] eqn:G; [|discriminate].
    intros H. destruct (IH n H) as (n' & M & L). rewrite M.
    eexists. split; [reflexivity|]. simpl. rewrite get_set_same. exact L.
Qed.

Lemma mkdir_all_new (p : list string) (t t' : node) :
  Fs.mkdir_all t p = Some t' -> Fs.lookup t p = None ->
  Fs.lookup t' p = Some (Dir []).
Proof.
  revert t t'. induction p as [|c p IH]; intros t t'.
  - simpl. discriminate.
  - destruct t as [|es]; [discriminate|]. simpl.
    destruct (Fs.get c es) as [n|] eqn:G.
    + destruct (Fs.mkdir_all n p) as [n'|] eqn:M; [|discriminate].
      intros H Hl. injection H as <-. simpl. rewrite get_set_same.
      apply (IH _ _ M Hl).
    + destruct (mkdir_all_from_empty p) as (n' & M & L). rewrite M.
      intros H _. injection H as <-. simpl. rewrite get_set_same. exact L.
Qed.

Lemma put_file_new (parent : list string) (name : string) (d : list byte) (t : node) :
  Fs.lookup t parent = Some (Dir []) ->
  exists t', Fs.put_file t (parent ++ [name]) d = Some t'.
Proof.
  revert t. induction parent as [|c parent IH]; intros t; simpl.
  - intros H. injection H as ->. eexists. reflexivity.
  - destruct t as [|es]; [discriminate|].
    destruct (Fs.get c es) as [n|]; [|discriminate].
    intros H. destruct (IH n H) as [n' ->]. eexists. reflexivity.
Qed.

(** A part uploaded alone into a codebase that does not exist yet, with
    an accepted name and an accepted path that ends with a name, is
    stored when neither opening nor copying fails. *)
Lemma fresh_upload_stored (s : StorageServer) (o : OS) (r : Request)
      (fh : FileHeader) (p : string) :
  FormFiles r "files" = [fh] ->
  processed s o r = true ->
  Fs.lookup (disk o) (codebase_at s o (FormValue r "codebase_id")) = None ->
  open_fails fh = false -> copy_fails fh = None -> name_accepted fh = true ->
  requested_path r fh = p ->
  Strings.HasPrefix (Filepath.Clean p) ".." = false ->
  cleaned p <> [] ->
  last_part_stored (snd (storeFiles s o r)) = true.
Proof.
  intros Hfiles P Hnew Hopen Hcopy Hname Hreq Hpre Hne.
  assert (Hid : Uuid.Parse_ok (FormValue r "codebase_id") = true).
  { unfold processed in P.
    repeat (apply andb_true_iff in P; destruct P as [P ?]). assumption. }
  pose proof (prefix_check_stays_in p Hpre) as Hl.
  destruct (exists_last Hne) as (front & name & E).
  destruct (storeFiles_state s o r P) as (_ & Hlog & _).
  unfold last_part_stored. rewrite Hlog. unfold store_loop. rewrite Hfiles.
  set (id := FormValue r "codebase_id") in *.
  assert (M1 : exists d1, Os.MkdirAll o (codebase_dir s id)
                          = (true, Os.record o (CallMkdirAll (codebase_dir s id)) d1)
                          /\ Fs.lookup d1 (codebase_at s o id) = Some (Dir [])).
  { unfold processed in P. apply andb_true_iff in P. destruct P as [_ P].
    fold id in P. unfold Os.MkdirAll in *. unfold codebase_at in Hnew.
    destruct (Fs.mkdir_all _ _) as [d1|] eqn:M; [|discriminate].
    exists d1. split; [reflexivity|]. apply (mkdir_all_new _ _ _ M Hnew). }
  destruct M1 as (d1 & -> & L1). simpl snd. simpl fold_left.
  unfold store_file. rewrite Hopen.
  unfold name_accepted in Hname. apply negb_true_iff in Hname. rewrite Hname.
  fold (requested_path r fh). rewrite Hreq, Hpre.
  unfold Os.MkdirAll. simpl os.
  replace (Os.at_ (Os.record o (CallMkdirAll (codebase_dir s id)) d1)
                  (Filepath.Dir (Filepath.Join (codebase_dir s id) (Filepath.Clean p))))
    with (codebase_at s o id ++ front)%list
    by (symmetry; apply (full_path_dir s o id p name front Hid Hl E)).
  simpl disk.
  destruct (mkdir_all_below_empty _ front _ L1) as (d2 & -> & L2).
  simpl negb. cbv iota. unfold Os.Create.
  replace (Os.at_ (Os.record (Os.record o (CallMkdirAll (codebase_dir s id)) d1)
                             (CallMkdirAll (Filepath.Dir (Filepath.Join (codebase_dir s id)
                                                                       (Filepath.Clean p)))) d2)
                  (Filepath.Join (codebase_dir s id) (Filepath.Clean p)))
    with ((codebase_at s o id ++ front) ++ [name])%list
    by (rewrite <- app_assoc, <- E; symmetry; apply (full_path_at s o id p Hid Hl)).
  simpl disk.
  destruct (put_file_new _ name [] _ L2) as (d3 & ->).
  simpl negb. cbv iota. unfold io_Copy. rewrite Hcopy. reflexivity.
Qed.

End Fresh.

(** ** Round trip *)

(** C2, as stated, fails: the relative path [notes..txt] is accepted by
    the upload, which stores the file, and refused by the download,
    whose check looks for two dots anywhere in the cleaned path. *)
Lemma double_dot_name_not_downloadable :
  fst (storeFiles server0 os0 (upload [("path_f", "notes..txt")] [part "f" "abc"]))
  = Success "Successfully stored 1 files (3 bytes total)"
  /\ Fs.lookup
       (disk (os (snd (storeFiles server0 os0
                         (upload [("path_f", "notes..txt")] [part "f" "abc"])))))
       ["srv"; "storage"; id0; "notes..txt"]
     = Some (File abc)
  /\ fst (downloadFile server0
            (os (snd (storeFiles server0 os0
                        (upload [("path_f", "notes..txt")] [part "f" "abc"]))))
            id0 "notes..txt")
     = Error 400 "Invalid file path".
Proof. repeat split; vm_compute; reflexivity. Qed.

(** A part that was stored as the last of its batch is what the download
    of its path returns. *)
Lemma stored_part_downloads
  (s : StorageServer) (o : OS) (r : Request)
  (front : list FileHeader) (fileHeader : FileHeader) (p : string) :
  FormFiles r "files" = (front ++ [fileHeader])%list ->
  requested_path r fileHeader = p -> p <> "" ->
  Strings.Contains (Filepath.Clean p) ".." = false ->
  last_part_stored (snd (storeFiles s o r)) = true ->
  fst (downloadFile s (os (snd (storeFiles s o r))) (FormValue r "codebase_id") p)
  = Attachment (Filepath.Base (Filepath.Clean p))
               (Z.of_nat (length (Data fileHeader))) (Data fileHeader).
Proof.
  intros Hfiles Hreq Hp Hdots Hstored.
  destruct (processed s o r) eqn:P.
  2:{ destruct (storeFiles_refused s o r P) as (code & msg & o' & E & _).
      rewrite E in Hstored. discriminate. }
  assert (Hid : Uuid.Parse_ok (FormValue r "codebase_id") = true).
  { unfold processed in P.
    repeat (apply andb_true_iff in P; destruct P as [P ?]). assumption. }
  rewrite (storeFiles_processed s o r P) in *. cbv zeta in *.
  pose proof (store_loop_cwd s o r) as Hcwd.
  unfold store_loop in *. rewrite Hfiles, fold_left_app in *. simpl fold_left in *.
  set (dir := codebase_dir s (FormValue r "codebase_id")) in *.
  set (stA := fold_left (store_file r dir) front _) in *.
  assert (Hlog : exists rel w,
             hd_error (logged (store_file r dir stA fileHeader)) = Some (StoredFile rel w)).
  { unfold last_part_stored in Hstored.
    destruct (length (storedFiles _) =? 0)%nat; simpl in Hstored;
      destruct (logged (store_file r dir stA fileHeader)) as [|[] ?];
      try discriminate; eexists _, _; reflexivity. }
  destruct Hlog as (rel & w & Hlog).
  destruct (store_file_stored _ _ _ _ _ _ Hlog) as (Hrel & Hw & Hsf & Hc & Hl).
  rewrite Hsf, List.length_app, Nat.add_comm. simpl Nat.eqb. cbv iota. simpl snd.
  unfold downloadFile.
  rewrite (locate_accepts s _ p Hid Hp Hdots). fold dir.
  unfold Os.Stat, Os.ReadAll. simpl.
  rewrite Hreq in Hrel. subst rel.
  unfold Os.at_, Os.record in *. cbn [cwd]. rewrite Hc.
  rewrite (lookup_file_stat _ _ _ Hl), Hl. reflexivity.
Qed.

(** C2 (amended): for every upload whose last file part is asked to be
    stored at the relative path [p] (its [path_] value or, without one,
    its base name), when the cleaned [p] has no two dots in a row
    anywhere and [storeFiles] stored that part, [downloadFile] for the
    same identifier and [p] streams exactly the bytes of the part, with
    their number as content length; and a part uploaded alone into a
    codebase that does not exist yet is stored, whenever its name is
    accepted, its path does not clean to the codebase directory itself,
    and neither opening nor copying fails. *)
Theorem upload_download_round_trip
  (s : StorageServer) (o : OS) (r : Request)
  (front : list FileHeader) (fileHeader : FileHeader) (p : string) :
  FormFiles r "files" = (front ++ [fileHeader])%list ->
  requested_path r fileHeader = p -> p <> "" ->
  Strings.Contains (Filepath.Clean p) ".." = false ->
  (last_part_stored (snd (storeFiles s o r)) = true ->
   fst (downloadFile s (os (snd (storeFiles s o r))) (FormValue r "codebase_id") p)
   = Attachment (Filepath.Base (Filepath.Clean p))
                (Z.of_nat (length (Data fileHeader))) (Data fileHeader))
  /\ (front = [] -> processed s o r = true ->
      Fs.lookup (disk o) (codebase_at s o (FormValue r "codebase_id")) = None ->
      open_fails fileHeader = false -> copy_fails fileHeader = None ->
      name_accepted fileHeader = true -> cleaned p <> [] ->
      last_part_stored (snd (storeFiles s o r)) = true).
Proof.
  intros Hfiles Hreq Hp Hdots. split.
  - apply (stored_part_downloads s o r front fileHeader p); assumption.
  - intros -> P Hnew Hopen Hcopy Hname Hne.
    apply (fresh_upload_stored s o r fileHeader p); try assumption.
    destruct (Strings.HasPrefix (Filepath.Clean p) "..") eqn:E; [|reflexivity].
    rewrite (HasPrefix_Contains _ _ E) in Hdots. discriminate.
Qed.

Lemma upload_download_round_trip_witness :
  fst (downloadFile server0
         (os (snd (storeFiles server0 os0
                     (upload [("path_f", "a/b/c.txt")] [part "f" "abc"]))))
         id0 "a/b/c.txt")
  = Attachment "c.txt" 3 abc.
Proof.
  assert (Hne : "a/b/c.txt" <> "") by discriminate.
  destruct (upload_download_round_trip server0 os0
              (upload [("path_f", "a/b/c.txt")] [part "f" "abc"])
              [] (part "f" "abc") "a/b/c.txt" eq_refl eq_refl Hne eq_refl)
    as [Hdown Hstored].
  apply Hdown. apply Hstored; try reflexivity. discriminate.
Defined.

(** * Further properties *)

(** ** What the operations of the file system leave alone *)

Section Frame.

Lemma compare_eq (a b : string) : String.compare a b = Eq -> a = b.
Proof. apply String.compare_eq_iff. Qed.

Lemma get_set_other (c c' : string) (n : node) (es : list (string * node)) :
  c' <> c -> Fs.get c' (Fs.set c n es) = Fs.get c' es.
Proof.
  intros H. induction es as [|[k m] es IH]; simpl.
  - apply String.eqb_neq in H. rewrite H. reflexivity.
  - destruct (String.compare c k) eqn:E; simpl.
    + apply compare_eq in E. subst k.
      apply String.eqb_neq in H. rewrite H. reflexivity.
    + apply String.eqb_neq in H. rewrite H. reflexivity.
    + rewrite IH. reflexivity.
Qed.

Lemma get_del_other (c c' : string) (es : list (string * node)) :
  c' <> c -> Fs.get c' (Fs.del c es) = Fs.get c' es.
Proof.
  intros H. induction es as [|[k m] es IH]; simpl; [reflexivity|].
  destruct (String.eqb_spec c k) as [->|Hk].
  - apply String.eqb_neq in H. rewrite H. exact IH.
  - simpl. rewrite IH. reflexivity.
Qed.

(** [MkdirAll] changes no regular file. *)
Lemma mkdir_all_frame (p q : list string) (x : list byte) (t t' : node) :
  Fs.mkdir_all t p = Some t' ->
  Fs.lookup t q = Some (File x) -> Fs.lookup t' q = Some (File x).
Proof.
  revert q t t'. induction p as [|c p IH]; intros q t t'.
  - destruct t; simpl; [discriminate|]. intros H. injection H as <-. auto.
  - destruct t as [|es]; simpl; [discriminate|].
    destruct (Fs.mkdir_all _ p) as [n'|] eqn:M; [|discriminate].
    intros H. injection H as <-.
    destruct q as [|c' q]; [discriminate|]. simpl.
    destruct (String.eqb_spec c' c) as [->|Hc].
    + rewrite get_set_same.
      destruct (Fs.get c es) as [n|]; [|discriminate].
      apply (IH _ _ _ M).
    + rewrite (get_set_other _ _ _ _ Hc). auto.
Qed.

(** Writing a file changes no other regular file. *)
Lemma put_file_frame (p q : list string) (d x : list byte) (t t' : node) :
  Fs.put_file t p d = Some t' -> q <> p ->
  Fs.lookup t q = Some (File x) -> Fs.lookup t' q = Some (File x).
Proof.
  revert q t t'. induction p as [|c p IH]; intros q t t'.
  - destruct t; simpl; [|discriminate]. intros H Hq. injection H as <-.
    destruct q; [congruence|discriminate].
  - destruct t as [|es]; simpl; [discriminate|].
    destruct q as [|c' q]; [destruct (Fs.get c es) as [n|];
                            [destruct (Fs.put_file n p d)|destruct p];
                            discriminate|].
    intros H Hq. simpl. destruct (String.eqb_spec c' c) as [->|Hc].
    + destruct (Fs.get c es) as [n|] eqn:G; [|discriminate].
      destruct (Fs.put_file n p d) as [n'|] eqn:P; [|discriminate].
      injection H as <-. simpl. rewrite get_set_same.
      apply (IH _ _ _ P). congruence.
    + assert (E : exists n', t' = Dir (Fs.set c n' es)).
      { destruct (Fs.get c es) as [n|].
        - destruct (Fs.put_file n p d); [|discriminate].
          injection H as <-. eexists. reflexivity.
        - destruct p; [|discriminate]. injection H as <-. eexists. reflexivity. }
      destruct E as [n' ->]. simpl. rewrite (get_set_other _ _ _ _ Hc). auto.
Qed.

Lemma below_cons (c : string) (p q : list string) :
  below (c :: p) (c :: q) = below p q.
Proof. simpl. rewrite String.eqb_refl. reflexivity. Qed.

(** [RemoveAll] changes no regular file that is not below the path. *)
Lemma remove_all_frame (p q : list string) (x : list byte) (t : node) :
  below p q = false ->
  Fs.lookup t q = Some (File x) -> Fs.lookup (Fs.remove_all t p) q = Some (File x).
Proof.
  revert q t. induction p as [|c p IH]; intros q t Hb; [discriminate|].
  destruct t as [d|es]; [auto|].
  destruct q as [|c' q]; [discriminate|].
  destruct (String.eqb_spec c' c) as [->|Hc].
  - rewrite below_cons in Hb. destruct p as [|c2 p]; [discriminate|].
    change (Fs.remove_all (Dir es) (c :: c2 :: p))
      with (match Fs.get c es with
            | Some n => Dir (Fs.set c (Fs.remove_all n (c2 :: p)) es)
            | None => Dir es
            end).
    simpl Fs.lookup at 1. destruct (Fs.get c es) as [n|] eqn:G; [|discriminate].
    intros H. simpl. rewrite get_set_same. apply IH; assumption.
  - intros H. simpl in H.
    assert (E : Fs.remove_all (Dir es) (c :: p) = Dir es
                \/ (exists n', Fs.remove_all (Dir es) (c :: p) = Dir (Fs.set c n' es))
                \/ Fs.remove_all (Dir es) (c :: p) = Dir (Fs.del c es)).
    { destruct p as [|c2 p]; [right; right; reflexivity|].
      change (Fs.remove_all (Dir es) (c :: c2 :: p))
        with (match Fs.get c es with
              | Some n => Dir (Fs.set c (Fs.remove_all n (c2 :: p)) es)
              | None => Dir es
              end).
      destruct (Fs.get c es); [right; left; eexists; reflexivity|left; reflexivity]. }
    destruct E as [->|[[n' ->]| ->]]; simpl.
    + exact H.
    + rewrite (get_set_other _ _ _ _ Hc). exact H.
    + rewrite (get_del_other _ _ _ Hc). exact H.
Qed.

Lemma lookup_below_file (p q : list string) (d : list byte) (t : node) :
  Fs.lookup t p = Some (File d) -> below p q = true -> q <> p ->
  Fs.lookup t q = None.
Proof.
  revert q t. induction p as [|c p IH]; intros q t; simpl.
  - intros H _ Hq. injection H as ->. destruct q; [congruence|reflexivity].
  - destruct t as [|es]; [discriminate|].
    destruct q as [|c' q]; [discriminate|].
    destruct (String.eqb_spec c c') as [<-|]; [|discriminate]. simpl.
    destruct (Fs.get c es) as [n|]; [|reflexivity].
    intros H Hb Hq. apply (IH _ _ H Hb). congruence.
Qed.

Lemma lookup_below_empty_dir (p q : list string) (t : node) :
  Fs.lookup t p = Some (Dir []) -> below p q = true -> q <> p ->
  Fs.lookup t q = None.
Proof.
  revert q t. induction p as [|c p IH]; intros q t; simpl.
  - intros H _ Hq. injection H as ->. destruct q; [congruence|reflexivity].
  - destruct t as [|es]; [discriminate|].
    destruct q as [|c' q]; [discriminate|].
    destruct (String.eqb_spec c c') as [<-|]; [|discriminate]. simpl.
    destruct (Fs.get c es) as [n|]; [|reflexivity].
    intros H Hb Hq. apply (IH _ _ H Hb). congruence.
Qed.

(** [Remove] changes no other regular file. *)
Lemma remove_frame (p q : list string) (x : list byte) (t t' : node) :
  Fs.remove t p = Some t' -> q <> p ->
  Fs.lookup t q = Some (File x) -> Fs.lookup t' q = Some (File x).
Proof.
  unfold Fs.remove. intros H Hq Hl.
  destruct (below p q) eqn:B.
  - exfalso. destruct (Fs.lookup t p) as [[d|[|e es]]|] eqn:L; try discriminate.
    + rewrite (lookup_below_file _ _ _ _ L B Hq) in Hl. discriminate.
    + rewrite (lookup_below_empty_dir _ _ _ L B Hq) in Hl. discriminate.
  - assert (E : t' = Fs.remove_all t p).
    { destruct (Fs.lookup t p) as [[d|[|e es]]|]; try discriminate;
        injection H as <-; reflexivity. }
    subst t'. apply remove_all_frame; assumption.
Qed.

End Frame.

(** ** What an upload leaves alone *)

Section UploadFrame.

Variable q : list string.
Variable x : list byte.

(** The regular file at [q] is there with the bytes [x]. *)
Let kept (o : OS) : Prop := Fs.lookup (disk o) q = Some (File x).

Lemma MkdirAll_keeps (o : OS) (p : string) :
  kept o -> kept (snd (Os.MkdirAll o p)) /\ cwd (snd (Os.MkdirAll o p)) = cwd o.
Proof.
  unfold kept, Os.MkdirAll. intros H.
  destruct (Fs.mkdir_all _ _) eqn:M; simpl; split; auto.
  apply (mkdir_all_frame _ _ _ _ _ M H).
Qed.

Lemma Create_keeps (o : OS) (p : string) :
  Os.at_ o p <> q -> kept o ->
  kept (snd (Os.Create o p)) /\ cwd (snd (Os.Create o p)) = cwd o.
Proof.
  unfold kept, Os.Create. intros Hq H.
  destruct (Fs.put_file _ _ _) eqn:P; simpl; split; auto.
  apply (put_file_frame _ _ _ _ _ _ P); auto.
Qed.

Lemma Write_keeps (o : OS) (p : string) (d : list byte) :
  Os.at_ o p <> q -> kept o ->
  kept (Os.Write o p d) /\ cwd (Os.Write o p d) = cwd o.
Proof.
  unfold kept, Os.Write. intros Hq H.
  destruct (Fs.put_file _ _ _) eqn:P; simpl; split; auto.
  apply (put_file_frame _ _ _ _ _ _ P); auto.
Qed.

Lemma Remove_keeps (o : OS) (p : string) :
  Os.at_ o p <> q -> kept o ->
  kept (Os.Remove o p) /\ cwd (Os.Remove o p) = cwd o.
Proof.
  unfold kept, Os.Remove. intros Hq H.
  destruct (Fs.remove _ _) eqn:R; simpl; split; auto.
  apply (remove_frame _ _ _ _ _ R); auto.
Qed.

Lemma at_cwd (o o' : OS) (p : string) : cwd o' = cwd o -> Os.at_ o' p = Os.at_ o p.
Proof. unfold Os.at_. intros ->. reflexivity. Qed.

(** One turn of the loop changes no regular file but the one at the
    destination of its part. *)
Lemma store_file_keeps (r : Request) (dir : string) (st : StoreState)
      (fh : FileHeader) :
  (reaches_disk r fh = true -> destination r dir (cwd (os st)) fh <> q) ->
  kept (os st) -> kept (os (store_file r dir st fh)).
Proof.
  unfold reaches_disk, destination, store_file. intros Hq H.
  destruct (open_fails fh); [exact H|].
  unfold name_accepted in Hq.
  match goal with |- context [if ?b then _ else _] => destruct b end;
    [exact H|].
  fold (requested_path r fh) in *.
  destruct (Strings.HasPrefix _ ".."); [exact H|].
  specialize (Hq eq_refl).
  change (Os.resolve (cwd (os st)) ?p) with (Os.at_ (os st) p) in Hq.
  set (fullPath := Filepath.Join dir (Filepath.Clean (requested_path r fh))) in *.
  destruct (MkdirAll_keeps (os st) (Filepath.Dir fullPath) H) as [K1 C1].
  destruct (Os.MkdirAll (os st) (Filepath.Dir fullPath)) as [[] o1];
    simpl in K1, C1; simpl negb; cbv iota; [|exact K1].
  assert (Q1 : Os.at_ o1 fullPath <> q) by (rewrite (at_cwd _ _ _ C1); exact Hq).
  destruct (Create_keeps o1 fullPath Q1 K1) as [K2 C2].
  destruct (Os.Create o1 fullPath) as [[] o2];
    simpl in K2, C2; simpl negb; cbv iota; [|exact K2].
  assert (Q2 : Os.at_ o2 fullPath <> q) by (rewrite (at_cwd _ _ _ C2); exact Q1).
  unfold io_Copy. destruct (copy_fails fh) as [k|]; simpl negb; cbv iota.
  - destruct (Write_keeps o2 fullPath (firstn k (Data fh)) Q2 K2) as [K3 C3].
    simpl os. apply Remove_keeps; [|exact K3].
    rewrite (at_cwd _ _ _ C3). exact Q2.
  - simpl os. apply Write_keeps; assumption.
Qed.

Lemma store_fold_keeps (r : Request) (dir : string) (files : list FileHeader)
      (st : StoreState) :
  (forall fh, In fh files -> reaches_disk r fh = true ->
              destination r dir (cwd (os st)) fh <> q) ->
  kept (os st) -> kept (os (fold_left (store_file r dir) files st)).
Proof.
  revert st. induction files as [|fh files IH]; intros st Hq H; [exact H|].
  simpl. apply IH.
  - intros fh' Hin. rewrite store_file_cwd. apply Hq. right. exact Hin.
  - apply store_file_keeps; [apply Hq; left; reflexivity | exact H].
Qed.

Lemma store_loop_keeps (s : StorageServer) (o : OS) (r : Request) :
  (forall fh, In fh (FormFiles r "files") -> reaches_disk r fh = true ->
              destination r (codebase_dir s (FormValue r "codebase_id")) (cwd o) fh
              <> q) ->
  kept o -> kept (os (store_loop s o r)).
Proof.
  intros Hq H. unfold store_loop.
  destruct (MkdirAll_keeps o (codebase_dir s (FormValue r "codebase_id")) H) as [K C].
  apply store_fold_keeps; [|exact K].
  simpl os. rewrite C. exact Hq.
Qed.

(** X1: an upload that succeeds keeps every regular file that was on
    the disk, with its bytes, except at the destinations of its own
    parts. *)
Theorem successful_upload_keeps_other_files
  (s : StorageServer) (o : OS) (r : Request) (message : string) :
  fst (storeFiles s o r) = Success message ->
  (forall fileHeader,
      In fileHeader (FormFiles r "files") -> reaches_disk r fileHeader = true ->
      destination r (codebase_dir s (FormValue r "codebase_id")) (cwd o) fileHeader
      <> q) ->
  Fs.lookup (disk o) q = Some (File x) ->
  Fs.lookup (disk (os (snd (storeFiles s o r)))) q = Some (File x).
Proof.
  intros Hs Hq H. destruct (processed s o r) eqn:P.
  - rewrite (storeFiles_processed s o r P) in *. cbv zeta in *.
    destruct (length _ =? 0)%nat; [discriminate|].
    simpl. apply store_loop_keeps; assumption.
  - destruct (storeFiles_refused s o r P) as (code & msg & o' & E & _).
    rewrite E in Hs. discriminate.
Qed.

(** X2: whatever its outcome, an upload changes no regular file outside
    the directory of its codebase. *)
Theorem upload_changes_nothing_outside_codebase
  (s : StorageServer) (o : OS) (r : Request) :
  below (codebase_at s o (FormValue r "codebase_id")) q = false ->
  Fs.lookup (disk o) q = Some (File x) ->
  Fs.lookup (disk (os (snd (storeFiles s o r)))) q = Some (File x).
Proof.
  intros Hb H. destruct (processed s o r) eqn:P.
  - assert (Hid : Uuid.Parse_ok (FormValue r "codebase_id") = true).
    { unfold processed in P.
      repeat (apply andb_true_iff in P; destruct P as [P ?]). assumption. }
    assert (K : kept (os (store_loop s o r))).
    { apply store_loop_keeps; [|exact H].
      intros fh _ Hr Hd. unfold reaches_disk in Hr.
      apply andb_true_iff in Hr. destruct Hr as [_ Hr].
      apply negb_true_iff in Hr.
      pose proof (full_path_at s o _ _ Hid (prefix_check_stays_in _ Hr)) as F.
      unfold destination in Hd. unfold Os.at_ in F. rewrite F in Hd.
      rewrite <- Hd, below_app in Hb. discriminate. }
    rewrite (storeFiles_processed s o r P). cbv zeta.
    destruct (length _ =? 0)%nat; simpl; [|exact K].
    apply remove_all_frame; [|exact K].
    simpl os. rewrite (at_cwd o _ _ (store_loop_cwd s o r)). exact Hb.
  - destruct (storeFiles_refused s o r P) as (code & msg & o' & E & Hd & _).
    rewrite E. simpl. rewrite Hd. exact H.
Qed.

End UploadFrame.

Lemma successful_upload_keeps_other_files_witness :
  let earlier := os (snd (storeFiles server0 os0
                            (upload [("path_f", "x.txt")] [part "f" "abc"]))) in
  Fs.lookup (disk (os (snd (storeFiles server0 earlier
                              (upload [("path_g", "docs/y.txt")] [part "g" "hello"])))))
            ["srv"; "storage"; id0; "x.txt"] = Some (File abc).
Proof.
  intros earlier.
  apply (successful_upload_keeps_other_files
           ["srv"; "storage"; id0; "x.txt"] abc server0 earlier
           (upload [("path_g", "docs/y.txt")] [part "g" "hello"])
           "Successfully stored 1 files (5 bytes total)").
  - reflexivity.
  - intros fh [<-|[]] _. vm_compute. discriminate.
  - reflexivity.
Defined.

Lemma upload_changes_nothing_outside_codebase_witness :
  let other := os_with (Dir [("etc", Dir [("passwd", File abc)]);
                             ("srv", Dir [("storage", Dir [])])]) in
  Fs.lookup (disk (os (snd (storeFiles server0 other
                              (upload [("path_g", "/etc/passwd")] [part "g" "hello"])))))
            ["etc"; "passwd"] = Some (File abc).
Proof.
  intros other.
  apply (upload_changes_nothing_outside_codebase ["etc"; "passwd"] abc server0 other);
    reflexivity.
Defined.

(** ** What the downloads answer *)

Section Downloads.

Lemma stat_file_lookup (p : list string) (size : Z) (t : node) :
  Fs.stat t p = Fs.IsFile size ->
  exists d, Fs.lookup t p = Some (File d) /\ size = Z.of_nat (length d).
Proof.
  revert t. induction p as [|c p IH]; intros t; simpl.
  - destruct t as [d|]; [|discriminate]. intros H. injection H as <-.
    exists d. split; reflexivity.
  - destruct t as [|es]; [discriminate|].
    destruct (Fs.get c es) as [n|]; [|discriminate]. apply IH.
Qed.

Lemma stat_not_exist_below (p q : list string) (t : node) :
  Fs.stat t p = Fs.NotExist -> Fs.stat t (p ++ q) = Fs.NotExist.
Proof.
  revert t. induction p as [|c p IH]; intros t; simpl.
  - destruct t; discriminate.
  - destruct t as [|es]; [discriminate|].
    destruct (Fs.get c es) as [n|]; [apply IH|reflexivity].
Qed.

Lemma stat_below_file (p q : list string) (d : list byte) (t : node) :
  Fs.lookup t p = Some (File d) -> q <> [] -> Fs.stat t (p ++ q) = Fs.NotDir.
Proof.
  revert t. induction p as [|c p IH]; intros t; simpl.
  - intros H Hq. injection H as ->. destruct q; [congruence|reflexivity].
  - destruct t as [|es]; [discriminate|].
    destruct (Fs.get c es) as [n|]; [apply IH|discriminate].
Qed.

(** X3: for a valid identifier and a path that passes the checks, the
    answers of [downloadFile] and of [getFileContent] are decided by
    what is at the codebase directory followed by the names of the
    cleaned path: a regular file is streamed with its base name and its
    size (and shown as text or as a binary placeholder); a directory is
    refused with 400; nothing there gives 404; and a place below a
    regular file makes both handlers crash on the missing file
    information. *)
Theorem download_answers (s : StorageServer) (o : OS) (codebaseID filePath : string) :
  Uuid.Parse_ok codebaseID = true -> filePath <> "" ->
  Strings.Contains (Filepath.Clean filePath) ".." = false ->
  let place := (codebase_at s o codebaseID ++ cleaned filePath)%list in
  (fst (downloadFile s o codebaseID filePath),
   fst (getFileContent s o codebaseID filePath))
  = download_answer codebaseID filePath
                    (Fs.stat (disk o) place) (Fs.lookup (disk o) place).
Proof.
  intros Hid Hp Hd place.
  pose proof (full_path_at s o codebaseID filePath Hid
                (Contains_check_stays_in _ Hd)) as Hat.
  unfold downloadFile, getFileContent.
  rewrite (locate_accepts s _ _ Hid Hp Hd).
  unfold Os.Stat, Os.ReadAll. simpl. unfold Os.at_, Os.record in *. cbn [cwd disk].
  rewrite Hat. fold place. unfold download_answer, content_response.
  destruct (Fs.stat (disk o) place) eqn:S; try reflexivity.
  destruct (stat_file_lookup _ _ _ S) as (d & L & ->). rewrite L.
  destruct (isTextFile d); reflexivity.
Qed.

Lemma download_answers_witness :
  (fst (downloadFile server0 (os_with (codebase0 [("b", File abc)])) id0 "./b"),
   fst (getFileContent server0 (os_with (codebase0 [("b", File abc)])) id0 "./b"))
  = (Attachment "b" 3 abc, Content "b" 3 true "abc" None).
Proof.
  assert (Hne : "./b" <> "") by discriminate.
  rewrite (download_answers server0 (os_with (codebase0 [("b", File abc)])) id0 "./b"
             eq_refl Hne eq_refl).
  reflexivity.
Defined.

(** X4: for a codebase that was never stored (nothing is at its
    directory), every file request and the archive request are answered
    404. *)
Theorem unknown_codebase_not_found
  (s : StorageServer) (o : OS) (codebaseID filePath : string) :
  Uuid.Parse_ok codebaseID = true -> filePath <> "" ->
  Strings.Contains (Filepath.Clean filePath) ".." = false ->
  Fs.stat (disk o) (codebase_at s o codebaseID) = Fs.NotExist ->
  fst (downloadFile s o codebaseID filePath) = Error 404 "File not found"
  /\ fst (getFileContent s o codebaseID filePath) = Error 404 "File not found"
  /\ fst (downloadZip s o codebaseID) = Error 404 "Codebase not found".
Proof.
  intros Hid Hp Hd Hn.
  pose proof (full_path_at s o codebaseID filePath Hid
                (Contains_check_stays_in _ Hd)) as Hat.
  pose proof (stat_not_exist_below _ (cleaned filePath) _ Hn) as Hs.
  unfold downloadFile, getFileContent, downloadZip.
  rewrite (locate_accepts s _ _ Hid Hp Hd), Hid.
  fold (codebase_dir s codebaseID).
  unfold Os.Stat. simpl. unfold Os.at_, codebase_at in *. cbn [cwd disk].
  unfold Os.at_ in *. rewrite Hat, Hs, Hn. repeat split.
Qed.

Lemma unknown_codebase_not_found_witness :
  fst (downloadFile server0 os0 id0 "a/b/c.txt") = Error 404 "File not found"
  /\ fst (downloadZip server0 os0 id0) = Error 404 "Codebase not found".
Proof.
  assert (Hne : "a/b/c.txt" <> "") by discriminate.
  destruct (unknown_codebase_not_found server0 os0 id0 "a/b/c.txt"
              eq_refl Hne eq_refl eq_refl) as (H1 & _ & H3).
  split; assumption.
Defined.

(** X5: a request for a path that goes on below a stored regular file
    (such as [x.txt/y] when [x.txt] is a file) crashes both download
    handlers: [os.Stat] fails with an error that is not "does not
    exist", and the handlers go on to use the missing file
    information. *)
Theorem download_below_file_crashes
  (s : StorageServer) (o : OS) (codebaseID filePath : string)
  (front rest : list string) (d : list byte) :
  Uuid.Parse_ok codebaseID = true -> filePath <> "" ->
  Strings.Contains (Filepath.Clean filePath) ".." = false ->
  cleaned filePath = (front ++ rest)%list -> rest <> [] ->
  Fs.lookup (disk o) (codebase_at s o codebaseID ++ front) = Some (File d) ->
  fst (downloadFile s o codebaseID filePath) = Crash
  /\ fst (getFileContent s o codebaseID filePath) = Crash.
Proof.
  intros Hid Hp Hd E Hr Hl.
  pose proof (full_path_at s o codebaseID filePath Hid
                (Contains_check_stays_in _ Hd)) as Hat.
  pose proof (stat_below_file _ rest _ _ Hl Hr) as Hs.
  rewrite <- app_assoc, <- E in Hs.
  unfold downloadFile, getFileContent.
  rewrite (locate_accepts s _ _ Hid Hp Hd).
  unfold Os.Stat. simpl. unfold Os.at_ in *. rewrite Hat, Hs. split; reflexivity.
Qed.

Lemma download_below_file_crashes_witness :
  fst (downloadFile server0 (os_with (codebase0 [("x.txt", File abc)])) id0 "x.txt/y")
  = Crash.
Proof.
  assert (Hne : "x.txt/y" <> "") by discriminate.
  assert (Hr : ["y"] <> []) by discriminate.
  destruct (download_below_file_crashes server0
              (os_with (codebase0 [("x.txt", File abc)])) id0 "x.txt/y"
              ["x.txt"] ["y"] abc eq_refl Hne eq_refl eq_refl Hr eq_refl) as [H _].
  exact H.
Defined.

(** X6: the three reading handlers never change the disk or the
    working directory, whatever they are asked. *)
Theorem reading_changes_nothing
  (s : StorageServer) (o : OS) (codebaseID filePath : string) :
  (disk (snd (getFileContent s o codebaseID filePath)) = disk o
   /\ cwd (snd (getFileContent s o codebaseID filePath)) = cwd o)
  /\ (disk (snd (downloadFile s o codebaseID filePath)) = disk o
      /\ cwd (snd (downloadFile s o codebaseID filePath)) = cwd o)
  /\ (disk (snd (downloadZip s o codebaseID)) = disk o
      /\ cwd (snd (downloadZip s o codebaseID)) = cwd o).
Proof.
  unfold getFileContent, downloadFile, downloadZip, createZipArchive.
  unfold Os.Stat, Os.ReadAll, Os.Walk. repeat split;
    repeat match goal with
           | |- context [match ?x with _ => _ end] => destruct x; simpl
           | |- context [if ?x then _ else _] => destruct x; simpl
           end; reflexivity.
Qed.

End Downloads.

(** ** The counters of an upload *)

Section Accounting.

Lemma store_file_account (r : Request) (dir : string) (st : StoreState)
      (fh : FileHeader) :
  exists l, logged (store_file r dir st fh) = l :: logged st
    /\ (is_stored l = true ->
        storedFiles (store_file r dir st fh)
        = (storedFiles st ++ [Filepath.Clean (requested_path r fh)])%list
        /\ totalSize (store_file r dir st fh)
           = totalSize st + Z.of_nat (length (Data fh))).
Proof.
  unfold store_file.
  destruct (open_fails fh); [eexists; split; [reflexivity|discriminate]|].
  match goal with |- context [if ?b then _ else _] => destruct b end;
    [eexists; split; [reflexivity|discriminate]|].
  fold (requested_path r fh).
  destruct (Strings.HasPrefix _ "..");
    [eexists; split; [reflexivity|discriminate]|].
  destruct (Os.MkdirAll _ _) as [[] o1]; simpl negb; cbv iota;
    [|eexists; split; [reflexivity|discriminate]].
  destruct (Os.Create _ _) as [[] o2]; simpl negb; cbv iota;
    [|eexists; split; [reflexivity|discriminate]].
  unfold io_Copy. destruct (copy_fails fh); simpl negb; cbv iota;
    [eexists; split; [reflexivity|discriminate]|].
  eexists. split; [reflexivity|]. intros _. split; reflexivity.
Qed.

Lemma skipped_cons (l : LogLine) (log : list LogLine) :
  skipped (l :: log) = ((if is_stored l then 0 else 1) + skipped log)%nat.
Proof. unfold skipped. simpl. destruct (is_stored l); reflexivity. Qed.

Lemma store_fold_skipped (r : Request) (dir : string) (files : list FileHeader)
      (st : StoreState) :
  (skipped (logged st) <= skipped (logged (fold_left (store_file r dir) files st)))%nat.
Proof.
  revert st. induction files as [|fh files IH]; intros st; simpl; [lia|].
  specialize (IH (store_file r dir st fh)).
  destruct (store_file_account r dir st fh) as (l & Hl & _).
  rewrite Hl, skipped_cons in IH. lia.
Qed.

Lemma store_fold_account (r : Request) (dir : string) (files : list FileHeader)
      (st : StoreState) :
  skipped (logged (fold_left (store_file r dir) files st)) = skipped (logged st) ->
  storedFiles (fold_left (store_file r dir) files st)
  = (storedFiles st
     ++ map (fun fh => Filepath.Clean (requested_path r fh)) files)%list
  /\ totalSize (fold_left (store_file r dir) files st)
     = totalSize st + total_bytes files.
Proof.
  revert st. induction files as [|fh files IH]; intros st; simpl.
  - intros _. rewrite app_nil_r. split; [reflexivity|lia].
  - intros H. pose proof (store_fold_skipped r dir files (store_file r dir st fh)) as M.
    destruct (store_file_account r dir st fh) as (l & Hl & Hs).
    rewrite Hl, skipped_cons in M.
    destruct (is_stored l) eqn:S; [|lia].
    destruct (Hs eq_refl) as [Hsf Hts].
    destruct (IH (store_file r dir st fh)) as [I1 I2].
    { rewrite H, Hl, skipped_cons, S. reflexivity. }
    rewrite I1, I2, Hsf, Hts, <- app_assoc. split; [reflexivity|lia].
Qed.

End Accounting.

(** X7: when [storeFiles] processes a batch and skips none of its
    parts, the list of stored files is the list of the cleaned paths of
    the parts in their order, the total is the sum of the sizes of the
    parts, and the response reports the number of parts and that
    total. *)
Theorem upload_counts_every_part (s : StorageServer) (o : OS) (r : Request) :
  processed s o r = true ->
  skipped (logged (snd (storeFiles s o r))) = 0%nat ->
  let files := FormFiles r "files" in
  storedFiles (snd (storeFiles s o r))
  = map (fun fileHeader => Filepath.Clean (requested_path r fileHeader)) files
  /\ totalSize (snd (storeFiles s o r)) = total_bytes files
  /\ fst (storeFiles s o r)
     = Success ("Successfully stored " ++ show (Z.of_nat (length files))
                ++ " files (" ++ show (total_bytes files) ++ " bytes total)").
Proof.
  intros P H files.
  destruct (storeFiles_state s o r P) as (Hsf & Hlog & Hts).
  rewrite Hlog in H. rewrite Hsf, Hts.
  rewrite (storeFiles_processed s o r P). cbv zeta.
  assert (A : storedFiles (store_loop s o r)
              = map (fun fh => Filepath.Clean (requested_path r fh)) files
              /\ totalSize (store_loop s o r) = total_bytes files).
  { unfold store_loop in *.
    match goal with
      |- context [fold_left (store_file r ?d) ?l ?a] =>
        destruct (store_fold_account r d l a) as [A1 A2]
    end.
    - rewrite H. reflexivity.
    - rewrite A1, A2. unfold store_start. cbn [storedFiles totalSize app].
      split; reflexivity. }
  destruct A as [A1 A2]. rewrite A1, A2, length_map.
  assert (N : length files <> 0%nat).
  { unfold processed in P. apply andb_true_iff in P. destruct P as [P _].
    apply andb_true_iff in P. destruct P as [_ P].
    apply negb_true_iff, Nat.eqb_neq in P. exact P. }
  apply Nat.eqb_neq in N. rewrite N. repeat split.
Qed.

Lemma upload_counts_every_part_witness :
  fst (storeFiles server0 os0
         (upload [("path_f", "a/./x.txt")] [part "f" "abc"; part "g.txt" "hello"]))
  = Success "Successfully stored 2 files (8 bytes total)"
  /\ storedFiles (snd (storeFiles server0 os0
         (upload [("path_f", "a/./x.txt")] [part "f" "abc"; part "g.txt" "hello"])))
     = ["a/x.txt"; "g.txt"].
Proof.
  destruct (upload_counts_every_part server0 os0
              (upload [("path_f", "a/./x.txt")] [part "f" "abc"; part "g.txt" "hello"])
              eq_refl eq_refl) as (H1 & _ & H3).
  split; [rewrite H3|rewrite H1]; reflexivity.
Defined.

(** ** The entries of an archive *)

Section ArchiveEntries.

Lemma walk_entries_in (rel : list string) (c : string) (n : node)
      (es : list (string * node)) (v : list string * node) :
  Fs.get c es = Some n -> In v (Fs.walk (rel ++ [c]) n) ->
  In v ((fix walk_entries (es : list (string * node)) :=
           match es with
           | [] => []
           | (c, n) :: es' => (Fs.walk (rel ++ [c]) n ++ walk_entries es')%list
           end) es).
Proof.
  induction es as [|[c' n'] es IH]; simpl; [discriminate|].
  destruct (String.eqb_spec c c') as [<-|_].
  - intros H Hin. injection H as ->. apply in_or_app. left. exact Hin.
  - intros H Hin. apply in_or_app. right. apply IH; assumption.
Qed.

(** The walk visits every node that can be looked up. *)
Lemma walk_complete (q rel : list string) (t n : node) :
  Fs.lookup t q = Some n -> In ((rel ++ q)%list, n) (Fs.walk rel t).
Proof.
  revert rel t. induction q as [|c q IH]; intros rel t.
  - simpl. intros H. injection H as ->. rewrite app_nil_r.
    destruct n; simpl; left; reflexivity.
  - destruct t as [|es]; simpl; [discriminate|].
    destruct (Fs.get c es) as [n'|] eqn:G; [|discriminate].
    intros H. right. apply (walk_entries_in rel c n' es _ G).
    replace (rel ++ c :: q)%list with ((rel ++ [c]) ++ q)%list
      by (rewrite <- app_assoc; reflexivity).
    apply IH, H.
Qed.

Lemma ReplaceAll_gone (text : string) (old new : ascii) :
  old <> new ->
  Strings.Contains (Strings.ReplaceAll text old new) (String old "") = false.
Proof.
  intros H. induction text as [|c text IH]; [reflexivity|].
  simpl. rewrite IH, orb_false_r.
  destruct (Ascii.eqb_spec c old) as [->|Hc].
  - apply Ascii.eqb_neq in H. rewrite Ascii.eqb_sym, H. reflexivity.
  - apply Ascii.eqb_neq in Hc. rewrite Hc. reflexivity.
Qed.

Lemma Contains_app_slash (text : string) :
  Strings.Contains text "\" = false -> Strings.Contains (text ++ "/") "\" = false.
Proof.
  induction text as [|c text IH]; [reflexivity|].
  simpl. intros H. apply orb_false_iff in H. destruct H as [Hc H].
  rewrite Hc, (IH H). reflexivity.
Qed.

Lemma entry_name_forward (rel : list string) :
  Strings.Contains (entry_name rel) "\" = false.
Proof. apply ReplaceAll_gone. discriminate. Qed.

End ArchiveEntries.

Section ArchiveContents.

Lemma lookup_stat (p : list string) (t n : node) :
  Fs.lookup t p = Some n ->
  Fs.stat t p = match n with
                | File d => Fs.IsFile (Z.of_nat (length d))
                | Dir _ => Fs.IsDir
                end.
Proof.
  destruct n as [d|es]; [apply lookup_file_stat|apply lookup_dir_stat].
Qed.

Lemma names_not_dot (q : list string) :
  q <> [] -> forallb is_name q = true -> String.eqb (Rel q) "." = false.
Proof.
  destruct q as [|e q]; [congruence|]. intros _ H. simpl in H.
  apply andb_true_iff in H. destruct H as [He _].
  apply String.eqb_neq. unfold Rel, Strings.Join.
  destruct q as [|e' q].
  - simpl. intros ->. discriminate.
  - change (String.concat "/" (e :: e' :: q))
      with (e ++ String "/" (String.concat "/" (e' :: q))).
    destruct e as [|c [|c' e]]; [discriminate| |]; simpl; congruence.
Qed.

Lemma in_flat_map_intro {A B : Type} (f : A -> list B) (l : list A) (a : A) (b : B) :
  In a l -> In b (f a) -> In b (flat_map f l).
Proof. intros. apply in_flat_map. exists a. split; assumption. Qed.

(** X8: the archive of [downloadZip] for a codebase that is there has
    an entry for every node below the codebase directory that is
    reached by names: for a regular file an entry with the names joined
    by forward slashes and the bytes of the file, for a directory an
    empty entry whose name ends with a slash; and no name of an entry
    has a backslash. *)
Theorem archive_has_every_file
  (s : StorageServer) (o : OS) (codebaseID : string) (tree : node) :
  Uuid.Parse_ok codebaseID = true ->
  Fs.lookup (disk o) (codebase_at s o codebaseID) = Some tree ->
  exists entries,
    fst (downloadZip s o codebaseID)
    = Archive ("codebase-" ++ codebaseID ++ ".zip") entries
    /\ (forall q d, q <> [] -> forallb is_name q = true ->
                    Fs.lookup tree q = Some (File d) ->
                    In (entry_name q, d) entries)
    /\ (forall q es, q <> [] -> forallb is_name q = true ->
                     Fs.lookup tree q = Some (Dir es) ->
                     In (entry_name q ++ "/", []) entries)
    /\ (forall name data, In (name, data) entries ->
                          Strings.Contains name "\" = false).
Proof.
  intros Hid H. unfold downloadZip. rewrite Hid. simpl negb. cbv iota.
  fold (codebase_dir s codebaseID).
  unfold Os.Stat, createZipArchive, Os.Walk. unfold codebase_at in H. simpl.
  unfold Os.at_, Os.record in *. cbn [cwd disk]. rewrite (lookup_stat _ _ _ H), H.
  eexists. split; [destruct tree; reflexivity|]. split; [|split].
  - intros q d Hq Hn L.
    apply (in_flat_map_intro _ _ (q, File d)); [apply (walk_complete q [] _ _ L)|].
    unfold zip_visit. rewrite (names_not_dot q Hq Hn). left. reflexivity.
  - intros q es Hq Hn L.
    apply (in_flat_map_intro _ _ (q, Dir es)); [apply (walk_complete q [] _ _ L)|].
    unfold zip_visit. rewrite (names_not_dot q Hq Hn). left. reflexivity.
  - intros name data Hin. apply in_flat_map in Hin.
    destruct Hin as ([rel n] & _ & Hin). unfold zip_visit in Hin.
    destruct (String.eqb (Rel rel) "."); [destruct Hin|].
    destruct n; destruct Hin as [Hin|[]]; injection Hin as <- _.
    + apply entry_name_forward.
    + apply Contains_app_slash, entry_name_forward.
Qed.

Lemma archive_has_every_file_witness :
  exists entries,
    fst (downloadZip server0 (os_with (codebase0 [("sub", Dir [("y.bin", File abc)])]))
                     id0)
    = Archive "codebase-123e4567-e89b-12d3-a456-426614174000.zip" entries
    /\ In ("sub/y.bin", abc) entries.
Proof.
  destruct (archive_has_every_file server0
              (os_with (codebase0 [("sub", Dir [("y.bin", File abc)])])) id0
              (Dir [("sub", Dir [("y.bin", File abc)])]) eq_refl eq_refl)
    as (entries & E & F & _).
  exists entries. split; [exact E|].
  apply (F ["sub"; "y.bin"] abc); [discriminate|reflexivity|reflexivity].
Defined.

(** X9: the archive of [DownloadZipHandler] for a codebase that is
    there has, for every regular file that can be looked up below the
    codebase directory, an entry with the names joined by forward
    slashes and the bytes of the file; it has no entry without a file
    behind it (directories get none), and no name of an entry has a
    backslash. *)
Theorem V2_archive_has_every_file (o : OS) (uuid : string) (tree : node) :
  Fs.lookup (disk o) (Os.at_ o (Filepath.Join StorageRoot uuid)) = Some tree ->
  exists entries,
    fst (V2.DownloadZipHandler o uuid) = Archive (uuid ++ ".zip") entries
    /\ (forall q d, Fs.lookup tree q = Some (File d) -> In (entry_name q, d) entries)
    /\ (forall name data, In (name, data) entries ->
          Strings.Contains name "\" = false
          /\ exists q, name = entry_name q /\ In (q, File data) (Fs.walk [] tree)).
Proof.
  intros H. unfold V2.DownloadZipHandler, Os.Stat, Os.Walk. simpl.
  unfold Os.at_, Os.record in *. cbn [cwd disk]. rewrite (lookup_stat _ _ _ H), H.
  eexists. split; [destruct tree; reflexivity|]. split.
  - intros q d L.
    apply (in_flat_map_intro _ _ (q, File d)); [apply (walk_complete q [] _ _ L)|].
    left. reflexivity.
  - intros name data Hin. apply in_flat_map in Hin.
    destruct Hin as ([rel n] & Hv & Hin). unfold V2.zip_visit in Hin.
    destruct n as [d|es]; [|destruct Hin]. destruct Hin as [Hin|[]].
    injection Hin as <- <-.
    split; [apply entry_name_forward|]. exists rel. split; [reflexivity|exact Hv].
Qed.

Lemma V2_archive_has_every_file_witness :
  let stored := snd (V2.UploadHandler os0 id0
                       (upload_v2 [part "x.txt" "abc"; part "sub/y.bin" "hello"])) in
  exists entries,
    fst (V2.DownloadZipHandler stored id0)
    = Archive "123e4567-e89b-12d3-a456-426614174000.zip" entries
    /\ In ("sub/y.bin", list_byte_of_string "hello") entries.
Proof.
  intros stored.
  destruct (V2_archive_has_every_file stored id0
              (two_files abc (list_byte_of_string "hello")) eq_refl)
    as (entries & E & F & _).
  exists entries. split; [exact E|].
  apply (F ["sub"; "y.bin"]). reflexivity.
Defined.

End ArchiveContents.

(** ** The start of the server *)

Section Start.




End Start.

(** ** The download of the second variant *)

Section VariantDownload.
Import Filepath.

Lemma first_element (s : string) (c : ascii) (e : string) (es : list string) :
  elements s = String c e :: es -> exists s', s = String c s'.
Proof.
  destruct s as [|a s]; simpl; [discriminate|].
  destruct (IsPathSeparator a); [discriminate|].
  destruct (elements s); intros H; injection H as -> _; eexists; reflexivity.
Qed.

(** A path without two dots in a row has no parent-directory element. *)
Lemma no_dots_no_dotdot (p : string) :
  Strings.Contains p ".." = false -> ~ In ".." (elements p).
Proof.
  induction p as [|c p IH]; intros H.
  - simpl. intros [E|[]]. discriminate.
  - cbn [Strings.Contains] in H. apply orb_false_iff in H. destruct H as [Hpre Hrest].
    specialize (IH Hrest). rewrite elements_String.
    destruct (IsPathSeparator c).
    + intros [E|Hin]; [discriminate|exact (IH Hin)].
    + destruct (elements p) as [|e es] eqn:E.
      * intros [E'|[]]. discriminate.
      * intros [E'|Hin]; [|apply IH; right; exact Hin].
        injection E' as -> ->.
        destruct (first_element _ _ _ _ E) as [s' ->].
        discriminate.
Qed.

(** Without a parent-directory element the loop of [Clean] only adds
    the names. *)
Lemma fold_names_only (r : bool) (es out : list string) :
  forallb no_separator es = true -> ~ In ".." es ->
  fold_left (clean_step r) es out = (rev (filter is_name es) ++ out)%list.
Proof.
  revert out. induction es as [|e es IH]; intros out Hs Hd; [reflexivity|].
  simpl in Hs. apply andb_true_iff in Hs. destruct Hs as [He Hs].
  assert (Hd' : ~ In ".." es) by (intros Hin; apply Hd; right; exact Hin).
  cbn [fold_left filter]. destruct (is_name e) eqn:N.
  - rewrite (is_name_step r out e N), (IH _ Hs Hd').
    cbn [rev]. rewrite <- app_assoc. reflexivity.
  - assert (S : clean_step r out e = out).
    { unfold clean_step. unfold is_name in N. rewrite He, andb_true_r in N.
      destruct (String.eqb_spec e ""); [reflexivity|].
      destruct (String.eqb_spec e "."); [reflexivity|].
      destruct (String.eqb_spec e ".."); [|discriminate].
      exfalso. apply Hd. left. auto. }
    rewrite S. apply (IH _ Hs Hd').
Qed.

Lemma JoinElems_three (a b c : string) :
  a <> "" -> JoinElems [a; b; c] = Join (a ++ "/" ++ b) c.
Proof.
  intros Ha. unfold JoinElems, Join. apply String.eqb_neq in Ha. rewrite Ha.
  assert (E : String.eqb (a ++ "/" ++ b) "" = false).
  { apply String.eqb_neq. destruct a; [discriminate|discriminate]. }
  rewrite E. simpl negb. cbv iota. unfold Strings.Join.
  change (String.concat "/" [a; b; c]) with (a ++ "/" ++ b ++ "/" ++ c).
  rewrite !append_assoc. reflexivity.
Qed.

(** The place of the file of a download: the names of the path, added
    to the directory of the codebase. *)
Lemma V2_full_path_at (wd : list string) (uuid filePath : string) :
  Strings.Contains filePath ".." = false ->
  Os.resolve wd (JoinElems [StorageRoot; uuid; filePath])
  = (Os.resolve wd (Join StorageRoot uuid) ++ names_of filePath)%list.
Proof.
  intros H.
  assert (Hs : StorageRoot <> "") by discriminate.
  rewrite (JoinElems_three _ _ _ Hs).
  assert (Hb : StorageRoot ++ "/" ++ uuid <> "") by discriminate.
  rewrite (resolve_Join wd _ _ Hb).
  rewrite (fold_names_only _ _ _ (elements_no_sep filePath) (no_dots_no_dotdot _ H)).
  rewrite rev_app_distr, !rev_involutive.
  unfold Join. simpl negb. cbv iota. rewrite resolve_Clean. reflexivity.
Qed.

(** X11: for a path without two dots in a row, the answer of
    [DownloadFileHandler] of the second variant is decided by what is
    at the directory of the codebase followed by the names of the path:
    a regular file is streamed with the base name of the path and its
    size; a directory is refused with 400; nothing there gives 404; and
    a place below a regular file gives 500. *)
Theorem V2_download_answers (o : OS) (uuid filePath : string) :
  Strings.Contains filePath ".." = false ->
  let place := (Os.at_ o (Join StorageRoot uuid) ++ names_of filePath)%list in
  fst (V2_DownloadFileHandler o uuid filePath)
  = V2_download_answer filePath (Fs.stat (disk o) place) (Fs.lookup (disk o) place).
Proof.
  intros H place. unfold V2_DownloadFileHandler. rewrite H.
  pose proof (V2_full_path_at (cwd o) uuid filePath H) as Hat.
  set (full := JoinElems [StorageRoot; uuid; filePath]) in *.
  unfold Os.Stat, Os.ReadAll. cbv beta iota zeta.
  unfold Os.at_, Os.record in *. cbn [cwd disk].
  rewrite Hat. fold place. unfold V2_download_answer.
  destruct (Fs.stat (disk o) place) eqn:S; try reflexivity.
  destruct (stat_file_lookup _ _ _ S) as (d & L & ->). rewrite L. reflexivity.
Qed.

Lemma V2_download_answers_witness :
  fst (V2_DownloadFileHandler
         (os_with (codebase_v2 "any" [("b", File abc)]))
         "any" "./b//c")
  = Error 500 "Error accessing file".
Proof.
  rewrite (V2_download_answers
             (os_with (codebase_v2 "any" [("b", File abc)]))
             "any" "./b//c" eq_refl).
  reflexivity.
Defined.

(** X12: [DownloadFileHandler] of the second variant changes nothing on
    the disk, and whatever the identifier and the path are, every place
    that it asks the file system about is the directory named by the
    storage root joined with the identifier, or lies below it. *)
Theorem V2_download_contained (o : OS) (uuid filePath : string) :
  let o' := snd (V2_DownloadFileHandler o uuid filePath) in
  disk o' = disk o /\ cwd o' = cwd o
  /\ exists new, calls o' = (new ++ calls o)%list
     /\ forall c, In c new ->
          exists p, (c = CallStat p \/ c = CallOpenRead p)
                    /\ below (Os.at_ o (Join StorageRoot uuid)) (Os.at_ o p) = true.
Proof.
  intros o'. unfold o', V2_DownloadFileHandler.
  destruct (Strings.Contains filePath "..") eqn:H.
  - simpl. split; [reflexivity|]. split; [reflexivity|].
    exists []. split; [reflexivity|]. intros c [].
  - assert (B : below (Os.at_ o (Join StorageRoot uuid))
                      (Os.at_ o (JoinElems [StorageRoot; uuid; filePath])) = true).
    { unfold Os.at_. rewrite (V2_full_path_at _ _ _ H). apply below_app. }
    set (full := JoinElems [StorageRoot; uuid; filePath]) in *.
    unfold Os.Stat, Os.ReadAll. cbv beta iota zeta.
    change (Os.at_ (Os.record o (CallStat full) (disk o)) full) with (Os.at_ o full).
    change (disk (Os.record o (CallStat full) (disk o))) with (disk o).
    destruct (Fs.stat (disk o) (Os.at_ o full)) eqn:S.
    + destruct (Fs.lookup (disk o) (Os.at_ o full)) as [[d|es]|];
        (split; [reflexivity|split; [reflexivity|]];
         exists [CallOpenRead full; CallStat full];
         split; [reflexivity|intros c [<-|[<-|[]]]; exists full; auto]).
    + split; [reflexivity|split; [reflexivity|]].
      exists [CallStat full]. split; [reflexivity|].
      intros c [<-|[]]; exists full; auto.
    + split; [reflexivity|split; [reflexivity|]].
      exists [CallStat full]. split; [reflexivity|].
      intros c [<-|[]]; exists full; auto.
    + split; [reflexivity|split; [reflexivity|]].
      exists [CallStat full]. split; [reflexivity|].
      intros c [<-|[]]; exists full; auto.
Qed.

End VariantDownload.

(** ** Upload and download of the second variant *)

Section VariantRoundTrip.
Import Filepath.

Lemma V2_upload_file_cwd (base : string) (st : V2.UploadState) (h : FileHeader) :
  cwd (V2.disk_state (V2.upload_file base st h)) = cwd (V2.disk_state st).
Proof.
  unfold V2.upload_file.
  destruct (open_fails h); [reflexivity|].
  unfold Os.MkdirAll, Os.Create, io_Copy, Os.Write, Os.Remove.
  repeat match goal with
         | |- context [match ?x with _ => _ end] =>
             match x with
             | Fs.mkdir_all _ _ => destruct x
             | Fs.put_file _ _ _ => destruct x
             | Fs.remove _ _ => destruct x
             | copy_fails _ => destruct x
             end; simpl
         end; reflexivity.
Qed.

Lemma V2_upload_fold_cwd (base : string) (hs : list FileHeader) (st : V2.UploadState) :
  cwd (V2.disk_state (fold_left (V2.upload_file base) hs st)) = cwd (V2.disk_state st).
Proof.
  revert st. induction hs as [|h hs IH]; intros st; [reflexivity|].
  simpl. rewrite IH. apply V2_upload_file_cwd.
Qed.

(** A part that the loop counts is on the disk, with its bytes, when
    its turn ends. *)
Lemma V2_upload_file_counted (base : string) (st : V2.UploadState) (h : FileHeader) :
  V2.filesProcessed (V2.upload_file base st h) = V2.filesProcessed st + 1 ->
  Fs.lookup (disk (V2.disk_state (V2.upload_file base st h)))
            (Os.at_ (V2.disk_state st) (Join base (Filename h)))
  = Some (File (Data h)).
Proof.
  unfold V2.upload_file.
  destruct (open_fails h); [lia|].
  unfold Os.MkdirAll.
  destruct (Fs.mkdir_all _ _) as [d1|]; simpl negb; cbv iota;
    [|unfold V2.next; simpl; lia].
  unfold Os.Create.
  destruct (Fs.put_file _ _ []) as [d2|] eqn:C; simpl negb; cbv iota;
    [|unfold V2.next; simpl; lia].
  unfold io_Copy. destruct (copy_fails h); simpl negb; cbv iota;
    [unfold V2.next; simpl; lia|].
  intros _. unfold Os.Write. simpl. unfold Os.at_ in *. simpl in *.
  destruct (put_file_again _ _ (Data h) _ (put_file_lookup _ _ _ _ C)) as [d3 W].
  rewrite W. simpl. apply (put_file_lookup _ _ _ _ W).
Qed.

(** X13: when the last part of an upload to the second variant is
    counted as processed and its file name has no two dots in a row,
    [DownloadFileHandler] for the same identifier and that file name
    streams exactly the bytes of the part, with their number as content
    length. *)
Theorem V2_upload_download_round_trip
  (o : OS) (uuid : string) (r : Request) (front : list FileHeader) (h : FileHeader) :
  parse_fails r = false ->
  all_headers r = (front ++ [h])%list ->
  Strings.Contains (Filename h) ".." = false ->
  fst (Os.MkdirAll o (Join StorageRoot uuid)) = true ->
  V2.filesProcessed (V2_upload_loop o uuid (front ++ [h]))
  = V2.filesProcessed (V2_upload_loop o uuid front) + 1 ->
  fst (V2_DownloadFileHandler (snd (V2.UploadHandler o uuid r)) uuid (Filename h))
  = Attachment (Base (Filename h)) (Z.of_nat (length (Data h))) (Data h).
Proof.
  intros Hparse Hall Hdots Hmk Hcount.
  assert (E : snd (V2.UploadHandler o uuid r)
              = V2.disk_state (V2_upload_loop o uuid (front ++ [h]))).
  { unfold V2.UploadHandler, V2_upload_loop.
    destruct (Os.MkdirAll o (Join StorageRoot uuid)) as [ok o1].
    simpl in Hmk. subst ok. simpl negb. cbv iota. rewrite Hparse, Hall. simpl snd.
    destruct (_ =? 0); reflexivity. }
  rewrite E. rewrite (V2_download_answers _ _ _ Hdots).
  unfold V2_upload_loop in *. rewrite fold_left_app in *. cbn [fold_left] in *.
  set (base := Join StorageRoot uuid) in *.
  set (st := fold_left (V2.upload_file base) front _) in *.
  pose proof (V2_upload_file_counted base st h Hcount) as L.
  assert (P : Os.at_ (V2.disk_state st) (Join base (Filename h))
              = (Os.at_ (V2.disk_state (V2.upload_file base st h)) base
                 ++ names_of (Filename h))%list).
  { rewrite (at_cwd _ _ base (V2_upload_file_cwd base st h)).
    assert (Hb : base <> "") by exact (Clean_not_empty (StorageRoot ++ "/" ++ uuid)).
    unfold Os.at_. rewrite (resolve_Join _ _ _ Hb).
    rewrite (fold_names_only _ _ _ (elements_no_sep _) (no_dots_no_dotdot _ Hdots)).
    rewrite rev_app_distr, !rev_involutive. reflexivity. }
  rewrite <- P, L, (lookup_file_stat _ _ _ L). reflexivity.
Qed.

Lemma V2_upload_download_round_trip_witness :
  fst (V2_DownloadFileHandler
         (snd (V2.UploadHandler os0 id0
                 (upload_v2 [part "x.txt" "abc"; part "sub/y.bin" "hello"])))
         id0 "sub/y.bin")
  = Attachment "y.bin" 5 (list_byte_of_string "hello").
Proof.
  exact (V2_upload_download_round_trip os0 id0
           (upload_v2 [part "x.txt" "abc"; part "sub/y.bin" "hello"])
           [part "x.txt" "abc"] (part "sub/y.bin" "hello")
           eq_refl eq_refl eq_refl eq_refl eq_refl).
Defined.

End VariantRoundTrip.

(** ** More on the classifier *)

Section ClassifierBounds.

Let count := fun (k : Counters) (b : byte) => count_byte b k.

Lemma ordinary_not_counted (b : byte) : ordinary b = true -> counted b = false.
Proof.
  unfold ordinary, counted. intros H.
  repeat match goal with
         | H : _ || _ = true |- _ => apply orb_true_iff in H; destruct H as [H|H]
         | H : _ && _ = true |- _ => apply andb_true_iff in H; destruct H as [H ?]
         end;
  repeat match goal with
         | H : (_ <=? _) = true |- _ => apply Z.leb_le in H
         | H : (_ <? _) = true |- _ => apply Z.ltb_lt in H
         | H : (_ =? _) = true |- _ => apply Z.eqb_eq in H
         end;
  apply orb_false_iff; split;
  try (apply Z.eqb_neq; lia);
  try (rewrite H; reflexivity);
  destruct (Z.ltb_spec (Utf8.byte_val b) 32); try lia; reflexivity.
Qed.

Lemma ordinary_ascii (b : byte) :
  ordinary b = true -> (Utf8.byte_val b <? 128) = true.
Proof.
  intros H. apply null_or_text_ascii. unfold null_or_text. rewrite H.
  apply orb_true_r.
Qed.

Lemma forallb_imp {A : Type} (f g : A -> bool) (l : list A) :
  (forall a, f a = true -> g a = true) ->
  forallb f l = true -> forallb g l = true.
Proof.
  intros I. induction l as [|a l IH]; simpl; [reflexivity|].
  intros H. apply andb_true_iff in H. destruct H as [Ha H].
  rewrite (I a Ha), (IH H). reflexivity.
Qed.

Lemma fold_count_plain (l : list byte) (k : Counters) :
  forallb ordinary l = true -> fold_left count l k = k.
Proof.
  induction l as [|b l IH]; simpl; intros H; [reflexivity|].
  apply andb_true_iff in H. destruct H as [Hb H].
  unfold count at 2. rewrite (count_byte_plain b k (ordinary_not_counted b Hb)).
  apply IH, H.
Qed.

(** Both counters grow by at most one for each byte. *)
Lemma fold_count_bound (l : list byte) (k : Counters) :
  nullBytes (fold_left count l k) <= nullBytes k + Z.of_nat (length l)
  /\ controlChars (fold_left count l k) <= controlChars k + Z.of_nat (length l).
Proof.
  revert k. induction l as [|b l IH]; intros k.
  - simpl. lia.
  - cbn [fold_left length]. destruct (IH (count k b)) as [Hn Hc].
    assert (nullBytes (count k b) <= nullBytes k + 1
            /\ controlChars (count k b) <= controlChars k + 1) as [Sn Sc].
    { unfold count, count_byte. cbn [nullBytes controlChars].
      destruct (Utf8.byte_val b =? 0);
        destruct ((Utf8.byte_val b <? 32) && _ && _ && _); lia. }
    lia.
Qed.

(** X14: every buffer of ordinary text only (printable ASCII, tabs,
    newlines and carriage returns) is classified as text, whatever its
    length. *)
Theorem ordinary_text_is_text (content : list byte) :
  forallb ordinary content = true -> isTextFile content = true.
Proof.
  intros H. unfold isTextFile.
  destruct (Z.of_nat (length content) =? 0); [reflexivity|].
  rewrite (ascii_valid content (forallb_imp _ _ _ ordinary_ascii H)).
  simpl negb. cbv iota.
  rewrite scan_firstn by lia.
  rewrite (fold_count_plain _ _ (forallb_firstn _ _ _ H)).
  cbn [nullBytes controlChars]. unfold ratio_above.
  destruct (_ >? 100); [|reflexivity].
  destruct (Z.ltb_spec (1 * Z.of_nat (length content)) (0 * 100)); [lia|].
  destruct (Z.ltb_spec (5 * Z.of_nat (length content)) (0 * 100)); [lia|].
  reflexivity.
Qed.

Lemma ordinary_text_is_text_witness :
  isTextFile (list_byte_of_string "package main") = true.
Proof. apply ordinary_text_is_text. reflexivity. Defined.

(** X15: the loop stops after the byte at index 8192, and the two
    quotients are taken over the whole length; so content that is valid
    UTF-8 and has 819300 bytes or more is classified as text, whatever
    its bytes are (null bytes included). *)
Theorem long_content_is_text (content : list byte) :
  Utf8.Valid content = true ->
  819300 <= Z.of_nat (length content) ->
  isTextFile content = true.
Proof.
  intros Hv Hlen. unfold isTextFile. rewrite Hv.
  destruct (Z.of_nat (length content) =? 0); [reflexivity|].
  simpl negb. cbv iota.
  rewrite scan_firstn by lia.
  set (seen := firstn (Z.to_nat (8193 - 0)) content).
  destruct (fold_count_bound seen {| nullBytes := 0; controlChars := 0 |}) as [Hn Hc].
  cbn [nullBytes controlChars] in Hn, Hc.
  assert (Hs : Z.of_nat (length seen) <= 8193).
  { unfold seen. rewrite length_firstn. lia. }
  fold count. unfold ratio_above.
  destruct (_ >? 100); [|reflexivity].
  destruct (Z.ltb_spec (1 * Z.of_nat (length content))
                       (nullBytes (fold_left count seen
                          {| nullBytes := 0; controlChars := 0 |}) * 100)); [lia|].
  destruct (Z.ltb_spec (5 * Z.of_nat (length content))
                       (controlChars (fold_left count seen
                          {| nullBytes := 0; controlChars := 0 |}) * 100)); [lia|].
  reflexivity.
Qed.

Lemma zeros_valid (n : nat) : Utf8.Valid (repeat "000"%byte n) = true.
Proof.
  apply ascii_valid. induction n as [|n IH]; [reflexivity|]. simpl. exact IH.
Defined.

Lemma long_content_is_text_witness :
  isTextFile (repeat "000"%byte (Z.to_nat 819300)) = true.
Proof.
  apply long_content_is_text.
  - apply zeros_valid.
  - rewrite repeat_length. rewrite Z2Nat.id; lia.
Defined.

End ClassifierBounds.

(** ** From the upload to the archive *)

Section UploadToArchive.
Import Filepath.

(** A file part is only stored when its cleaned path does not begin
    with two dots. *)
Lemma store_file_checked (r : Request) (dir : string) (st : StoreState)
      (fh : FileHeader) (rel : string) (w : Z) :
  hd_error (logged (store_file r dir st fh)) = Some (StoredFile rel w) ->
  Strings.HasPrefix (Clean (requested_path r fh)) ".." = false.
Proof.
  unfold store_file.
  destruct (open_fails fh); [discriminate|].
  match goal with |- context [if ?b then _ else _] => destruct b end;
    [discriminate|].
  fold (requested_path r fh).
  destruct (Strings.HasPrefix _ ".."); [discriminate|reflexivity].
Qed.

Lemma lookup_app (a b : list string) (t n : node) :
  Fs.lookup t (a ++ b) = Some n ->
  exists m, Fs.lookup t a = Some m /\ Fs.lookup m b = Some n.
Proof.
  revert t. induction a as [|c a IH]; intros t; simpl.
  - intros H. exists t. split; [reflexivity|exact H].
  - destruct t as [|es]; [discriminate|].
    destruct (Fs.get c es) as [k|]; [apply IH|discriminate].
Qed.

(** X16: a file part that [storeFiles] stored as the last of its
    upload, at a path that does not clean to the codebase directory
    itself, is an entry of the archive that [downloadZip] makes of the
    codebase afterwards: its name is the cleaned path, written with
    forward slashes, and its bytes are the bytes of the part. *)
Theorem stored_part_is_archived
  (s : StorageServer) (o : OS) (r : Request)
  (front : list FileHeader) (fileHeader : FileHeader) (p : string) :
  FormFiles r "files" = (front ++ [fileHeader])%list ->
  requested_path r fileHeader = p -> cleaned p <> [] ->
  last_part_stored (snd (storeFiles s o r)) = true ->
  exists entries,
    fst (downloadZip s (os (snd (storeFiles s o r))) (FormValue r "codebase_id"))
    = Archive ("codebase-" ++ FormValue r "codebase_id" ++ ".zip") entries
    /\ In (entry_name (cleaned p), Data fileHeader) entries.
Proof.
  intros Hfiles Hreq Hne Hstored.
  destruct (processed s o r) eqn:P.
  2:{ destruct (storeFiles_refused s o r P) as (code & msg & o' & E & _).
      rewrite E in Hstored. discriminate. }
  assert (Hid : Uuid.Parse_ok (FormValue r "codebase_id") = true).
  { unfold processed in P.
    repeat (apply andb_true_iff in P; destruct P as [P ?]). assumption. }
  rewrite (storeFiles_processed s o r P) in *. cbv zeta in *.
  unfold store_loop in *. rewrite Hfiles, fold_left_app in *. simpl fold_left in *.
  set (dir := codebase_dir s (FormValue r "codebase_id")) in *.
  set (stA := fold_left (store_file r dir) front _) in *.
  assert (Hlog : exists rel w,
             hd_error (logged (store_file r dir stA fileHeader)) = Some (StoredFile rel w)).
  { unfold last_part_stored in Hstored.
    destruct (length (storedFiles _) =? 0)%nat; simpl in Hstored;
      destruct (logged (store_file r dir stA fileHeader)) as [|[] ?];
      try discriminate; eexists _, _; reflexivity. }
  destruct Hlog as (rel & w & Hlog).
  destruct (store_file_stored _ _ _ _ _ _ Hlog) as (Hrel & Hw & Hsf & Hc & Hl).
  pose proof (store_file_checked _ _ _ _ _ _ Hlog) as Hpre.
  rewrite Hreq in Hrel, Hpre. subst rel.
  pose proof (prefix_check_stays_in p Hpre) as Hin.
  rewrite Hsf, List.length_app, Nat.add_comm. simpl Nat.eqb. cbv iota. simpl snd.
  set (st := store_file r dir stA fileHeader) in *.
  pose proof (full_path_at s (os stA) _ p Hid Hin) as Hat. fold dir in Hat.
  rewrite Hat in Hl.
  destruct (lookup_app _ _ _ _ Hl) as (tree & Ht & Hq).
  assert (Hcb : codebase_at s (os stA) (FormValue r "codebase_id")
                = Os.at_ (os st) dir).
  { unfold codebase_at, Os.at_. rewrite Hc. reflexivity. }
  rewrite Hcb in Ht.
  unfold downloadZip. rewrite Hid. simpl negb. cbv iota.
  change (Join (baseStorageDir s) (FormValue r "codebase_id")) with dir.
  unfold Os.Stat, createZipArchive, Os.Walk. cbv beta iota zeta.
  change (Os.at_ (Os.record (os st) (CallStat dir) (disk (os st))) dir)
    with (Os.at_ (os st) dir).
  change (disk (Os.record (os st) (CallStat dir) (disk (os st)))) with (disk (os st)).
  rewrite (lookup_stat _ _ _ Ht), Ht.
  eexists. split; [destruct tree; reflexivity|].
  apply (in_flat_map_intro _ _ (cleaned p, File (Data fileHeader)));
    [apply (walk_complete _ [] _ _ Hq)|].
  unfold zip_visit. rewrite (names_not_dot _ Hne (stays_in_names p Hin)).
  left. reflexivity.
Qed.

Lemma stored_part_is_archived_witness :
  exists entries,
    fst (downloadZip server0
           (os (snd (storeFiles server0 os0
                       (upload [("path_f", "./sub//y.bin")] [part "f" "hello"]))))
           id0)
    = Archive "codebase-123e4567-e89b-12d3-a456-426614174000.zip" entries
    /\ In ("sub/y.bin", list_byte_of_string "hello") entries.
Proof.
  assert (Hne : cleaned "./sub//y.bin" <> []) by discriminate.
  exact (stored_part_is_archived server0 os0
           (upload [("path_f", "./sub//y.bin")] [part "f" "hello"])
           [] (part "f" "hello") "./sub//y.bin" eq_refl eq_refl Hne eq_refl).
Defined.

End UploadToArchive.
